(** * ChatGLM / GLM model definition of TensorRT-LLM, and the BLOOM run script

    A shallow embedding of
    - [tensorrt_llm/models/chatglm/model.py]: [ChatGLMDecoderLayer],
      [ChatGLMModel] and [ChatGLMHeadModel], which declare the decoder graph
      of the ChatGLM family on the network under construction;
    - [examples/bloom/run.py]: the entry point that loads an engine and
      generates.

    The Python code builds a graph: a [Tensor] is a handle on a node of the
    network, and every operation of [tensorrt_llm.functional] or call of a
    module of [tensorrt_llm.layers] adds a node.  Those two packages are
    not among the files embedded here, so the model definition is embedded
    over an interface ([TensorOps]) of the operations it calls, and every
    statement proved over the interface holds for whatever they compute.
    A free instance of the interface ([Sym]), whose tensors are the graph
    terms themselves, is used to evaluate the embedding on concrete
    inputs. *)

From Stdlib Require Import ZArith QArith List String Bool Lia.
From Stdlib Require Import DecimalString.
From Stdlib Require Import DecimalNat.
From Stdlib Require Finite.
From stdpp Require gmap strings.
Import ListNotations.

Local Open Scope string_scope.
Local Open Scope Z_scope.

Set Warnings "-register-all".

(** ** Python exceptions and fallible code *)

(** The exceptions the embedded code can raise.  None is caught anywhere in
    the sources, so each one ends the process. *)
Inductive exn : Type :=
| AssertionError (msg : string)          (* a failed [assert cond, msg] *)
| AttributeError (attr : string)         (* reading an attribute never set *)
| UnboundLocalError (var : string)       (* reading a local never assigned *)
| TypeError (msg : string)
| IndexError (msg : string)
| OverflowError (msg : string).

Inductive result (A : Type) : Type :=
| Ok (a : A)
| Err (e : exn).
Arguments Ok {A} a.
Arguments Err {A} e.

Definition bind {A B : Type} (r : result A) (k : A -> result B) : result B :=
  match r with
  | Ok a => k a
  | Err e => Err e
  end.

Notation "x <- r ;; k" := (bind r (fun x => k))
  (at level 61, r at next level, right associativity).

(** [getattr attr v]: reading [self.attr] where [v] records whether the
    attribute was ever assigned.  [Module.__getattr__] and plain Python
    objects both raise [AttributeError] on a miss. *)
Definition getattr {A : Type} (attr : string) (v : option A) : result A :=
  match v with
  | Some a => Ok a
  | None => Err (AttributeError attr)
  end.

(** Reading a local variable that only some branches assign. *)
Definition getlocal {A : Type} (var : string) (v : option A) : result A :=
  match v with
  | Some a => Ok a
  | None => Err (UnboundLocalError var)
  end.

(** [assert cond, msg] *)
Definition py_assert (cond : bool) (msg : string) : result unit :=
  if cond then Ok tt else Err (AssertionError msg).

(** The error kinds of the specification (section 7).  The sources define
    no exception class of their own: every configuration check they make
    (the model name is given, a dtype is a [trt.DataType], the engine's
    world size is the runtime's) is an [assert], so the exception that
    reports a configuration error is [AssertionError].  The other
    exceptions are what the interpreter raises when code runs into a
    missing attribute, an unassigned local, a value of the wrong type or a
    short list. *)
Inductive error_kind : Type :=
| ConfigurationError
| ShapeError
| ResourceExhausted
| InvalidState.

Definition reports (e : exn) (k : error_kind) : bool :=
  match e, k with
  | AssertionError _, ConfigurationError => true
  | _, _ => false
  end.

(** [x in [s1, ..., sn]] on strings *)
Definition py_in (x : string) (l : list string) : bool :=
  existsb (String.eqb x) l.

(** [zip] of four iterables stops at the shortest. *)
Fixpoint zip4 {A B C D : Type} (la : list A) (lb : list B) (lc : list C)
    (ld : list D) : list (A * B * C * D) :=
  match la, lb, lc, ld with
  | a :: la', b :: lb', c :: lc', d :: ld' =>
      (a, b, c, d) :: zip4 la' lb' lc' ld'
  | _, _, _, _ => []
  end.

(** [range(n)] *)
Definition range (n : Z) : list Z :=
  map Z.of_nat (seq 0 (Z.to_nat n)).

(** [str(i)] of a natural number, for f-strings *)
Definition str_of_nat (n : nat) : string :=
  NilEmpty.string_of_uint (Nat.to_uint n).

(** A Python number kept as the expression that denotes it: a float
    literal as the decimal it is written as, and [base ** exponent]
    unevaluated, there being no need to round it here. *)
Inductive scalar : Type :=
| Lit (q : Q)
| Pow (base : Z) (exponent : Q).

(** The integers that do not convert to a float.  The conversion rounds to
    the nearest double, ties to even, and raises [OverflowError] when that
    lies beyond the largest one, [2**1024 - 2**971]: so from
    [2**1024 - 2**970] on, in absolute value. *)
Definition float_overflow (z : Z) : bool :=
  2 ^ 1024 - 2 ^ 970 <=? Z.abs z.
Arguments float_overflow : simpl never.

(** [base ** 0.5] for an [int] base.  The base is converted to a float
    first, which is where the expression can raise; the power itself does
    not (it is a complex number for a negative base, and no bigger than
    the base otherwise). *)
Definition pow_half (base : Z) : result scalar :=
  if float_overflow base
  then Err (OverflowError "int too large to convert to float")
  else Ok (Pow base (1 # 2)).

(** A dynamically typed value of the fields that hold [None], a tensor, or
    a list (or tuple) whose items are [None] or a tensor. *)
Inductive pyval (T : Type) : Type :=
| PNone
| PTensor (t : T)
| PList (l : list (option T)).
Arguments PNone {T}.
Arguments PTensor {T} t.
Arguments PList {T} l.

Definition of_item {T : Type} (o : option T) : pyval T :=
  match o with
  | Some t => PTensor t
  | None => PNone
  end.

(** Iterating a value: a list yields its items, anything else is not
    iterable. *)
Definition py_iter {T : Type} (field : string) (v : pyval T)
  : result (list (option T)) :=
  match v with
  | PList l => Ok l
  | _ => Err (TypeError (field ++ " is not iterable"))
  end.

(** ** Configuration *)

Inductive norm_kind : Type := LayerNorm | RmsNorm.

(** The members of [AttentionMaskType] and [PositionEmbeddingType] that the
    model definition selects. *)
Inductive AttentionMaskType : Type :=
| bidirectional
| causal
| bidirectionalglm.

Inductive PositionEmbeddingType : Type :=
| chatglm
| rope_gptj
| learned_absolute.

(** A [trt.DataType] is recorded by its name; [args.dtype] and
    [args.logits_dtype] are either such a value or a string that names
    one. *)
Definition DataType : Type := string.

Inductive dtype_arg : Type :=
| DtypeStr (s : string)
| DtypeTrt (d : DataType)
| DtypeOther.

(** The two queries made on [args.quant_mode]. *)
Record QuantMode : Type := {
  has_int8_kv_cache : bool;
  has_fp8_kv_cache : bool
}.

Record Mapping : Type := {
  tp_group : list Z;
  tp_size : Z;
  rank : Z
}.

(** [{"type": "linear", "factor": ...}] *)
Record RotaryScaling : Type := {
  rs_type : string;
  rs_factor : scalar
}.

(** The namespace [args] the three classes are built from, with the
    attributes they read. *)
Module Args.
Record t : Type := {
  model_name : string;
  use_cache : bool;
  num_layers : Z;
  hidden_size : Z;
  ffn_hidden_size : Z;
  num_heads : Z;
  num_kv_heads : Z;
  vocab_size : Z;
  max_seq_length : Z;
  max_input_len : Z;
  max_output_len : Z;
  tokens_per_block : Z;
  norm_epsilon : scalar;
  hidden_act : string;
  dtype : dtype_arg;
  logits_dtype : dtype_arg;
  apply_query_key_layer_scaling : bool;
  apply_residual_connection_post_layernorm : bool;
  rmsnorm : bool;
  rotary_embedding_scaling : scalar;
  qkv_bias : bool;
  linear_bias : bool;
  quant_mode : QuantMode;
  mapping : Mapping
}.
End Args.

(** The supported model identifiers, as the branches of the sources list
    them. *)
Definition chatglm_6b_names : list string := ["chatglm_6b"].
Definition chatglm2_names : list string :=
  ["chatglm2_6b"; "chatglm2_6b_32k"; "chatglm3_6b"; "chatglm3_6b_base";
   "chatglm3_6b_32k"].
Definition glm_10b_names : list string := ["glm_10b"].
Definition supported_names : list string :=
  chatglm_6b_names ++ chatglm2_names ++ glm_10b_names.

(** ** Modules of [tensorrt_llm.layers]

    A module is recorded by the arguments it is constructed with and by the
    place it is registered at in its parent ([Module.__setattr__] names its
    parameters after that place), which tells two modules built from the
    same arguments apart: each has weights of its own. *)
Inductive site : Type :=
| InLayer (layer_id : Z) (attr : string)
| InModel (attr : string).

Record Norm : Type := {
  norm_site : site;
  norm_cls : norm_kind;
  normalized_shape : Z;
  eps : scalar;
  elementwise_affine : bool;
  norm_dtype : dtype_arg
}.

Record Attention : Type := {
  attn_site : site;
  attn_hidden_size : Z;
  num_attention_heads : Z;
  attn_num_kv_heads : Z;
  max_position_embeddings : Z;
  attn_num_layers : Z;
  attn_apply_query_key_layer_scaling : bool;
  attention_mask_type : AttentionMaskType;
  attn_bias : bool;
  attn_dtype : dtype_arg;
  position_embedding_type : PositionEmbeddingType;
  rotary_embedding_base : scalar;
  attn_rotary_embedding_scaling : option RotaryScaling;
  use_int8_kv_cache : bool;
  rotary_embedding_percentage : scalar;
  attn_tp_group : list Z;
  attn_tp_size : Z;
  attn_tp_rank : Z;
  attn_quant_mode : QuantMode;
  q_scaling : scalar;
  cross_attention : bool;
  relative_attention : bool;
  max_distance : Z;
  num_buckets : Z;
  attn_instance_id : Z;
  dense_bias : bool
}.

Record MLP : Type := {
  mlp_site : site;
  mlp_hidden_size : Z;
  mlp_ffn_hidden_size : Z;
  mlp_hidden_act : string;
  mlp_bias : bool;
  mlp_dtype : dtype_arg;
  mlp_tp_group : list Z;
  mlp_tp_size : Z;
  mlp_quant_mode : QuantMode;
  mlp_instance_id : Z
}.

Record Embedding : Type := {
  emb_site : site;
  num_embeddings : Z;
  embedding_dim : Z;
  emb_dtype : dtype_arg;
  emb_tp_size : Z;
  emb_tp_group : option (list Z);
  sharding_dim : Z;
  emb_tp_rank : Z;
  emb_instance_id : Z
}.

Record ColumnLinear : Type := {
  lin_site : site;
  in_features : Z;
  out_features : Z;
  bias : bool;
  lin_dtype : DataType;
  lin_tp_group : list Z;
  lin_tp_size : Z;
  gather_output : bool
}.

(** [KeyValueCacheParams] and [AttentionParams], with the fields the
    sources give them. *)
Record KeyValueCacheParams (T : Type) : Type := {
  past_key_value : pyval T;
  host_past_key_value_lengths : pyval T;
  host_max_kv_cache_lengths : pyval T;
  kv_cache_block_pointers : pyval T;
  cache_indirection : pyval T
}.
Arguments past_key_value {T} _.
Arguments host_past_key_value_lengths {T} _.
Arguments host_max_kv_cache_lengths {T} _.
Arguments kv_cache_block_pointers {T} _.
Arguments cache_indirection {T} _.

Record AttentionParams (T : Type) : Type := {
  sequence_length : pyval T;
  context_lengths : pyval T;
  host_context_lengths : pyval T;
  max_context_length : Z;
  host_request_types : pyval T
}.

(** The part of [default_net().plugin_config] the model reads. *)
Record PluginConfig : Type := {
  remove_input_padding : bool;
  paged_kv_cache : bool
}.

(** ** The operations the model definition calls

    [tensorrt_llm.functional], [tensorrt_llm.layers] and
    [tensorrt_llm._utils] are not among the files embedded; what the model
    calls of them is taken as an interface.  [Attention.forward] returns
    the pair [(context, present)] when called with [use_cache] and the
    context alone otherwise (the call contract of section 4.2 of the
    specification); the two components are [Attention_context] and
    [Attention_present]. *)
Class TensorOps : Type := {
  Tensor : Type;
  (* tensorrt_llm.functional *)
  add : Tensor -> Tensor -> Tensor;                  (* a + b *)
  mul : Tensor -> scalar -> Tensor;                  (* a * alpha *)
  split : Tensor -> Z -> Z -> list Tensor;       (* a.split(size, dim=d) *)
  shape : Tensor -> Z -> Tensor;                     (* shape(a, i) *)
  concat : list (Tensor + Z) -> Tensor;              (* concat([...]) *)
  view : Tensor -> Tensor -> Tensor;                 (* a.view(shape) *)
  gather_last_token_logits : Tensor -> Tensor -> bool -> Tensor;
  (* tensorrt_llm.layers *)
  Embedding_forward : Embedding -> Tensor -> Tensor;
  Norm_forward : Norm -> Tensor -> Tensor;
  Attention_context :
    Attention -> Tensor -> bool -> KeyValueCacheParams Tensor ->
    AttentionParams Tensor -> Tensor -> Tensor;
  Attention_present :
    Attention -> Tensor -> bool -> KeyValueCacheParams Tensor ->
    AttentionParams Tensor -> Tensor -> Tensor;
  MLP_forward : MLP -> Tensor -> Tensor;
  ColumnLinear_forward : ColumnLinear -> Tensor -> Tensor;
  fill_none_tensor_list :
    KeyValueCacheParams Tensor -> Z -> KeyValueCacheParams Tensor;
  (* tensorrt_llm._utils *)
  str_dtype_to_trt : string -> DataType
}.

(** ** [ChatGLMDecoderLayer] *)

Module ChatGLMDecoderLayer.

(** What the [if]/[elif] chain of [__init__] (lines 38 to 62) leaves behind:
    the attributes [alpha], [norm] and
    [apply_residual_connection_post_layernorm] of [self] and the locals
    [attention_mask_type] and [position_embedding_type], each assigned in
    some branches only; [rotary_embedding_scaling] starts as [None].  The
    first branch computes [alpha] before it assigns anything else, and ends
    the construction there when the power raises. *)
Record variant : Type := {
  v_alpha : option scalar;
  v_norm : option norm_kind;
  v_apply_residual_connection_post_layernorm : option bool;
  v_attention_mask_type : option AttentionMaskType;
  v_position_embedding_type : option PositionEmbeddingType;
  v_rotary_embedding_scaling : option RotaryScaling
}.

Definition select_variant (args : Args.t) : result variant :=
  if py_in (Args.model_name args) ["chatglm_6b"] then
    alpha <- pow_half (2 * Args.num_layers args) ;;
    Ok {| v_alpha := Some alpha;
          v_norm := Some LayerNorm;
          v_apply_residual_connection_post_layernorm := None;
          v_attention_mask_type := Some bidirectional;
          v_position_embedding_type := Some chatglm;
          v_rotary_embedding_scaling := None |}
  else if py_in (Args.model_name args)
            ["chatglm2_6b"; "chatglm2_6b_32k"; "chatglm3_6b";
             "chatglm3_6b_base"; "chatglm3_6b_32k"] then
    Ok {| v_alpha := None;
          v_norm := Some (if Args.rmsnorm args then RmsNorm else LayerNorm);
          v_apply_residual_connection_post_layernorm :=
            Some (Args.apply_residual_connection_post_layernorm args);
          v_attention_mask_type := Some causal;
          v_position_embedding_type := Some rope_gptj;
          v_rotary_embedding_scaling :=
            if py_in (Args.model_name args)
                 ["chatglm2_6b_32k"; "chatglm3_6b_32k"]
            then Some {| rs_type := "linear";
                         rs_factor := Args.rotary_embedding_scaling args |}
            else None |}
  else if py_in (Args.model_name args) ["glm_10b"] then
    Ok {| v_alpha := None;
          v_norm := Some LayerNorm;
          v_apply_residual_connection_post_layernorm :=
            Some (Args.apply_residual_connection_post_layernorm args);
          v_attention_mask_type := Some bidirectionalglm;
          v_position_embedding_type := Some learned_absolute;
          v_rotary_embedding_scaling := None |}
  else
    Ok {| v_alpha := None;
          v_norm := None;
          v_apply_residual_connection_post_layernorm := None;
          v_attention_mask_type := None;
          v_position_embedding_type := None;
          v_rotary_embedding_scaling := None |}.

(** The constructed object: [alpha] and
    [apply_residual_connection_post_layernorm] exist on it only when the
    branch taken assigned them. *)
Record t : Type := {
  model_name : string;
  use_cache : bool;
  alpha : option scalar;
  apply_residual_connection_post_layernorm : option bool;
  norm : norm_kind;
  pre_norm : Norm;
  attention : Attention;
  mlp : MLP;
  post_norm : Norm
}.

(** [__init__(self, layer_id, args)] *)
Definition __init__ (layer_id : Z) (args : Args.t) : result t :=
  v <- select_variant args ;;
  norm_cls <- getattr "norm" (v_norm v) ;;
  let pre_norm :=
    {| norm_site := InLayer layer_id "pre_norm";
       norm_cls := norm_cls;
       normalized_shape := Args.hidden_size args;
       eps := Args.norm_epsilon args;
       elementwise_affine := true;
       norm_dtype := Args.dtype args |} in
  mask_type <- getlocal "attention_mask_type" (v_attention_mask_type v) ;;
  pos_type <-
    getlocal "position_embedding_type" (v_position_embedding_type v) ;;
  let attention :=
    {| attn_site := InLayer layer_id "attention";
       attn_hidden_size := Args.hidden_size args;
       num_attention_heads := Args.num_heads args;
       attn_num_kv_heads := Args.num_kv_heads args;
       max_position_embeddings := Args.max_seq_length args;
       attn_num_layers := Args.num_layers args;
       attn_apply_query_key_layer_scaling :=
         Args.apply_query_key_layer_scaling args;
       attention_mask_type := mask_type;
       attn_bias := Args.qkv_bias args;
       attn_dtype := Args.dtype args;
       position_embedding_type := pos_type;
       rotary_embedding_base := Lit 10000;
       attn_rotary_embedding_scaling := v_rotary_embedding_scaling v;
       use_int8_kv_cache := has_int8_kv_cache (Args.quant_mode args);
       rotary_embedding_percentage := Lit (1 # 2);
       attn_tp_group := tp_group (Args.mapping args);
       attn_tp_size := tp_size (Args.mapping args);
       attn_tp_rank := rank (Args.mapping args);
       attn_quant_mode := Args.quant_mode args;
       q_scaling := Lit 1;
       cross_attention := false;
       relative_attention := false;
       max_distance := 0;
       num_buckets := 0;
       attn_instance_id := layer_id * 2;
       dense_bias := Args.linear_bias args |} in
  let mlp :=
    {| mlp_site := InLayer layer_id "mlp";
       mlp_hidden_size := Args.hidden_size args;
       mlp_ffn_hidden_size := Args.ffn_hidden_size args;
       mlp_hidden_act := Args.hidden_act args;
       mlp_bias := Args.linear_bias args;
       mlp_dtype := Args.dtype args;
       mlp_tp_group := tp_group (Args.mapping args);
       mlp_tp_size := tp_size (Args.mapping args);
       mlp_quant_mode := Args.quant_mode args;
       mlp_instance_id := layer_id * 2 + 1 |} in
  let post_norm :=
    {| norm_site := InLayer layer_id "post_norm";
       norm_cls := norm_cls;
       normalized_shape := Args.hidden_size args;
       eps := Args.norm_epsilon args;
       elementwise_affine := true;
       norm_dtype := Args.dtype args |} in
  Ok {| model_name := Args.model_name args;
        use_cache := Args.use_cache args;
        alpha := v_alpha v;
        apply_residual_connection_post_layernorm :=
          v_apply_residual_connection_post_layernorm v;
        norm := norm_cls;
        pre_norm := pre_norm;
        attention := attention;
        mlp := mlp;
        post_norm := post_norm |}.

Section Forward.
Context {ops : TensorOps}.

(** What [forward] returns: [(output, presents)] with the cache in use,
    [output] alone otherwise. *)
Inductive output : Type :=
| WithPresents (out presents : Tensor)
| Plain (out : Tensor).

(** The values [forward] computes on the way, in the order it computes
    them; the residual wiring is stated on these. *)
Record trace : Type := {
  tr_norm_output : Tensor;         (* pre_norm(hidden_states) *)
  tr_attention_output : Tensor;
  tr_norm_input : Tensor;          (* the input of post_norm *)
  tr_norm_output2 : Tensor;        (* post_norm(norm_input) *)
  tr_mlp_output : Tensor;
  tr_output : Tensor
}.

(** [forward(self, hidden_states, position_ids, kv_cache_params,
    attention_params)], with its intermediate values. *)
Definition forward_trace (self : t) (hidden_states position_ids : Tensor)
    (kv_cache_params : KeyValueCacheParams Tensor)
    (attention_params : AttentionParams Tensor)
  : result (trace * option Tensor) :=
  let norm_output := Norm_forward (pre_norm self) hidden_states in
  let attention_output :=
    Attention_context (attention self) norm_output (use_cache self)
      kv_cache_params attention_params position_ids in
  let presents :=
    if use_cache self
    then Some (Attention_present (attention self) norm_output
                 (use_cache self) kv_cache_params attention_params
                 position_ids)
    else None in
  if py_in (model_name self) ["chatglm_6b"] then
    let residual := norm_output in
    alpha <- getattr "alpha" (alpha self) ;;
    let norm_input := add (mul residual alpha) attention_output in
    let norm_output2 := Norm_forward (post_norm self) norm_input in
    let mlp_output := MLP_forward (mlp self) norm_output2 in
    let residual := norm_output2 in
    let output := add (mul residual alpha) mlp_output in
    Ok ({| tr_norm_output := norm_output;
           tr_attention_output := attention_output;
           tr_norm_input := norm_input;
           tr_norm_output2 := norm_output2;
           tr_mlp_output := mlp_output;
           tr_output := output |}, presents)
  else if py_in (model_name self)
            ["chatglm2_6b"; "chatglm2_6b_32k"; "chatglm3_6b";
             "chatglm3_6b_base"; "chatglm3_6b_32k"; "glm_10b"] then
    post_layernorm <-
      getattr "apply_residual_connection_post_layernorm"
        (apply_residual_connection_post_layernorm self) ;;
    let residual := if post_layernorm then norm_output else hidden_states in
    let norm_input := add residual attention_output in
    let norm_output2 := Norm_forward (post_norm self) norm_input in
    let mlp_output := MLP_forward (mlp self) norm_output2 in
    let residual := if post_layernorm then norm_output2 else norm_input in
    let output := add residual mlp_output in
    Ok ({| tr_norm_output := norm_output;
           tr_attention_output := attention_output;
           tr_norm_input := norm_input;
           tr_norm_output2 := norm_output2;
           tr_mlp_output := mlp_output;
           tr_output := output |}, presents)
  else Err (UnboundLocalError "output").

Definition forward (self : t) (hidden_states position_ids : Tensor)
    (kv_cache_params : KeyValueCacheParams Tensor)
    (attention_params : AttentionParams Tensor) : result output :=
  r <- forward_trace self hidden_states position_ids kv_cache_params
         attention_params ;;
  match snd r with
  | Some presents => Ok (WithPresents (tr_output (fst r)) presents)
  | None => Ok (Plain (tr_output (fst r)))
  end.

End Forward.

End ChatGLMDecoderLayer.

(** ** [ChatGLMModel] *)

(** [l[i]] on a list *)
Definition py_index {A : Type} (l : list A) (i : nat) : result A :=
  match nth_error l i with
  | Some a => Ok a
  | None => Err (IndexError "list index out of range")
  end.

(** A generator of fallible constructions, consumed in order. *)
Fixpoint map_result {A B : Type} (f : A -> result B) (l : list A)
  : result (list B) :=
  match l with
  | [] => Ok []
  | a :: l' => b <- f a ;; bs <- map_result f l' ;; Ok (b :: bs)
  end.

Module ChatGLMModel.

Record t : Type := {
  model_name : string;
  norm : norm_kind;
  use_cache : bool;
  embedding : Embedding;
  position_embeddings : option Embedding;
  block_embeddings : option Embedding;
  layers : list ChatGLMDecoderLayer.t;
  final_norm : Norm
}.

(** The embedding tables are all built with [tp_size=1], [tp_group=None],
    [sharding_dim=0], [tp_rank=0] and [instance_id=args.num_layers * 2]. *)
Definition table (attr : string) (rows : Z) (args : Args.t) : Embedding :=
  {| emb_site := InModel attr;
     num_embeddings := rows;
     embedding_dim := Args.hidden_size args;
     emb_dtype := Args.dtype args;
     emb_tp_size := 1;
     emb_tp_group := None;
     sharding_dim := 0;
     emb_tp_rank := 0;
     emb_instance_id := Args.num_layers args * 2 |}.

(** The [if]/[elif] of lines 182 to 188: the class of the final norm. *)
Definition select_norm (args : Args.t) : option norm_kind :=
  if py_in (Args.model_name args) ["chatglm_6b"; "glm_10b"] then
    Some LayerNorm
  else if py_in (Args.model_name args)
            ["chatglm2_6b"; "chatglm2_6b_32k"; "chatglm3_6b";
             "chatglm3_6b_base"; "chatglm3_6b_32k"] then
    Some RmsNorm
  else None.

(** [__init__(self, args)] *)
Definition __init__ (args : Args.t) : result t :=
  let norm := select_norm args in
  let embedding := table "embedding" (Args.vocab_size args) args in
  let glm := py_in (Args.model_name args) ["glm_10b"] in
  let position_embeddings :=
    if glm
    then Some (table "position_embeddings" (Args.max_seq_length args + 1) args)
    else None in
  let block_embeddings :=
    if glm
    then Some (table "block_embeddings" (Args.max_seq_length args + 1) args)
    else None in
  layers <-
    map_result (fun i => ChatGLMDecoderLayer.__init__ i args)
      (range (Args.num_layers args)) ;;
  norm_cls <- getattr "norm" norm ;;
  Ok {| model_name := Args.model_name args;
        norm := norm_cls;
        use_cache := Args.use_cache args;
        embedding := embedding;
        position_embeddings := position_embeddings;
        block_embeddings := block_embeddings;
        layers := layers;
        final_norm :=
          {| norm_site := InModel "final_norm";
             norm_cls := norm_cls;
             normalized_shape := Args.hidden_size args;
             eps := Args.norm_epsilon args;
             elementwise_affine := true;
             norm_dtype := Args.dtype args |} |}.

Section Forward.
Context {ops : TensorOps}.

(** What [forward] returns: [(hidden_states, tuple(presents))] with the
    cache in use, [hidden_states] alone otherwise. *)
Inductive output : Type :=
| WithPresents (hidden_states : Tensor) (presents : list Tensor)
| Plain (hidden_states : Tensor).

(** Lines 242 to 257 of [forward]: the hidden states the first decoder
    layer is given. *)
Definition embed (self : t) (input_ids position_ids : Tensor)
  : result Tensor :=
  let hidden_states := Embedding_forward (embedding self) input_ids in
  if py_in (model_name self) ["glm_10b"] then
    let position_ids_list := split position_ids 1 1 in
    table0 <- getattr "position_embeddings" (position_embeddings self) ;;
    column0 <- py_index position_ids_list 0 ;;
    let position_embedding := Embedding_forward table0 column0 in
    table1 <- getattr "block_embeddings" (block_embeddings self) ;;
    column1 <- py_index position_ids_list 1 ;;
    let block_embedding := Embedding_forward table1 column1 in
    let position_embedding := add position_embedding block_embedding in
    let position_embedding :=
      view position_embedding
        (concat [inl (shape input_ids 0); inl (shape input_ids 1);
                 inr 4096]) in
    Ok (add hidden_states position_embedding)
  else Ok hidden_states.

(** The cache parameters a layer is called with (lines 271 to 278):
    its own entries, and the fields shared by all layers. *)
Definition layer_kv_cache_params
    (kv_cache_params : KeyValueCacheParams Tensor)
    (past pointer max_kv_cache_length : option Tensor)
  : KeyValueCacheParams Tensor :=
  {| past_key_value := PList [past];
     kv_cache_block_pointers := PList [pointer];
     host_past_key_value_lengths :=
       host_past_key_value_lengths kv_cache_params;
     host_max_kv_cache_lengths := of_item max_kv_cache_length;
     cache_indirection := cache_indirection kv_cache_params |}.

(** The [for] loop of lines 264 to 284 over the zipped layers and cache
    entries; [hidden_states] and [presents] are the loop's variables. *)
Fixpoint run_layers (self_use_cache : bool) (position_ids : Tensor)
    (kv_cache_params : KeyValueCacheParams Tensor)
    (attention_params : AttentionParams Tensor)
    (zipped :
       list (ChatGLMDecoderLayer.t * option Tensor * option Tensor
             * option Tensor))
    (hidden_states : Tensor) (presents : list Tensor)
  : result (Tensor * list Tensor) :=
  match zipped with
  | [] => Ok (hidden_states, presents)
  | (layer, past, pointer, max_kv_cache_length) :: rest =>
      layer_output <-
        ChatGLMDecoderLayer.forward layer hidden_states position_ids
          (layer_kv_cache_params kv_cache_params past pointer
             max_kv_cache_length)
          attention_params ;;
      if self_use_cache then
        match layer_output with
        | ChatGLMDecoderLayer.WithPresents out present =>
            run_layers self_use_cache position_ids kv_cache_params
              attention_params rest out (presents ++ [present])
        | ChatGLMDecoderLayer.Plain _ =>
            Err (TypeError "'Tensor' object is not subscriptable")
        end
      else
        run_layers self_use_cache position_ids kv_cache_params
          attention_params rest hidden_states presents
  end.

(** [forward(self, input_ids, position_ids, kv_cache_params,
    attention_params)] *)
Definition forward (self : t) (input_ids position_ids : Tensor)
    (kv_cache_params : KeyValueCacheParams Tensor)
    (attention_params : AttentionParams Tensor) : result output :=
  hidden_states <- embed self input_ids position_ids ;;
  let kv_cache_params :=
    fill_none_tensor_list kv_cache_params
      (Z.of_nat (List.length (layers self))) in
  pasts <- py_iter "past_key_value" (past_key_value kv_cache_params) ;;
  pointers <-
    py_iter "kv_cache_block_pointers"
      (kv_cache_block_pointers kv_cache_params) ;;
  max_kv_cache_lengths <-
    py_iter "host_max_kv_cache_lengths"
      (host_max_kv_cache_lengths kv_cache_params) ;;
  r <- run_layers (use_cache self) position_ids kv_cache_params
         attention_params
         (zip4 (layers self) pasts pointers max_kv_cache_lengths)
         hidden_states [] ;;
  let hidden_states := Norm_forward (final_norm self) (fst r) in
  Ok (if use_cache self
      then WithPresents hidden_states (snd r)
      else Plain hidden_states).

End Forward.

End ChatGLMModel.

(** ** [ChatGLMHeadModel] *)

(** Modelled from the spec: [pad_vocab_size] of [tensorrt_llm._utils] is not
    among the sources.  Section 4.4 has the projection go to the vocabulary
    size "padded to a multiple required by parallel sharding": the least
    multiple of the tensor-parallel degree that is no less than the
    vocabulary size. *)
Definition pad_vocab_size (vocab_size tp_size : Z) : Z :=
  (vocab_size + tp_size - 1) / tp_size * tp_size.

Module ChatGLMHeadModel.

(** The class extends [ChatGLMModel]: [base] holds the attributes the
    parent's [__init__] sets, [model_name] and [use_cache] among them
    ([init] assigns both again, to the same values). *)
Record t : Type := {
  base : ChatGLMModel.t;
  kv_dtype : DataType;
  dtype : DataType;
  logits_dtype : DataType;
  hidden_size : Z;
  mapping : Mapping;
  max_num_tokens : Z;
  num_heads : Z;
  num_kv_heads : Z;
  num_layers : Z;
  tokens_per_block : Z;
  lm_head : ColumnLinear
}.

(** A graph output: [tensor.mark_output(name, dtype)]. *)
Record marked (T : Type) : Type := {
  out_name : string;
  out_tensor : T;
  out_dtype : DataType
}.
Arguments out_name {T} _.
Arguments out_tensor {T} _.
Arguments out_dtype {T} _.

Section Methods.
Context {ops : TensorOps}.

(** [str_dtype_to_trt(d) if isinstance(d, str) else d], the latter under
    [assert isinstance(d, trt.DataType)] *)
Definition to_trt (d : dtype_arg) : result DataType :=
  match d with
  | DtypeStr s => Ok (str_dtype_to_trt s)
  | DtypeTrt d => Ok d
  | DtypeOther => Err (AssertionError "")
  end.

(** [init(self, args)] *)
Definition init (args : Args.t) : result t :=
  base <- ChatGLMModel.__init__ args ;;
  kv_dtype <- to_trt (Args.dtype args) ;;
  let dtype := kv_dtype in
  logits_dtype <- to_trt (Args.logits_dtype args) ;;
  let kv_dtype :=
    if has_int8_kv_cache (Args.quant_mode args) then str_dtype_to_trt "int8"
    else if has_fp8_kv_cache (Args.quant_mode args) then str_dtype_to_trt "fp8"
    else kv_dtype in
  let mapping := Args.mapping args in
  Ok {| base := base;
        kv_dtype := kv_dtype;
        dtype := dtype;
        logits_dtype := logits_dtype;
        hidden_size := Args.hidden_size args;
        mapping := mapping;
        max_num_tokens := Args.max_output_len args + Args.max_input_len args;
        num_heads := Args.num_heads args;
        num_kv_heads := Args.num_kv_heads args;
        num_layers := Args.num_layers args;
        tokens_per_block := Args.tokens_per_block args;
        lm_head :=
          {| lin_site := InModel "lm_head";
             in_features := Args.hidden_size args;
             out_features :=
               pad_vocab_size (Args.vocab_size args) (tp_size mapping);
             bias := false;
             lin_dtype := dtype;
             lin_tp_group := tp_group mapping;
             lin_tp_size := tp_size mapping;
             gather_output := true |} |}.

(** What [forward] returns: [(lm_logits, presents)] or [lm_logits]. *)
Inductive output : Type :=
| WithPresents (lm_logits : Tensor) (presents : list Tensor)
| Logits (lm_logits : Tensor).

(** [present.mark_output(f'present_key_value_{i}', self.kv_dtype)] for
    [i, present] in [enumerate(presents)], from index [i] on *)
Fixpoint mark_presents (kv_dtype : DataType) (i : nat)
    (presents : list Tensor) : list (marked Tensor) :=
  match presents with
  | [] => []
  | present :: rest =>
      {| out_name := "present_key_value_" ++ str_of_nat i;
         out_tensor := present;
         out_dtype := kv_dtype |} :: mark_presents kv_dtype (S i) rest
  end.

(** [forward(self, input_ids, position_ids, last_token_ids,
    kv_cache_params, attention_params)] under the plug-in configuration of
    the network being built; the second component lists the tensors marked
    as outputs of the network, in the order they are marked.

    [super().forward] tests the very attribute [self.use_cache] that the
    unpacking [hidden_states, presents = hidden_states] is guarded by, so
    what it returns is a pair exactly when the guard holds
    ([model_forward_kind] below), and the guarded unpacking is the
    case analysis on the value returned; [presents] is assigned in the
    pair's case only. *)
Definition forward (net : PluginConfig) (self : t)
    (input_ids position_ids last_token_ids : Tensor)
    (kv_cache_params : KeyValueCacheParams Tensor)
    (attention_params : AttentionParams Tensor)
  : result (output * list (marked Tensor)) :=
  r <- ChatGLMModel.forward (base self) input_ids position_ids
         kv_cache_params attention_params ;;
  let hidden_states :=
    match r with
    | ChatGLMModel.WithPresents hidden_states _ => hidden_states
    | ChatGLMModel.Plain hidden_states => hidden_states
    end in
  let presents :=
    match r with
    | ChatGLMModel.WithPresents _ presents => Some presents
    | ChatGLMModel.Plain _ => None
    end in
  let hidden_states :=
    gather_last_token_logits hidden_states last_token_ids
      (remove_input_padding net) in
  let lm_logits := ColumnLinear_forward (lm_head self) hidden_states in
  let logits_mark :=
    {| out_name := "logits";
       out_tensor := lm_logits;
       out_dtype := logits_dtype self |} in
  if ChatGLMModel.use_cache (base self)
     && Bool.eqb (paged_kv_cache net) false then
    presents <- getlocal "presents" presents ;;
    Ok (WithPresents lm_logits presents,
        logits_mark :: mark_presents (kv_dtype self) 0 presents)
  else Ok (Logits lm_logits, [logits_mark]).

End Methods.

End ChatGLMHeadModel.

(** ** The graph terms: a free instance of the interface

    A tensor is the term of the operations that produce it, so that running
    the model definition yields the graph it declares.  A network input
    carries its dimensions. *)
Module Sym.

Inductive tensor : Type :=
| Input (name : string) (dims : list Z)
| Add (a b : tensor)
| Mul (a : tensor) (alpha : scalar)
| SplitItem (a : tensor) (size dim : Z) (k : nat)
| Shape (a : tensor) (i : Z)
| Concat (items : list (tensor + Z))
| View (a shape : tensor)
| GatherLastTokenLogits (hidden_states last_token_ids : tensor)
    (remove_input_padding : bool)
| EmbeddingOut (m : Embedding) (x : tensor)
| NormOut (m : Norm) (x : tensor)
| AttentionContext (m : Attention) (x : tensor) (use_cache : bool)
    (kv_cache_params : KeyValueCacheParams tensor)
    (attention_params : AttentionParams tensor) (position_embedding : tensor)
| AttentionPresent (m : Attention) (x : tensor) (use_cache : bool)
    (kv_cache_params : KeyValueCacheParams tensor)
    (attention_params : AttentionParams tensor) (position_embedding : tensor)
| MLPOut (m : MLP) (x : tensor)
| ColumnLinearOut (m : ColumnLinear) (x : tensor).

Definition product (dims : list Z) : Z := fold_right Z.mul 1 dims.

(** Replacing the item at [i]. *)
Fixpoint set_nth (i : nat) (v : Z) (l : list Z) : list Z :=
  match i, l with
  | _, [] => []
  | O, _ :: l' => v :: l'
  | S i', x :: l' => x :: set_nth i' v l'
  end.

(** Elementwise operands: equal ranks, and each pair of dimensions equal
    or with a 1 that is broadcast. *)
Fixpoint broadcast (da db : list Z) : option (list Z) :=
  match da, db with
  | [], [] => Some []
  | x :: da', y :: db' =>
      match broadcast da' db' with
      | Some d =>
          if x =? y then Some (x :: d)
          else if x =? 1 then Some (y :: d)
          else if y =? 1 then Some (x :: d)
          else None
      | None => None
      end
  | _, _ => None
  end.

(** Modelled from the spec: the shape rules of the operations of
    [tensorrt_llm.functional] and of the modules of [tensorrt_llm.layers],
    none of which is among the sources.  The specification has an embedding
    look a row of [hidden_size] up per id and the decoder stack return
    [[batch, seq_or_1, hidden_size]] (4.3), normalisation, attention and
    feed-forward keep the shape of the hidden states (4.2), the head return
    one row per sequence, projected to the padded vocabulary size (4.4),
    and a dimension mismatch be a ShapeError (7).  [None] is a mismatch,
    or a value the specification gives no shape to. *)
Fixpoint dims_of (t : tensor) : option (list Z) :=
  match t with
  | Input _ dims => Some dims
  | Add a b =>
      match dims_of a, dims_of b with
      | Some da, Some db => broadcast da db
      | _, _ => None
      end
  | Mul a _ => dims_of a
  | SplitItem a size dim k =>
      match dims_of a with
      | Some d =>
          match nth_error d (Z.to_nat dim) with
          | Some n =>
              if (Z.of_nat k + 1) * size <=? n
              then Some (set_nth (Z.to_nat dim) size d)
              else None
          | None => None
          end
      | None => None
      end
  | Shape a i =>
      match dims_of a with
      | Some d =>
          if Nat.ltb (Z.to_nat i) (List.length d) then Some [1] else None
      | None => None
      end
  | Concat items => Some [Z.of_nat (List.length items)]
  | View a shape =>
      match shape with
      | Concat items =>
          let target :=
            (fix values (l : list (tensor + Z)) : option (list Z) :=
               match l with
               | [] => Some []
               | inr z :: l' => option_map (cons z) (values l')
               | inl (Shape b i) :: l' =>
                   match dims_of b with
                   | Some d =>
                       match nth_error d (Z.to_nat i), values l' with
                       | Some n, Some v => Some (n :: v)
                       | _, _ => None
                       end
                   | None => None
                   end
               | inl _ :: _ => None
               end) items in
          match dims_of a, target with
          | Some d, Some v => if product d =? product v then Some v else None
          | _, _ => None
          end
      | _ => None
      end
  | GatherLastTokenLogits hidden_states last_token_ids _ =>
      match dims_of hidden_states, dims_of last_token_ids with
      | Some [_; _; h], Some [b] => Some [b; h]
      | _, _ => None
      end
  | EmbeddingOut m x =>
      match dims_of x with
      | Some d => Some (d ++ [embedding_dim m])%list
      | None => None
      end
  | NormOut _ x => dims_of x
  | AttentionContext _ x _ _ _ _ => dims_of x
  | AttentionPresent _ _ _ _ _ _ => None
  | MLPOut _ x => dims_of x
  | ColumnLinearOut m x =>
      match dims_of x with
      | Some d =>
          match rev d with
          | last :: front =>
              if last =? in_features m
              then Some (rev front ++
                           [if gather_output m then out_features m
                            else out_features m / lin_tp_size m])%list
              else None
          | [] => None
          end
      | None => None
      end
  end.

(** [a.split(size, dim)]: the items of size [size] along [dim], as many as
    the dimension holds. *)
Definition split_items (a : tensor) (size dim : Z) : list tensor :=
  match dims_of a with
  | Some d =>
      match nth_error d (Z.to_nat dim) with
      | Some n =>
          if 0 <? size
          then map (SplitItem a size dim) (seq 0 (Z.to_nat (n / size)))
          else []
      | None => []
      end
  | None => []
  end.

(** [fill_none_tensor_list(list_size)]: a per-layer list left at [None]
    becomes [list_size] times [None]. *)
Definition fill (list_size : Z) (v : pyval tensor) : pyval tensor :=
  match v with
  | PNone => PList (repeat None (Z.to_nat list_size))
  | _ => v
  end.

Definition fill_lists (kv : KeyValueCacheParams tensor)
    (list_size : Z) : KeyValueCacheParams tensor :=
  {| past_key_value := fill list_size (past_key_value kv);
     host_past_key_value_lengths := host_past_key_value_lengths kv;
     host_max_kv_cache_lengths := host_max_kv_cache_lengths kv;
     kv_cache_block_pointers := fill list_size (kv_cache_block_pointers kv);
     cache_indirection := cache_indirection kv |}.

#[export] Instance ops : TensorOps := {|
  Tensor := tensor;
  add := Add;
  mul := Mul;
  split := split_items;
  shape := Shape;
  concat := Concat;
  view := View;
  gather_last_token_logits := GatherLastTokenLogits;
  Embedding_forward := EmbeddingOut;
  Norm_forward := NormOut;
  Attention_context := AttentionContext;
  Attention_present := AttentionPresent;
  MLP_forward := MLPOut;
  ColumnLinear_forward := ColumnLinearOut;
  fill_none_tensor_list := fill_lists;
  str_dtype_to_trt := fun s => s
|}.

End Sym.

#[local] Existing Instance Sym.ops.

(** ** [examples/bloom/run.py] *)

Module Run.

Definition EOS_TOKEN : Z := 2.
Definition PAD_TOKEN : Z := 3.

(** The command line, as [parse_arguments] returns it. *)
Record arguments : Type := {
  max_output_len : Z;
  max_kv_cache_len : option Z;
  log_level : string;
  engine_dir : string;
  tokenizer_dir : string;
  input_text : string
}.

(** [config.json], the descriptor next to the engine, with the entries the
    script reads. *)
Record builder_config : Type := {
  precision : string;
  tensor_parallel : Z;
  bc_num_heads : Z;
  bc_hidden_size : Z;
  bc_vocab_size : Z;
  bc_num_layers : Z
}.

Record config : Type := {
  gpt_attention_plugin : string;
  builder : builder_config
}.

Record ModelConfig : Type := {
  mc_num_heads : Z;
  mc_num_kv_heads : Z;
  mc_hidden_size : Z;
  mc_vocab_size : Z;
  mc_num_layers : Z;
  mc_gpt_attention_plugin : string;
  mc_dtype : string
}.

(** What the script gets from outside: the descriptor on disk, the MPI
    runtime (a communicator has one process at least), the tokenizer, the
    engine file and the session's answer.  [gpus_per_node] is the attribute
    of the [Mapping] the script builds: it passes no value for it, so the
    attribute is the one the library gives every mapping, the number of
    devices of a node, one at least.  [get_engine_name] comes from
    [build.py], which is not among the sources. *)
Record world : Type := {
  config_json : config;
  mpi_world_size : positive;
  mpi_rank : Z;
  gpus_per_node : positive;
  get_engine_name : string -> string -> Z -> Z -> string;
  tokenizer_encode : string -> list Z;
  tokenizer_decode : list Z -> string;
  engine_file : string;
  session_decode : list (list (list Z))
}.

(** What the script does to the outside, in order. *)
Inductive event : Type :=
| SetLogLevel (level : string)
| ReadConfig (dir file : string)
| SetDevice (device : Z)
| LoadTokenizer (dir : string)
| ReadEngine (dir file : string)
| CreateSession (model_config : ModelConfig) (engine_buffer : string)
    (world_size rank tp_size : Z)
| Setup (batch_size max_context_length max_new_tokens : Z)
    (max_kv_cache_length : option Z)
| Decode (input_ids : list Z) (input_lengths : list Z) (end_id pad_id : Z)
| Synchronize
| Print (line : string).

(** [str(z)] *)
Definition str_of_Z (z : Z) : string :=
  NilZero.string_of_int (Z.to_int z).

(** The f-string of the assertion. *)
Definition world_size_message (engine runtime : Z) : string :=
  "Engine world size (" ++ str_of_Z engine ++ ") != Runtime world size ("
  ++ str_of_Z runtime ++ ")".

(** [l[n:]] *)
Definition drop (n : nat) (l : list Z) : list Z := skipn n l.

(** [str(list)] as [print] shows it *)
Definition str_of_list (l : list Z) : string :=
  "[" ++ String.concat ", " (map str_of_Z l) ++ "]".

(** The body of [if __name__ == '__main__']: the events up to the end or to
    the exception that ends it. *)
Definition main (args : arguments) (w : world) : list event * result unit :=
  let started :=
    [SetLogLevel (log_level args);
     ReadConfig (engine_dir args) "config.json"] in
  let config := config_json w in
  let use_gpt_attention_plugin := gpt_attention_plugin config in
  let dtype := precision (builder config) in
  let world_size := tensor_parallel (builder config) in
  match py_assert (world_size =? Z.pos (mpi_world_size w))
          (world_size_message world_size (Z.pos (mpi_world_size w))) with
  | Err e => (started, Err e)
  | Ok _ =>
      let num_heads := bc_num_heads (builder config) / world_size in
      let hidden_size := bc_hidden_size (builder config) / world_size in
      let vocab_size := bc_vocab_size (builder config) in
      let num_layers := bc_num_layers (builder config) in
      let runtime_rank := mpi_rank w in
      let engine_name :=
        get_engine_name w "bloom" dtype world_size runtime_rank in
      let input_ids := tokenizer_encode w (input_text args) in
      let size1 := Z.of_nat (List.length input_ids) in
      let model_config :=
        {| mc_num_heads := num_heads;
           mc_num_kv_heads := num_heads;
           mc_hidden_size := hidden_size;
           mc_vocab_size := vocab_size;
           mc_num_layers := num_layers;
           mc_gpt_attention_plugin := use_gpt_attention_plugin;
           mc_dtype := dtype |} in
      let input_lengths := [size1] in
      let loaded :=
        (started ++
        [SetDevice (runtime_rank mod Z.pos (gpus_per_node w));
         LoadTokenizer (tokenizer_dir args);
         ReadEngine (engine_dir args) engine_name;
         CreateSession model_config (engine_file w) world_size runtime_rank
           world_size;
         Setup 1 size1 (max_output_len args) (max_kv_cache_len args);
         Decode input_ids input_lengths EOS_TOKEN PAD_TOKEN;
         Synchronize])%list in
      match py_index (session_decode w) 0 with
      | Err e => (loaded, Err e)
      | Ok beams =>
          match py_index beams 0 with
          | Err e => (loaded, Err e)
          | Ok tokens =>
              let output_ids := drop (List.length input_ids) tokens in
              let output_text := tokenizer_decode w output_ids in
              ((loaded ++
                [Print ("Input: " ++ input_text args);
                 Print ("Output Ids: " ++ str_of_list output_ids);
                 Print ("Output: " ++ output_text)])%list,
               Ok tt)
          end
      end
  end.

(** The events that load the engine or generate from it. *)
Definition loads_or_generates (e : event) : bool :=
  match e with
  | ReadEngine _ _ | CreateSession _ _ _ _ _ | Setup _ _ _ _
  | Decode _ _ _ _ => true
  | _ => false
  end.

End Run.

(** ** [ChatGLMHeadModel.__init__]: the keyword arguments *)

Module Kwargs.

(** The values keyword arguments and namespace attributes hold.  An object
    of another class is recorded by its name and, when its class extends
    [int] (as [QuantMode] does), by the integer it compares as. *)
Inductive value : Type :=
| VNone
| VBool (b : bool)
| VInt (z : Z)
| VFloat (q : Q)
| VStr (s : string)
| VObject (name : string) (as_int : option Z).

(** An [argparse.Namespace]: its attributes by name. *)
Definition namespace : Type := stdpp.gmap.gmap string value.

(** What a keyword argument holds: a value, or a namespace (the one that
    [args=...] passes). *)
Inductive argument : Type :=
| Plain (v : value)
| Namespace (ns : namespace).

(** [**args]: a dict keyed by the keywords. *)
Definition kwargs : Type := stdpp.gmap.gmap string argument.

(** A namespace stored as an attribute is an object like any other. *)
Definition as_value (a : argument) : value :=
  match a with
  | Plain v => v
  | Namespace _ => VObject "Namespace" None
  end.

(** [new_args.__setattr__(key, value)] and [new_args.key] *)
Definition set (key : string) (v : value) (ns : namespace) : namespace :=
  stdpp.base.insert key v ns.

Definition get (key : string) (ns : namespace) : result value :=
  getattr key (stdpp.base.lookup key ns).

(** [new_args.model_name in names]: a value that is no string equals none
    of the names. *)
Definition model_name_in (ns : namespace) (names : list string)
  : result bool :=
  v <- get "model_name" ns ;;
  Ok (match v with
      | VStr s => py_in s names
      | _ => false
      end).

(** [min(bound, v)] for an integer [bound]: [v] when [v < bound], [bound]
    otherwise; a value that does not order against an integer raises
    [TypeError]. *)
Definition py_min (bound : Z) (v : value) : result value :=
  match v with
  | VInt z => Ok (if z <? bound then VInt z else VInt bound)
  | VBool b => Ok (if (if b then 1 else 0) <? bound then VBool b
                   else VInt bound)
  | VFloat q => Ok (if Qle_bool (inject_Z bound) q then VInt bound
                    else VFloat q)
  | VObject name (Some z) =>
      Ok (if z <? bound then VObject name (Some z) else VInt bound)
  | VNone | VStr _ | VObject _ None =>
      Err (TypeError "'<' not supported")
  end.

(** The defaults of the two families that take their sequence length from
    [max_position_embeddings] (lines 306 to 311 and 313 to 318). *)
Definition long_defaults (bound : Z) (ns : namespace) : result namespace :=
  let ns := set "ffn_hidden_size" (VInt 16384) ns in
  let ns := set "linear_bias" (VBool true) ns in
  max_position_embeddings <- get "max_position_embeddings" ns ;;
  max_seq_length <- py_min bound max_position_embeddings ;;
  let ns := set "max_seq_length" max_seq_length ns in
  let ns := set "num_kv_heads" (VInt 32) ns in
  Ok (set "qkv_bias" (VBool true) ns).

(** Lines 296 to 331 of [__init__(self, **args)]: the object that
    [self.init] is then called with, which is the argument [args] when that
    keyword is given and a namespace of the keywords and the defaults
    otherwise. *)
Definition init_args (args : kwargs) : result argument :=
  match stdpp.base.lookup "args" args with
  | Some a => Ok a
  | None =>
      let new_args : namespace := stdpp.base.fmap as_value args in
      _ <- py_assert
             (match stdpp.base.lookup "model_name" args with
              | Some _ => true
              | None => false
              end) "model_name not set" ;;
      let new_args := set "norm_epsilon" (VFloat (1 # 100000)) new_args in
      let new_args := set "tokens_per_block" (VInt 64) new_args in
      let new_args := set "use_cache" (VBool true) new_args in
      legacy <- model_name_in new_args ["chatglm_6b"] ;;
      if legacy then
        ns <- long_defaults 2048 new_args ;; Ok (Namespace ns)
      else
        glm <- model_name_in new_args ["glm_10b"] ;;
        if glm then
          ns <- long_defaults 1024 new_args ;; Ok (Namespace ns)
        else
          chatglm2 <- model_name_in new_args
                        ["chatglm2_6b"; "chatglm2_6b_32k"; "chatglm3_6b";
                         "chatglm3_6b_base"; "chatglm3_6b_32k"] ;;
          if chatglm2 then
            let new_args :=
              set "apply_residual_connection_post_layernorm" (VBool false)
                new_args in
            let new_args := set "ffn_hidden_size" (VInt 13696) new_args in
            let new_args := set "linear_bias" (VBool false) new_args in
            let new_args := set "num_kv_heads" (VInt 2) new_args in
            let new_args := set "qkv_bias" (VBool true) new_args in
            Ok (Namespace (set "rmsnorm" (VBool true) new_args))
          else Ok (Namespace new_args)
  end.

(** A record of the attributes of a namespace: the flags and numbers that
    the defaults above set, with the model name. *)
Definition records (ns : namespace) (args : Args.t) : Prop :=
  stdpp.base.lookup "model_name" ns = Some (VStr (Args.model_name args))
  /\ stdpp.base.lookup "use_cache" ns = Some (VBool (Args.use_cache args))
  /\ stdpp.base.lookup "tokens_per_block" ns
     = Some (VInt (Args.tokens_per_block args))
  /\ stdpp.base.lookup "ffn_hidden_size" ns
     = Some (VInt (Args.ffn_hidden_size args))
  /\ stdpp.base.lookup "num_kv_heads" ns
     = Some (VInt (Args.num_kv_heads args))
  /\ stdpp.base.lookup "max_seq_length" ns
     = Some (VInt (Args.max_seq_length args))
  /\ stdpp.base.lookup "qkv_bias" ns = Some (VBool (Args.qkv_bias args))
  /\ stdpp.base.lookup "linear_bias" ns
     = Some (VBool (Args.linear_bias args))
  /\ (forall v, stdpp.base.lookup "rmsnorm" ns = Some v ->
               v = VBool (Args.rmsnorm args))
  /\ (forall v,
        stdpp.base.lookup "apply_residual_connection_post_layernorm" ns
        = Some v ->
        v = VBool (Args.apply_residual_connection_post_layernorm args)).

End Kwargs.

(** ** [ChatGLMHeadModel.prepare_inputs] *)

Module Inputs.

(** [default_net().plugin_config], with the two plug-ins the method passes
    on: each is off or names the dtype it runs in. *)
Record plugins : Type := {
  config : PluginConfig;
  gpt_attention_plugin : option string;
  gemm_plugin : option string
}.

(** [default_net().plugin_config.remove_input_padding] and
    [default_net().plugin_config.paged_kv_cache] *)
Definition net_remove_input_padding (net : plugins) : bool :=
  remove_input_padding (config net).

Definition net_paged_kv_cache (net : plugins) : bool :=
  paged_kv_cache (config net).

(** The keyword arguments [prepare_basic_inputs] is called with. *)
Record basic_inputs : Type := {
  max_batch_size : Z;
  max_beam_width : Z;
  max_input_len : Z;
  max_new_tokens : Z;
  num_kv_heads : Z;
  head_size : Z;
  num_layers : Z;
  kv_dtype : DataType;
  remove_input_padding : bool;
  use_gpt_attention_plugin : option string;
  use_gemm_plugin : option string;
  use_custom_all_reduce : bool;
  paged_kv_cache : bool;
  tokens_per_block : Z;
  gather_all_token_logits : bool;
  dtype : DataType;
  num_heads : Z;
  mapping : Mapping;
  max_num_tokens : Z;
  prompt_embedding_table_size : Z;
  position_encoding_2d : bool
}.

(** [a // b] on integers: the floor of the quotient, [ZeroDivisionError]
    for a zero divisor. *)
Inductive arithmetic_error : Type := ZeroDivisionError.

Definition floordiv (a b : Z) : arithmetic_error + Z :=
  if b =? 0 then inl ZeroDivisionError else inr (a / b).

(** The call of [prepare_basic_inputs] (lines 425 to 449). *)
Definition request (net : plugins) (self : ChatGLMHeadModel.t)
    (max_batch_size max_input_len max_new_tokens : Z) (use_cache : bool)
    (max_beam_width : Z) : arithmetic_error + basic_inputs :=
  match floordiv (ChatGLMHeadModel.num_kv_heads self)
          (tp_size (ChatGLMHeadModel.mapping self)) with
  | inl e => inl e
  | inr kv_heads =>
      match floordiv (ChatGLMHeadModel.hidden_size self)
              (ChatGLMHeadModel.num_heads self) with
      | inl e => inl e
      | inr size =>
          inr {| max_batch_size := max_batch_size;
                 max_beam_width := max_beam_width;
                 max_input_len := max_input_len;
                 max_new_tokens := max_new_tokens;
                 num_kv_heads := kv_heads;
                 head_size := size;
                 num_layers := ChatGLMHeadModel.num_layers self;
                 kv_dtype := ChatGLMHeadModel.kv_dtype self;
                 remove_input_padding := net_remove_input_padding net;
                 use_gpt_attention_plugin := gpt_attention_plugin net;
                 use_gemm_plugin := gemm_plugin net;
                 use_custom_all_reduce := false;
                 paged_kv_cache := net_paged_kv_cache net;
                 tokens_per_block := ChatGLMHeadModel.tokens_per_block self;
                 gather_all_token_logits := false;
                 dtype := ChatGLMHeadModel.kv_dtype self;
                 num_heads := ChatGLMHeadModel.num_heads self;
                 mapping := ChatGLMHeadModel.mapping self;
                 max_num_tokens := ChatGLMHeadModel.max_num_tokens self;
                 prompt_embedding_table_size := 0;
                 position_encoding_2d :=
                   py_in
                     (ChatGLMModel.model_name (ChatGLMHeadModel.base self))
                     ["chatglm_6b"; "glm_10b"] |}
      end
  end.

Section PrepareInputs.
Context {ops : TensorOps}.

(** [GenerationMixin.prepare_basic_inputs] is inherited from a file that is
    not embedded: it is a parameter, and the dict it returns is read at the
    keys the method uses. *)
Variable prepare_basic_inputs : basic_inputs -> string -> pyval Tensor.

(** What [prepare_inputs] returns: the arguments of [forward], in order. *)
Record prepared : Type := {
  p_input_ids : pyval Tensor;
  p_position_ids : pyval Tensor;
  p_last_token_ids : pyval Tensor;
  p_kv_cache_params : KeyValueCacheParams Tensor;
  p_attention_params : AttentionParams Tensor
}.

(** [prepare_inputs(self, max_batch_size, max_input_len, max_new_tokens,
    use_cache, max_beam_width)] *)
Definition prepare_inputs (net : plugins) (self : ChatGLMHeadModel.t)
    (max_batch_size max_input_len max_new_tokens : Z) (use_cache : bool)
    (max_beam_width : Z) : arithmetic_error + prepared :=
  match request net self max_batch_size max_input_len max_new_tokens
          use_cache max_beam_width with
  | inl e => inl e
  | inr r =>
      let model_inputs := prepare_basic_inputs r in
      inr {| p_input_ids := model_inputs "input_ids";
             p_position_ids := model_inputs "position_ids";
             p_last_token_ids := model_inputs "last_token_ids";
             p_kv_cache_params :=
               {| past_key_value := model_inputs "past_key_value";
                  host_past_key_value_lengths :=
                    model_inputs "host_past_key_value_lengths";
                  host_max_kv_cache_lengths :=
                    model_inputs "host_max_kv_cache_lengths";
                  kv_cache_block_pointers :=
                    model_inputs "kv_cache_block_pointers_list";
                  cache_indirection := model_inputs "cache_indirection" |};
             p_attention_params :=
               {| sequence_length := model_inputs "sequence_length";
                  context_lengths := model_inputs "context_lengths";
                  host_context_lengths := model_inputs "host_context_lengths";
                  max_context_length := max_input_len;
                  host_request_types := model_inputs "host_request_types" |}
          |}
  end.

End PrepareInputs.

End Inputs.

(** * Statements: inputs and notions *)

(** ** Concrete configurations, to run the embedding on *)

Definition example_args (name : string) (use_cache : bool)
    (num_layers hidden_size vocab_size tp_size : Z) : Args.t :=
  {| Args.model_name := name;
     Args.use_cache := use_cache;
     Args.num_layers := num_layers;
     Args.hidden_size := hidden_size;
     Args.ffn_hidden_size := 4 * hidden_size;
     Args.num_heads := 2;
     Args.num_kv_heads := 2;
     Args.vocab_size := vocab_size;
     Args.max_seq_length := 16;
     Args.max_input_len := 8;
     Args.max_output_len := 8;
     Args.tokens_per_block := 64;
     Args.norm_epsilon := Lit (1 # 100000);
     Args.hidden_act := "swiglu";
     Args.dtype := DtypeStr "float16";
     Args.logits_dtype := DtypeStr "float32";
     Args.apply_query_key_layer_scaling := false;
     Args.apply_residual_connection_post_layernorm := false;
     Args.rmsnorm := true;
     Args.rotary_embedding_scaling := Lit 1;
     Args.qkv_bias := true;
     Args.linear_bias := false;
     Args.quant_mode :=
       {| has_int8_kv_cache := false; has_fp8_kv_cache := false |};
     Args.mapping := {| tp_group := [0]; tp_size := tp_size; rank := 0 |} |}.

Definition example_kv (n : nat) : KeyValueCacheParams Sym.tensor :=
  {| past_key_value := PList (repeat None n);
     host_past_key_value_lengths := PNone;
     host_max_kv_cache_lengths := PList (repeat None n);
     kv_cache_block_pointers := PList (repeat None n);
     cache_indirection := PNone |}.

Definition example_attention_params : AttentionParams Sym.tensor :=
  {| sequence_length := PNone;
     context_lengths := PNone;
     host_context_lengths := PNone;
     max_context_length := 8;
     host_request_types := PNone |}.

Definition example_input_ids : Sym.tensor := Sym.Input "input_ids" [2; 3].
Definition example_position_ids : Sym.tensor :=
  Sym.Input "position_ids" [2; 2; 3].
Definition example_last_token_ids : Sym.tensor :=
  Sym.Input "last_token_ids" [2].

Definition example_net : PluginConfig :=
  {| remove_input_padding := false; paged_kv_cache := false |}.

Definition example_arguments : Run.arguments :=
  {| Run.max_output_len := 8;
     Run.max_kv_cache_len := None;
     Run.log_level := "error";
     Run.engine_dir := "bloom_outputs";
     Run.tokenizer_dir := ".";
     Run.input_text := "Born in north-east France, Soyer trained as a" |}.

(** An engine built for two ranks, run on one. *)
Definition example_world : Run.world :=
  {| Run.config_json :=
       {| Run.gpt_attention_plugin := "float16";
          Run.builder :=
            {| Run.precision := "float16";
               Run.tensor_parallel := 2;
               Run.bc_num_heads := 32;
               Run.bc_hidden_size := 4096;
               Run.bc_vocab_size := 250880;
               Run.bc_num_layers := 30 |} |};
     Run.mpi_world_size := 1;
     Run.mpi_rank := 0;
     Run.gpus_per_node := 8%positive;
     Run.get_engine_name := fun model dtype tp rank => model ++ ".engine";
     Run.tokenizer_encode := fun _ => [1; 2; 3];
     Run.tokenizer_decode := fun _ => "";
     Run.engine_file := "";
     Run.session_decode := [[[1; 2; 3; 4; 2]]] |}.

(** ** Notions the statements are written with *)

(** The hidden states in what a layer returns. *)
Definition layer_hidden_states {ops : TensorOps}
    (o : ChatGLMDecoderLayer.output) : Tensor :=
  match o with
  | ChatGLMDecoderLayer.WithPresents out _ => out
  | ChatGLMDecoderLayer.Plain out => out
  end.

(** Whether a layer returned its present key/value tensor too. *)
Definition has_presents {ops : TensorOps} (o : ChatGLMDecoderLayer.output)
  : bool :=
  match o with
  | ChatGLMDecoderLayer.WithPresents _ _ => true
  | ChatGLMDecoderLayer.Plain _ => false
  end.

(** A layer of a model built from [args]. *)
Definition built_from (args : Args.t) (l : ChatGLMDecoderLayer.t) : Prop :=
  exists layer_id, ChatGLMDecoderLayer.__init__ layer_id args = Ok l.

(** The specification's words for the loop (4.3, step 3): the layers run in
    order, each on the hidden states the one before it returned.  This is
    what the sources are compared with, not a translation of them. *)
Fixpoint thread_layers {ops : TensorOps} (position_ids : Tensor)
    (kv_cache_params : KeyValueCacheParams Tensor)
    (attention_params : AttentionParams Tensor)
    (zipped :
       list (ChatGLMDecoderLayer.t * option Tensor * option Tensor
             * option Tensor))
    (hidden_states : Tensor) : result Tensor :=
  match zipped with
  | [] => Ok hidden_states
  | (layer, past, pointer, max_kv_cache_length) :: rest =>
      o <- ChatGLMDecoderLayer.forward layer hidden_states position_ids
             (ChatGLMModel.layer_kv_cache_params kv_cache_params past pointer
                max_kv_cache_length)
             attention_params ;;
      thread_layers position_ids kv_cache_params attention_params rest
        (layer_hidden_states o)
  end.

Definition layer_of {ops : TensorOps}
    (z : ChatGLMDecoderLayer.t * option Tensor * option Tensor
         * option Tensor) : ChatGLMDecoderLayer.t :=
  fst (fst (fst z)).

(** Line 448 of [prepare_inputs]: the identifiers whose input contract has
    two-dimensional position ids. *)
Definition position_encoding_2d (model_name : string) : bool :=
  py_in model_name ["chatglm_6b"; "glm_10b"].

(** The hidden states that hold the two embedded columns of the position
    ids: the columns are looked up in the tables [position_embeddings] and
    [block_embeddings], the two rows are added, and the sum, viewed as
    [batch, length, 4096], is added to the embedded tokens. *)
Definition adds_position_embedding {ops : TensorOps} (m : ChatGLMModel.t)
    (input_ids position_ids hidden_states : Tensor) : Prop :=
  exists table0 table1 column0 column1,
    split position_ids 1 1 = [column0; column1]
    /\ ChatGLMModel.position_embeddings m = Some table0
    /\ ChatGLMModel.block_embeddings m = Some table1
    /\ emb_site table0 = InModel "position_embeddings"
    /\ emb_site table1 = InModel "block_embeddings"
    /\ hidden_states
       = add (Embedding_forward (ChatGLMModel.embedding m) input_ids)
           (view
              (add (Embedding_forward table0 column0)
                 (Embedding_forward table1 column1))
              (concat [inl (shape input_ids 0); inl (shape input_ids 1);
                       inr 4096])).

(** The decoder layers are run on [hidden_states] and given
    [position_ids]: whatever cache parameters the stack is called with
    (lists, once filled), its forward pass is its loop over the zipped
    layers, started on [hidden_states] and passing [position_ids] to every
    layer, followed by the final norm; and with the cache in use, what it
    returns is the final norm of the layers threaded from [hidden_states]
    on. *)
Definition layers_run_on {ops : TensorOps} (m : ChatGLMModel.t)
    (input_ids position_ids hidden_states : Tensor) : Prop :=
  forall (kv : KeyValueCacheParams Tensor) (ap : AttentionParams Tensor)
    (pasts pointers max_lengths : list (option Tensor)),
    let kv' :=
      fill_none_tensor_list kv
        (Z.of_nat (List.length (ChatGLMModel.layers m))) in
    past_key_value kv' = PList pasts ->
    kv_cache_block_pointers kv' = PList pointers ->
    host_max_kv_cache_lengths kv' = PList max_lengths ->
    let zipped := zip4 (ChatGLMModel.layers m) pasts pointers max_lengths in
    ChatGLMModel.forward m input_ids position_ids kv ap
    = (r <- ChatGLMModel.run_layers (ChatGLMModel.use_cache m) position_ids
              kv' ap zipped hidden_states [] ;;
       Ok (if ChatGLMModel.use_cache m
           then ChatGLMModel.WithPresents
                  (Norm_forward (ChatGLMModel.final_norm m) (fst r)) (snd r)
           else ChatGLMModel.Plain
                  (Norm_forward (ChatGLMModel.final_norm m) (fst r))))
    /\ (ChatGLMModel.use_cache m = true ->
        exists threaded presents,
          thread_layers position_ids kv' ap zipped hidden_states
            = Ok threaded
          /\ ChatGLMModel.forward m input_ids position_ids kv ap
             = Ok (ChatGLMModel.WithPresents
                     (Norm_forward (ChatGLMModel.final_norm m) threaded)
                     presents)).

Definition stack_hidden_states {ops : TensorOps} (r : ChatGLMModel.output)
  : Tensor :=
  match r with
  | ChatGLMModel.WithPresents hidden_states _ => hidden_states
  | ChatGLMModel.Plain hidden_states => hidden_states
  end.

Definition stack_presents {ops : TensorOps} (r : ChatGLMModel.output)
  : list Tensor :=
  match r with
  | ChatGLMModel.WithPresents _ presents => presents
  | ChatGLMModel.Plain _ => []
  end.

Definition logits_of {ops : TensorOps} (o : ChatGLMHeadModel.output)
  : Tensor :=
  match o with
  | ChatGLMHeadModel.WithPresents lm_logits _ => lm_logits
  | ChatGLMHeadModel.Logits lm_logits => lm_logits
  end.

(** The instance ids a layer hands to its attention and to its
    feed-forward network. *)
Definition layer_instance_ids (l : ChatGLMDecoderLayer.t) : list Z :=
  [attn_instance_id (ChatGLMDecoderLayer.attention l);
   mlp_instance_id (ChatGLMDecoderLayer.mlp l)].

(** [args] with another value of [rmsnorm]. *)
Definition with_rmsnorm (flag : bool) (args : Args.t) : Args.t :=
  {| Args.model_name := Args.model_name args;
     Args.use_cache := Args.use_cache args;
     Args.num_layers := Args.num_layers args;
     Args.hidden_size := Args.hidden_size args;
     Args.ffn_hidden_size := Args.ffn_hidden_size args;
     Args.num_heads := Args.num_heads args;
     Args.num_kv_heads := Args.num_kv_heads args;
     Args.vocab_size := Args.vocab_size args;
     Args.max_seq_length := Args.max_seq_length args;
     Args.max_input_len := Args.max_input_len args;
     Args.max_output_len := Args.max_output_len args;
     Args.tokens_per_block := Args.tokens_per_block args;
     Args.norm_epsilon := Args.norm_epsilon args;
     Args.hidden_act := Args.hidden_act args;
     Args.dtype := Args.dtype args;
     Args.logits_dtype := Args.logits_dtype args;
     Args.apply_query_key_layer_scaling :=
       Args.apply_query_key_layer_scaling args;
     Args.apply_residual_connection_post_layernorm :=
       Args.apply_residual_connection_post_layernorm args;
     Args.rmsnorm := flag;
     Args.rotary_embedding_scaling := Args.rotary_embedding_scaling args;
     Args.qkv_bias := Args.qkv_bias args;
     Args.linear_bias := Args.linear_bias args;
     Args.quant_mode := Args.quant_mode args;
     Args.mapping := Args.mapping args |}.

(** [args] with other values of [dtype] and [quant_mode]. *)
Definition with_dtype (d : dtype_arg) (q : QuantMode) (args : Args.t)
  : Args.t :=
  {| Args.model_name := Args.model_name args;
     Args.use_cache := Args.use_cache args;
     Args.num_layers := Args.num_layers args;
     Args.hidden_size := Args.hidden_size args;
     Args.ffn_hidden_size := Args.ffn_hidden_size args;
     Args.num_heads := Args.num_heads args;
     Args.num_kv_heads := Args.num_kv_heads args;
     Args.vocab_size := Args.vocab_size args;
     Args.max_seq_length := Args.max_seq_length args;
     Args.max_input_len := Args.max_input_len args;
     Args.max_output_len := Args.max_output_len args;
     Args.tokens_per_block := Args.tokens_per_block args;
     Args.norm_epsilon := Args.norm_epsilon args;
     Args.hidden_act := Args.hidden_act args;
     Args.dtype := d;
     Args.logits_dtype := Args.logits_dtype args;
     Args.apply_query_key_layer_scaling :=
       Args.apply_query_key_layer_scaling args;
     Args.apply_residual_connection_post_layernorm :=
       Args.apply_residual_connection_post_layernorm args;
     Args.rmsnorm := Args.rmsnorm args;
     Args.rotary_embedding_scaling := Args.rotary_embedding_scaling args;
     Args.qkv_bias := Args.qkv_bias args;
     Args.linear_bias := Args.linear_bias args;
     Args.quant_mode := q;
     Args.mapping := Args.mapping args |}.

(** The presents in what the head returns. *)
Definition head_presents {ops : TensorOps} (o : ChatGLMHeadModel.output)
  : list Tensor :=
  match o with
  | ChatGLMHeadModel.WithPresents _ presents => presents
  | ChatGLMHeadModel.Logits _ => []
  end.


(** The bound the keyword path puts on the sequence length. *)
Definition sequence_bound (model_name : string) : option Z :=
  if py_in model_name ["chatglm_6b"] then Some 2048
  else if py_in model_name ["glm_10b"] then Some 1024
  else None.

(** Keyword arguments to try the keyword path on. *)
Definition example_kwargs (name : string) (max_positions : Z)
  : Kwargs.kwargs :=
  stdpp.base.insert "model_name" (Kwargs.Plain (Kwargs.VStr name))
    (stdpp.base.insert "max_position_embeddings"
       (Kwargs.Plain (Kwargs.VInt max_positions))
       (stdpp.base.insert "use_cache" (Kwargs.Plain (Kwargs.VBool false))
          (stdpp.base.insert "num_kv_heads" (Kwargs.Plain (Kwargs.VInt 8))
             (stdpp.base.insert "max_seq_length"
                (Kwargs.Plain (Kwargs.VInt 4096))
                (stdpp.base.insert "num_layers"
                   (Kwargs.Plain (Kwargs.VInt 28)) stdpp.base.empty))))).

(** The namespace before the defaults of the model's family. *)
Definition general_defaults (args : Kwargs.kwargs) : Kwargs.namespace :=
  Kwargs.set "use_cache" (Kwargs.VBool true)
    (Kwargs.set "tokens_per_block" (Kwargs.VInt 64)
       (Kwargs.set "norm_epsilon" (Kwargs.VFloat (1 # 100000))
          (stdpp.base.fmap Kwargs.as_value args))).

(** The record of the namespace that [example_kwargs] gives for
    chatglm_6b. *)
Definition example_keyword_args : Args.t :=
  {| Args.model_name := "chatglm_6b";
     Args.use_cache := true;
     Args.num_layers := 2;
     Args.hidden_size := 8;
     Args.ffn_hidden_size := 16384;
     Args.num_heads := 2;
     Args.num_kv_heads := 32;
     Args.vocab_size := 10;
     Args.max_seq_length := 2048;
     Args.max_input_len := 8;
     Args.max_output_len := 8;
     Args.tokens_per_block := 64;
     Args.norm_epsilon := Lit (1 # 100000);
     Args.hidden_act := "gelu";
     Args.dtype := DtypeStr "float16";
     Args.logits_dtype := DtypeStr "float32";
     Args.apply_query_key_layer_scaling := false;
     Args.apply_residual_connection_post_layernorm := false;
     Args.rmsnorm := false;
     Args.rotary_embedding_scaling := Lit 1;
     Args.qkv_bias := true;
     Args.linear_bias := true;
     Args.quant_mode :=
       {| has_int8_kv_cache := false; has_fp8_kv_cache := false |};
     Args.mapping := {| tp_group := [0]; tp_size := 1; rank := 0 |} |}.


(** A world in which the engine was built for the one rank it runs on. *)
Definition example_world_matching (decoded : list (list (list Z)))
  : Run.world :=
  {| Run.config_json :=
       {| Run.gpt_attention_plugin := "float16";
          Run.builder :=
            {| Run.precision := "float16";
               Run.tensor_parallel := 1;
               Run.bc_num_heads := 32;
               Run.bc_hidden_size := 4096;
               Run.bc_vocab_size := 250880;
               Run.bc_num_layers := 30 |} |};
     Run.mpi_world_size := 1;
     Run.mpi_rank := 0;
     Run.gpus_per_node := 8%positive;
     Run.get_engine_name := fun model dtype tp rank => model ++ ".engine";
     Run.tokenizer_encode := fun _ => [1; 2; 3];
     Run.tokenizer_decode := fun ids => Run.str_of_list ids;
     Run.engine_file := "";
     Run.session_decode := decoded |}.

Definition is_print (e : Run.event) : bool :=
  match e with
  | Run.Print _ => true
  | _ => false
  end.

(** The presents of the layers run in order, each layer on the hidden
    states the one before it returned: the present of a layer is that of
    its attention on its pre-normed input. *)
Fixpoint layer_presents {ops : TensorOps} (position_ids : Tensor)
    (kv_cache_params : KeyValueCacheParams Tensor)
    (attention_params : AttentionParams Tensor)
    (zipped :
       list (ChatGLMDecoderLayer.t * option Tensor * option Tensor
             * option Tensor))
    (hidden_states : Tensor) : list Tensor :=
  match zipped with
  | [] => []
  | (layer, past, pointer, max_kv_cache_length) :: rest =>
      let layer_kv :=
        ChatGLMModel.layer_kv_cache_params kv_cache_params past pointer
          max_kv_cache_length in
      match ChatGLMDecoderLayer.forward layer hidden_states position_ids
              layer_kv attention_params with
      | Ok o =>
          Attention_present (ChatGLMDecoderLayer.attention layer)
            (Norm_forward (ChatGLMDecoderLayer.pre_norm layer) hidden_states)
            (ChatGLMDecoderLayer.use_cache layer) layer_kv attention_params
            position_ids
          :: layer_presents position_ids kv_cache_params attention_params
               rest (layer_hidden_states o)
      | Err _ => []
      end
  end.

(** The configurations whose stack cannot be built for want of [alpha]:
    chatglm_6b with a layer at least, each of which computes
    [(2 * num_layers) ** 0.5], and a [2 * num_layers] beyond the floats. *)
Definition alpha_overflows (args : Args.t) : bool :=
  py_in (Args.model_name args) ["chatglm_6b"]
  && (0 <? Args.num_layers args)
  && float_overflow (2 * Args.num_layers args).

(** * Properties *)

(** ** The variant selection *)

Lemma py_in_app (x : string) (l1 l2 : list string) :
  py_in x (l1 ++ l2)%list = py_in x l1 || py_in x l2.
Proof. apply existsb_app. Qed.

(** The three branches of the selection cover the supported identifiers
    and nothing else. *)
Lemma supported_split (x : string) :
  py_in x supported_names =
  py_in x chatglm_6b_names || (py_in x chatglm2_names || py_in x glm_10b_names).
Proof. unfold supported_names. now rewrite !py_in_app. Qed.

Lemma py_in_cons (x y : string) (l : list string) :
  py_in x (y :: l) = (x =? y)%string || py_in x l.
Proof. reflexivity. Qed.

(** The six identifiers [ChatGLMDecoderLayer.forward] lists in its second
    branch are those of the second and third branches of [__init__]. *)
Lemma additive_names (x : string) :
  py_in x ["chatglm2_6b"; "chatglm2_6b_32k"; "chatglm3_6b";
           "chatglm3_6b_base"; "chatglm3_6b_32k"; "glm_10b"] =
  py_in x chatglm2_names || py_in x glm_10b_names.
Proof.
  change ["chatglm2_6b"; "chatglm2_6b_32k"; "chatglm3_6b";
          "chatglm3_6b_base"; "chatglm3_6b_32k"; "glm_10b"]
    with (chatglm2_names ++ glm_10b_names)%list.
  apply py_in_app.
Qed.

Lemma legacy_not_additive (x : string) :
  py_in x chatglm_6b_names = true ->
  py_in x chatglm2_names || py_in x glm_10b_names = false.
Proof.
  unfold chatglm_6b_names. rewrite py_in_cons. cbn [py_in existsb].
  rewrite orb_false_r. intros H. apply String.eqb_eq in H. now subst x.
Qed.

Lemma select_variant_unsupported (args : Args.t) :
  py_in (Args.model_name args) supported_names = false ->
  exists v,
    ChatGLMDecoderLayer.select_variant args = Ok v
    /\ ChatGLMDecoderLayer.v_norm v = None.
Proof.
  rewrite supported_split. intros H.
  apply orb_false_elim in H as [H1 H2].
  apply orb_false_elim in H2 as [H2 H3].
  unfold ChatGLMDecoderLayer.select_variant.
  fold chatglm_6b_names chatglm2_names glm_10b_names.
  rewrite H1, H2, H3. eexists. split; reflexivity.
Qed.

Lemma select_norm_unsupported (args : Args.t) :
  py_in (Args.model_name args) supported_names = false ->
  ChatGLMModel.select_norm args = None.
Proof.
  rewrite supported_split. intros H.
  apply orb_false_elim in H as [H1 H2].
  apply orb_false_elim in H2 as [H2 H3].
  unfold ChatGLMModel.select_norm.
  change ["chatglm_6b"; "glm_10b"]
    with (chatglm_6b_names ++ glm_10b_names)%list.
  fold chatglm2_names.
  now rewrite py_in_app, H1, H2, H3.
Qed.

Lemma layer_init_unsupported (layer_id : Z) (args : Args.t) :
  py_in (Args.model_name args) supported_names = false ->
  ChatGLMDecoderLayer.__init__ layer_id args = Err (AttributeError "norm").
Proof.
  intros H. unfold ChatGLMDecoderLayer.__init__.
  destruct (select_variant_unsupported args H) as (v & -> & Hv).
  cbn [bind]. now rewrite Hv.
Qed.

Lemma model_init_unsupported (args : Args.t) :
  py_in (Args.model_name args) supported_names = false ->
  ChatGLMModel.__init__ args = Err (AttributeError "norm").
Proof.
  intros H. unfold ChatGLMModel.__init__.
  destruct (range (Args.num_layers args)) as [|i rest]; cbn [map_result].
  - cbn [bind]. now rewrite (select_norm_unsupported args H).
  - now rewrite (layer_init_unsupported i args H).
Qed.

(** C1, as amended: for a model identifier that is none of the supported
    ones, constructing a [ChatGLMDecoderLayer] fails, and so does
    constructing the [ChatGLMModel] that would hold it, whatever the number
    of layers; the exception is the [AttributeError] of reading the
    attribute [norm], which the selection left unset, and no check reports
    the identifier. *)
Theorem C1_unknown_identifier_fails (layer_id : Z) (args : Args.t) :
  py_in (Args.model_name args) supported_names = false ->
  ChatGLMDecoderLayer.__init__ layer_id args = Err (AttributeError "norm")
  /\ ChatGLMModel.__init__ args = Err (AttributeError "norm").
Proof.
  intros H. split.
  - now apply layer_init_unsupported.
  - now apply model_init_unsupported.
Qed.

Lemma C1_unknown_identifier_fails_witness :
  ChatGLMDecoderLayer.__init__ 0 (example_args "gpt2" true 2 8 10 2)
    = Err (AttributeError "norm")
  /\ ChatGLMModel.__init__ (example_args "gpt2" true 2 8 10 2)
    = Err (AttributeError "norm").
Proof.
  apply (C1_unknown_identifier_fails 0 (example_args "gpt2" true 2 8 10 2)).
  reflexivity.
Defined.

(** C1, as stated, fails: for the identifier "gpt2" the construction ends
    in an exception that reports no configuration error. *)
Lemma C1_not_a_configuration_error :
  py_in "gpt2" supported_names = false
  /\ ~ (exists e,
          ChatGLMDecoderLayer.__init__ 0 (example_args "gpt2" true 2 8 10 2)
            = Err e
          /\ reports e ConfigurationError = true).
Proof.
  split; [reflexivity|].
  intros [e [He Hk]]. cbv in He. injection He as <-. discriminate Hk.
Qed.

(** What [__init__] builds in each of its three branches. *)
Lemma layer_init_legacy (layer_id : Z) (args : Args.t) :
  py_in (Args.model_name args) chatglm_6b_names = true ->
  float_overflow (2 * Args.num_layers args) = false ->
  exists layer,
    ChatGLMDecoderLayer.__init__ layer_id args = Ok layer
    /\ ChatGLMDecoderLayer.model_name layer = Args.model_name args
    /\ ChatGLMDecoderLayer.use_cache layer = Args.use_cache args
    /\ ChatGLMDecoderLayer.alpha layer
       = Some (Pow (2 * Args.num_layers args) (1 # 2))
    /\ ChatGLMDecoderLayer.apply_residual_connection_post_layernorm layer
       = None
    /\ ChatGLMDecoderLayer.norm layer = LayerNorm
    /\ (exists v,
          ChatGLMDecoderLayer.select_variant args = Ok v
          /\ ChatGLMDecoderLayer.v_norm v = Some LayerNorm)
    /\ norm_cls (ChatGLMDecoderLayer.pre_norm layer) = LayerNorm
    /\ norm_cls (ChatGLMDecoderLayer.post_norm layer) = LayerNorm.
Proof.
  intros H Hf.
  unfold ChatGLMDecoderLayer.__init__, ChatGLMDecoderLayer.select_variant,
    pow_half.
  fold chatglm_6b_names. rewrite H, Hf. cbn [bind getattr getlocal].
  eexists. split; [reflexivity|]. cbn.
  repeat split; try reflexivity. eexists. split; reflexivity.
Qed.

(** The first branch ends the construction when [2 * num_layers] does not
    convert to a float. *)
Lemma layer_init_overflow (layer_id : Z) (args : Args.t) :
  py_in (Args.model_name args) chatglm_6b_names = true ->
  float_overflow (2 * Args.num_layers args) = true ->
  ChatGLMDecoderLayer.__init__ layer_id args
  = Err (OverflowError "int too large to convert to float").
Proof.
  intros H Hf.
  unfold ChatGLMDecoderLayer.__init__, ChatGLMDecoderLayer.select_variant,
    pow_half.
  fold chatglm_6b_names. now rewrite H, Hf.
Qed.

Lemma layer_init_additive (layer_id : Z) (args : Args.t) :
  py_in (Args.model_name args) chatglm2_names
  || py_in (Args.model_name args) glm_10b_names = true ->
  exists layer,
    ChatGLMDecoderLayer.__init__ layer_id args = Ok layer
    /\ ChatGLMDecoderLayer.model_name layer = Args.model_name args
    /\ ChatGLMDecoderLayer.use_cache layer = Args.use_cache args
    /\ ChatGLMDecoderLayer.alpha layer = None
    /\ ChatGLMDecoderLayer.apply_residual_connection_post_layernorm layer
       = Some (Args.apply_residual_connection_post_layernorm args)
    /\ (exists v,
          ChatGLMDecoderLayer.select_variant args = Ok v
          /\ ChatGLMDecoderLayer.v_norm v
             = Some (ChatGLMDecoderLayer.norm layer))
    /\ norm_cls (ChatGLMDecoderLayer.pre_norm layer)
       = ChatGLMDecoderLayer.norm layer
    /\ norm_cls (ChatGLMDecoderLayer.post_norm layer)
       = ChatGLMDecoderLayer.norm layer.
Proof.
  intros H.
  assert (Hl : py_in (Args.model_name args) chatglm_6b_names = false).
  { destruct (py_in (Args.model_name args) chatglm_6b_names) eqn:E;
      [|reflexivity].
    apply legacy_not_additive in E. congruence. }
  unfold ChatGLMDecoderLayer.__init__, ChatGLMDecoderLayer.select_variant.
  fold chatglm_6b_names chatglm2_names glm_10b_names. rewrite Hl.
  destruct (py_in (Args.model_name args) chatglm2_names) eqn:E2.
  - cbn. eexists. split; [reflexivity|]. cbn.
    repeat split; try reflexivity. eexists. split; reflexivity.
  - cbn [orb] in H. rewrite H. cbn.
    eexists. split; [reflexivity|]. cbn.
    repeat split; try reflexivity. eexists. split; reflexivity.
Qed.

(** C6: for every supported identifier the [if]/[elif] chain of the
    construction selects exactly one residual policy and one normalisation
    class.  The layer built has the policy scaled by [alpha] ([alpha] is
    set, the flag of the additive policy is not, and [forward] takes its
    first branch) or the additive one (the flag is set, [alpha] is not, and
    [forward] takes its second branch), and the class the chain selected is
    the one of both norms.  The chain returns and the layer is built
    whenever [(2 * num_layers) ** 0.5] can be computed, which only
    chatglm_6b asks for: there, a [2 * num_layers] beyond the floats ends
    the construction in [OverflowError] before anything is selected. *)
Theorem C6_one_residual_policy_one_norm (layer_id : Z) (args : Args.t) :
  py_in (Args.model_name args) supported_names = true ->
  ((py_in (Args.model_name args) ["chatglm_6b"] = true ->
    float_overflow (2 * Args.num_layers args) = false) ->
   exists layer v,
     ChatGLMDecoderLayer.__init__ layer_id args = Ok layer
     /\ ((py_in (ChatGLMDecoderLayer.model_name layer) ["chatglm_6b"] = true
          /\ ChatGLMDecoderLayer.alpha layer <> None
          /\ ChatGLMDecoderLayer.apply_residual_connection_post_layernorm
               layer = None)
         \/ (py_in (ChatGLMDecoderLayer.model_name layer) ["chatglm_6b"]
             = false
             /\ py_in (ChatGLMDecoderLayer.model_name layer)
                  ["chatglm2_6b"; "chatglm2_6b_32k"; "chatglm3_6b";
                   "chatglm3_6b_base"; "chatglm3_6b_32k"; "glm_10b"] = true
             /\ ChatGLMDecoderLayer.alpha layer = None
             /\ ChatGLMDecoderLayer.apply_residual_connection_post_layernorm
                  layer <> None))
     /\ ChatGLMDecoderLayer.select_variant args = Ok v
     /\ ChatGLMDecoderLayer.v_norm v = Some (ChatGLMDecoderLayer.norm layer)
     /\ norm_cls (ChatGLMDecoderLayer.pre_norm layer)
        = ChatGLMDecoderLayer.norm layer
     /\ norm_cls (ChatGLMDecoderLayer.post_norm layer)
        = ChatGLMDecoderLayer.norm layer)
  /\ (py_in (Args.model_name args) ["chatglm_6b"] = true ->
      float_overflow (2 * Args.num_layers args) = true ->
      ChatGLMDecoderLayer.select_variant args
      = Err (OverflowError "int too large to convert to float")
      /\ ChatGLMDecoderLayer.__init__ layer_id args
         = Err (OverflowError "int too large to convert to float")).
Proof.
  rewrite supported_split. fold chatglm_6b_names. intros H. split.
  - intros Hf.
    destruct (py_in (Args.model_name args) chatglm_6b_names) eqn:E.
    + destruct (layer_init_legacy layer_id args E (Hf eq_refl))
        as (l & Hi & Hn & _ & Ha & Hp & Hk & (v & Hv & Hvn) & Hpre & Hpost).
      exists l, v. split; [exact Hi|]. split.
      * left. rewrite Hn. fold chatglm_6b_names.
        repeat split; [exact E| rewrite Ha; discriminate | exact Hp].
      * rewrite Hk. now repeat split.
    + cbn [orb] in H.
      destruct (layer_init_additive layer_id args H)
        as (l & Hi & Hn & _ & Ha & Hp & (v & Hv & Hvn) & Hpre & Hpost).
      exists l, v. split; [exact Hi|]. split.
      * right. rewrite Hn, additive_names. fold chatglm_6b_names.
        repeat split;
          [exact E| exact H | exact Ha | rewrite Hp; discriminate].
      * now repeat split.
  - intros E Hf. split.
    + unfold ChatGLMDecoderLayer.select_variant, pow_half.
      fold chatglm_6b_names. now rewrite E, Hf.
    + now apply layer_init_overflow.
Qed.

Lemma C6_one_residual_policy_one_norm_witness :
  exists layer v,
    ChatGLMDecoderLayer.__init__ 3 (example_args "chatglm_6b" true 28 8 10 2)
      = Ok layer
    /\ ((py_in (ChatGLMDecoderLayer.model_name layer) ["chatglm_6b"] = true
         /\ ChatGLMDecoderLayer.alpha layer <> None
         /\ ChatGLMDecoderLayer.apply_residual_connection_post_layernorm layer
            = None)
        \/ (py_in (ChatGLMDecoderLayer.model_name layer) ["chatglm_6b"] = false
            /\ py_in (ChatGLMDecoderLayer.model_name layer)
                 ["chatglm2_6b"; "chatglm2_6b_32k"; "chatglm3_6b";
                  "chatglm3_6b_base"; "chatglm3_6b_32k"; "glm_10b"] = true
            /\ ChatGLMDecoderLayer.alpha layer = None
            /\ ChatGLMDecoderLayer.apply_residual_connection_post_layernorm
                 layer <> None))
    /\ ChatGLMDecoderLayer.select_variant
         (example_args "chatglm_6b" true 28 8 10 2) = Ok v
    /\ ChatGLMDecoderLayer.v_norm v = Some (ChatGLMDecoderLayer.norm layer)
    /\ norm_cls (ChatGLMDecoderLayer.pre_norm layer)
       = ChatGLMDecoderLayer.norm layer
    /\ norm_cls (ChatGLMDecoderLayer.post_norm layer)
       = ChatGLMDecoderLayer.norm layer.
Proof.
  apply (C6_one_residual_policy_one_norm 3
           (example_args "chatglm_6b" true 28 8 10 2));
    [reflexivity | intros _; vm_compute; reflexivity].
Defined.

(** ** The residual wiring of a decoder layer *)

(** [forward] returns the output its trace ends with. *)
Lemma forward_of_trace {ops : TensorOps} (self : ChatGLMDecoderLayer.t)
    (hidden_states position_ids : Tensor)
    (kv : KeyValueCacheParams Tensor) (ap : AttentionParams Tensor)
    (tr : ChatGLMDecoderLayer.trace) (presents : option Tensor) :
  ChatGLMDecoderLayer.forward_trace self hidden_states position_ids kv ap
    = Ok (tr, presents) ->
  exists o,
    ChatGLMDecoderLayer.forward self hidden_states position_ids kv ap = Ok o
    /\ layer_hidden_states o = ChatGLMDecoderLayer.tr_output tr.
Proof.
  intros H. unfold ChatGLMDecoderLayer.forward. rewrite H. cbn.
  destruct presents; eexists; split; reflexivity.
Qed.

(** C3: for chatglm_6b, with a [2 * num_layers] that converts to a float,
    the layer is built with [alpha = (2 * num_layers) ** 0.5], and
    [forward] scales the residual by it in both combines: the input of the post-norm is
    [norm_output * alpha + attention_output] and the output is
    [norm_output2 * alpha + mlp_output], with [norm_output] the pre-norm of
    the hidden states and [norm_output2] the post-norm of the former
    sum. *)
Theorem C3_legacy_alpha_in_both_combines {ops : TensorOps} (layer_id : Z)
    (args : Args.t) (hidden_states position_ids : Tensor)
    (kv : KeyValueCacheParams Tensor) (ap : AttentionParams Tensor) :
  Args.model_name args = "chatglm_6b" ->
  float_overflow (2 * Args.num_layers args) = false ->
  exists layer tr presents o,
    let alpha := Pow (2 * Args.num_layers args) (1 # 2) in
    let norm_output := ChatGLMDecoderLayer.tr_norm_output tr in
    let attention_output := ChatGLMDecoderLayer.tr_attention_output tr in
    let norm_input := ChatGLMDecoderLayer.tr_norm_input tr in
    let norm_output2 := ChatGLMDecoderLayer.tr_norm_output2 tr in
    let mlp_output := ChatGLMDecoderLayer.tr_mlp_output tr in
    ChatGLMDecoderLayer.__init__ layer_id args = Ok layer
    /\ ChatGLMDecoderLayer.alpha layer = Some alpha
    /\ ChatGLMDecoderLayer.forward_trace layer hidden_states position_ids
         kv ap = Ok (tr, presents)
    /\ ChatGLMDecoderLayer.forward layer hidden_states position_ids kv ap
       = Ok o
    /\ norm_output
       = Norm_forward (ChatGLMDecoderLayer.pre_norm layer) hidden_states
    /\ attention_output
       = Attention_context (ChatGLMDecoderLayer.attention layer) norm_output
           (Args.use_cache args) kv ap position_ids
    /\ norm_input = add (mul norm_output alpha) attention_output
    /\ norm_output2
       = Norm_forward (ChatGLMDecoderLayer.post_norm layer) norm_input
    /\ mlp_output
       = MLP_forward (ChatGLMDecoderLayer.mlp layer) norm_output2
    /\ ChatGLMDecoderLayer.tr_output tr
       = add (mul norm_output2 alpha) mlp_output
    /\ layer_hidden_states o = ChatGLMDecoderLayer.tr_output tr.
Proof.
  intros Hname Hfloat.
  assert (Hl : py_in (Args.model_name args) chatglm_6b_names = true)
    by now rewrite Hname.
  destruct (layer_init_legacy layer_id args Hl Hfloat)
    as (l & Hi & Hn & Hu & Ha & _).
  assert (Ht : exists tr presents,
    ChatGLMDecoderLayer.forward_trace l hidden_states position_ids kv ap
      = Ok (tr, presents)
    /\ ChatGLMDecoderLayer.tr_norm_output tr
       = Norm_forward (ChatGLMDecoderLayer.pre_norm l) hidden_states
    /\ ChatGLMDecoderLayer.tr_attention_output tr
       = Attention_context (ChatGLMDecoderLayer.attention l)
           (ChatGLMDecoderLayer.tr_norm_output tr)
           (Args.use_cache args) kv ap position_ids
    /\ ChatGLMDecoderLayer.tr_norm_input tr
       = add (mul (ChatGLMDecoderLayer.tr_norm_output tr)
                (Pow (2 * Args.num_layers args) (1 # 2)))
           (ChatGLMDecoderLayer.tr_attention_output tr)
    /\ ChatGLMDecoderLayer.tr_norm_output2 tr
       = Norm_forward (ChatGLMDecoderLayer.post_norm l)
           (ChatGLMDecoderLayer.tr_norm_input tr)
    /\ ChatGLMDecoderLayer.tr_mlp_output tr
       = MLP_forward (ChatGLMDecoderLayer.mlp l)
           (ChatGLMDecoderLayer.tr_norm_output2 tr)
    /\ ChatGLMDecoderLayer.tr_output tr
       = add (mul (ChatGLMDecoderLayer.tr_norm_output2 tr)
                (Pow (2 * Args.num_layers args) (1 # 2)))
           (ChatGLMDecoderLayer.tr_mlp_output tr)).
  { unfold ChatGLMDecoderLayer.forward_trace.
    rewrite Hn, Hname, Ha, Hu. cbn [py_in existsb String.eqb Ascii.eqb
      Bool.eqb orb getattr bind].
    do 2 eexists. split; [reflexivity|]. cbn. repeat split; reflexivity. }
  destruct Ht as (tr & presents & Hf & H1 & H2 & H3 & H4 & H5 & H6).
  destruct (forward_of_trace l _ _ _ _ _ _ Hf) as (o & Ho & Hh).
  exists l, tr, presents, o. cbv zeta.
  repeat split; assumption.
Qed.

Lemma C3_legacy_alpha_in_both_combines_witness :
  exists layer tr presents o,
    let args := example_args "chatglm_6b" true 28 8 10 2 in
    let alpha := Pow 56 (1 # 2) in
    let norm_output := ChatGLMDecoderLayer.tr_norm_output tr in
    let attention_output := ChatGLMDecoderLayer.tr_attention_output tr in
    let norm_input := ChatGLMDecoderLayer.tr_norm_input tr in
    let norm_output2 := ChatGLMDecoderLayer.tr_norm_output2 tr in
    let mlp_output := ChatGLMDecoderLayer.tr_mlp_output tr in
    ChatGLMDecoderLayer.__init__ 0 args = Ok layer
    /\ ChatGLMDecoderLayer.alpha layer = Some alpha
    /\ ChatGLMDecoderLayer.forward_trace layer example_input_ids
         example_position_ids (example_kv 1) example_attention_params
       = Ok (tr, presents)
    /\ ChatGLMDecoderLayer.forward layer example_input_ids
         example_position_ids (example_kv 1) example_attention_params
       = Ok o
    /\ norm_output
       = Sym.NormOut (ChatGLMDecoderLayer.pre_norm layer) example_input_ids
    /\ attention_output
       = Sym.AttentionContext (ChatGLMDecoderLayer.attention layer)
           norm_output true (example_kv 1) example_attention_params
           example_position_ids
    /\ norm_input = Sym.Add (Sym.Mul norm_output alpha) attention_output
    /\ norm_output2
       = Sym.NormOut (ChatGLMDecoderLayer.post_norm layer) norm_input
    /\ mlp_output
       = Sym.MLPOut (ChatGLMDecoderLayer.mlp layer) norm_output2
    /\ ChatGLMDecoderLayer.tr_output tr
       = Sym.Add (Sym.Mul norm_output2 alpha) mlp_output
    /\ layer_hidden_states o = ChatGLMDecoderLayer.tr_output tr.
Proof.
  apply (C3_legacy_alpha_in_both_combines (ops := Sym.ops) 0
           (example_args "chatglm_6b" true 28 8 10 2));
    [reflexivity | vm_compute; reflexivity].
Defined.

(** C4: for the six other identifiers, [forward] adds the attention output
    to [norm_output] when [apply_residual_connection_post_layernorm] is set
    and to [hidden_states] otherwise, and adds the feed-forward output to
    [norm_output2] when the flag is set and to the first sum ([norm_input],
    the residual input) otherwise. *)
Theorem C4_additive_selectable_base {ops : TensorOps} (layer_id : Z)
    (args : Args.t) (hidden_states position_ids : Tensor)
    (kv : KeyValueCacheParams Tensor) (ap : AttentionParams Tensor) :
  py_in (Args.model_name args)
    ["chatglm2_6b"; "chatglm2_6b_32k"; "chatglm3_6b"; "chatglm3_6b_base";
     "chatglm3_6b_32k"; "glm_10b"] = true ->
  exists layer tr presents o,
    let post_layernorm := Args.apply_residual_connection_post_layernorm args in
    let norm_output := ChatGLMDecoderLayer.tr_norm_output tr in
    let attention_output := ChatGLMDecoderLayer.tr_attention_output tr in
    let norm_input := ChatGLMDecoderLayer.tr_norm_input tr in
    let norm_output2 := ChatGLMDecoderLayer.tr_norm_output2 tr in
    let mlp_output := ChatGLMDecoderLayer.tr_mlp_output tr in
    ChatGLMDecoderLayer.__init__ layer_id args = Ok layer
    /\ ChatGLMDecoderLayer.apply_residual_connection_post_layernorm layer
       = Some post_layernorm
    /\ ChatGLMDecoderLayer.forward_trace layer hidden_states position_ids
         kv ap = Ok (tr, presents)
    /\ ChatGLMDecoderLayer.forward layer hidden_states position_ids kv ap
       = Ok o
    /\ norm_output
       = Norm_forward (ChatGLMDecoderLayer.pre_norm layer) hidden_states
    /\ attention_output
       = Attention_context (ChatGLMDecoderLayer.attention layer) norm_output
           (Args.use_cache args) kv ap position_ids
    /\ norm_input
       = add (if post_layernorm then norm_output else hidden_states)
           attention_output
    /\ norm_output2
       = Norm_forward (ChatGLMDecoderLayer.post_norm layer) norm_input
    /\ mlp_output
       = MLP_forward (ChatGLMDecoderLayer.mlp layer) norm_output2
    /\ ChatGLMDecoderLayer.tr_output tr
       = add (if post_layernorm then norm_output2 else norm_input) mlp_output
    /\ layer_hidden_states o = ChatGLMDecoderLayer.tr_output tr.
Proof.
  intros Hname.
  assert (Hadd := Hname). rewrite additive_names in Hadd.
  assert (Hl : py_in (Args.model_name args) ["chatglm_6b"] = false).
  { fold chatglm_6b_names.
    destruct (py_in (Args.model_name args) chatglm_6b_names) eqn:E;
      [|reflexivity].
    apply legacy_not_additive in E. congruence. }
  destruct (layer_init_additive layer_id args Hadd)
    as (l & Hi & Hn & Hu & _ & Hp & _).
  assert (Ht : exists tr presents,
    ChatGLMDecoderLayer.forward_trace l hidden_states position_ids kv ap
      = Ok (tr, presents)
    /\ ChatGLMDecoderLayer.tr_norm_output tr
       = Norm_forward (ChatGLMDecoderLayer.pre_norm l) hidden_states
    /\ ChatGLMDecoderLayer.tr_attention_output tr
       = Attention_context (ChatGLMDecoderLayer.attention l)
           (ChatGLMDecoderLayer.tr_norm_output tr)
           (Args.use_cache args) kv ap position_ids
    /\ ChatGLMDecoderLayer.tr_norm_input tr
       = add (if Args.apply_residual_connection_post_layernorm args
              then ChatGLMDecoderLayer.tr_norm_output tr
              else hidden_states)
           (ChatGLMDecoderLayer.tr_attention_output tr)
    /\ ChatGLMDecoderLayer.tr_norm_output2 tr
       = Norm_forward (ChatGLMDecoderLayer.post_norm l)
           (ChatGLMDecoderLayer.tr_norm_input tr)
    /\ ChatGLMDecoderLayer.tr_mlp_output tr
       = MLP_forward (ChatGLMDecoderLayer.mlp l)
           (ChatGLMDecoderLayer.tr_norm_output2 tr)
    /\ ChatGLMDecoderLayer.tr_output tr
       = add (if Args.apply_residual_connection_post_layernorm args
              then ChatGLMDecoderLayer.tr_norm_output2 tr
              else ChatGLMDecoderLayer.tr_norm_input tr)
           (ChatGLMDecoderLayer.tr_mlp_output tr)).
  { unfold ChatGLMDecoderLayer.forward_trace.
    rewrite Hn, Hl, Hname, Hp, Hu. cbn [getattr bind].
    do 2 eexists. split; [reflexivity|]. cbn. repeat split; reflexivity. }
  destruct Ht as (tr & presents & Hf & H1 & H2 & H3 & H4 & H5 & H6).
  destruct (forward_of_trace l _ _ _ _ _ _ Hf) as (o & Ho & Hh).
  exists l, tr, presents, o. cbv zeta.
  repeat split; assumption.
Qed.

Lemma C4_additive_selectable_base_witness :
  exists layer tr presents o,
    let args := example_args "chatglm3_6b" true 28 8 10 2 in
    let norm_output := ChatGLMDecoderLayer.tr_norm_output tr in
    let attention_output := ChatGLMDecoderLayer.tr_attention_output tr in
    let norm_input := ChatGLMDecoderLayer.tr_norm_input tr in
    let norm_output2 := ChatGLMDecoderLayer.tr_norm_output2 tr in
    let mlp_output := ChatGLMDecoderLayer.tr_mlp_output tr in
    ChatGLMDecoderLayer.__init__ 0 args = Ok layer
    /\ ChatGLMDecoderLayer.apply_residual_connection_post_layernorm layer
       = Some false
    /\ ChatGLMDecoderLayer.forward_trace layer example_input_ids
         example_position_ids (example_kv 1) example_attention_params
       = Ok (tr, presents)
    /\ ChatGLMDecoderLayer.forward layer example_input_ids
         example_position_ids (example_kv 1) example_attention_params
       = Ok o
    /\ norm_output
       = Sym.NormOut (ChatGLMDecoderLayer.pre_norm layer) example_input_ids
    /\ attention_output
       = Sym.AttentionContext (ChatGLMDecoderLayer.attention layer)
           norm_output true (example_kv 1) example_attention_params
           example_position_ids
    /\ norm_input = Sym.Add example_input_ids attention_output
    /\ norm_output2
       = Sym.NormOut (ChatGLMDecoderLayer.post_norm layer) norm_input
    /\ mlp_output
       = Sym.MLPOut (ChatGLMDecoderLayer.mlp layer) norm_output2
    /\ ChatGLMDecoderLayer.tr_output tr = Sym.Add norm_input mlp_output
    /\ layer_hidden_states o = ChatGLMDecoderLayer.tr_output tr.
Proof.
  apply (C4_additive_selectable_base (ops := Sym.ops) 0
           (example_args "chatglm3_6b" true 28 8 10 2)).
  reflexivity.
Defined.

(** ** The decoder stack *)

(** A layer returns its presents exactly when it uses the cache. *)
Lemma layer_forward_kind {ops : TensorOps} (l : ChatGLMDecoderLayer.t)
    (hidden_states position_ids : Tensor)
    (kv : KeyValueCacheParams Tensor) (ap : AttentionParams Tensor)
    (o : ChatGLMDecoderLayer.output) :
  ChatGLMDecoderLayer.forward l hidden_states position_ids kv ap = Ok o ->
  has_presents o = ChatGLMDecoderLayer.use_cache l.
Proof.
  unfold ChatGLMDecoderLayer.forward, ChatGLMDecoderLayer.forward_trace.
  destruct (py_in (ChatGLMDecoderLayer.model_name l) ["chatglm_6b"]).
  - destruct (ChatGLMDecoderLayer.alpha l); cbn; [|discriminate].
    destruct (ChatGLMDecoderLayer.use_cache l); intros [= <-]; reflexivity.
  - destruct (py_in _ _); [|discriminate].
    destruct (ChatGLMDecoderLayer.apply_residual_connection_post_layernorm l);
      cbn; [|discriminate].
    destruct (ChatGLMDecoderLayer.use_cache l); intros [= <-]; reflexivity.
Qed.

(** A layer built for a supported identifier runs on every input. *)
Lemma layer_forward_total {ops : TensorOps} (layer_id : Z) (args : Args.t)
    (l : ChatGLMDecoderLayer.t) (hidden_states position_ids : Tensor)
    (kv : KeyValueCacheParams Tensor) (ap : AttentionParams Tensor) :
  ChatGLMDecoderLayer.__init__ layer_id args = Ok l ->
  exists o,
    ChatGLMDecoderLayer.forward l hidden_states position_ids kv ap = Ok o.
Proof.
  intros Hi.
  destruct (py_in (Args.model_name args) supported_names) eqn:Hs.
  2:{ rewrite (layer_init_unsupported layer_id args Hs) in Hi. discriminate. }
  rewrite supported_split in Hs.
  unfold ChatGLMDecoderLayer.forward, ChatGLMDecoderLayer.forward_trace.
  destruct (py_in (Args.model_name args) chatglm_6b_names) eqn:E.
  - destruct (float_overflow (2 * Args.num_layers args)) eqn:Hf.
    { rewrite (layer_init_overflow layer_id args E Hf) in Hi.
      discriminate. }
    destruct (layer_init_legacy layer_id args E Hf)
      as (l' & Hi' & Hn & _ & Ha & _).
    rewrite Hi in Hi'. injection Hi' as <-.
    rewrite Hn. fold chatglm_6b_names. rewrite E, Ha. cbn.
    destruct (ChatGLMDecoderLayer.use_cache l); eexists; reflexivity.
  - cbn [orb] in Hs.
    destruct (layer_init_additive layer_id args Hs)
      as (l' & Hi' & Hn & _ & _ & Hp & _).
    rewrite Hi in Hi'. injection Hi' as <-.
    rewrite Hn, additive_names. fold chatglm_6b_names. rewrite E, Hs, Hp. cbn.
    destruct (ChatGLMDecoderLayer.use_cache l); eexists; reflexivity.
Qed.

Lemma layer_init_use_cache (layer_id : Z) (args : Args.t)
    (l : ChatGLMDecoderLayer.t) :
  ChatGLMDecoderLayer.__init__ layer_id args = Ok l ->
  ChatGLMDecoderLayer.use_cache l = Args.use_cache args.
Proof.
  unfold ChatGLMDecoderLayer.__init__.
  destruct (ChatGLMDecoderLayer.select_variant args) as [v|]; cbn [bind];
    [|discriminate].
  destruct (ChatGLMDecoderLayer.v_norm _); cbn; [|discriminate].
  destruct (ChatGLMDecoderLayer.v_attention_mask_type _); cbn; [|discriminate].
  destruct (ChatGLMDecoderLayer.v_position_embedding_type _); cbn;
    [|discriminate].
  now intros [= <-].
Qed.

Lemma map_result_Forall {A B : Type} (f : A -> result B) (l : list A)
    (bs : list B) :
  map_result f l = Ok bs ->
  Forall (fun b => exists a, f a = Ok b) bs /\ List.length bs = List.length l.
Proof.
  revert bs. induction l as [|a l IH]; cbn; intros bs H.
  - injection H as <-. split; [constructor | reflexivity].
  - destruct (f a) as [b|e] eqn:Hb; cbn in H; [|discriminate].
    destruct (map_result f l) as [bs'|e]; cbn in H; [|discriminate].
    injection H as <-. destruct (IH bs' eq_refl) as [HF HL]. split.
    + constructor; [now exists a | exact HF].
    + cbn. now rewrite HL.
Qed.

(** What [ChatGLMModel.__init__] builds, when it returns. *)
Lemma model_init_fields (args : Args.t) (m : ChatGLMModel.t) :
  ChatGLMModel.__init__ args = Ok m ->
  ChatGLMModel.model_name m = Args.model_name args
  /\ ChatGLMModel.use_cache m = Args.use_cache args
  /\ Forall (built_from args) (ChatGLMModel.layers m)
  /\ List.length (ChatGLMModel.layers m)
     = Z.to_nat (Args.num_layers args)
  /\ ChatGLMModel.embedding m
     = ChatGLMModel.table "embedding" (Args.vocab_size args) args
  /\ (py_in (Args.model_name args) ["glm_10b"] = true ->
      ChatGLMModel.position_embeddings m
      = Some (ChatGLMModel.table "position_embeddings"
                (Args.max_seq_length args + 1) args)
      /\ ChatGLMModel.block_embeddings m
         = Some (ChatGLMModel.table "block_embeddings"
                   (Args.max_seq_length args + 1) args)).
Proof.
  unfold ChatGLMModel.__init__.
  destruct (map_result _ _) as [ls|e] eqn:Hl; cbn; [|discriminate].
  destruct (ChatGLMModel.select_norm args); cbn; [|discriminate].
  intros [= <-]. cbn.
  destruct (map_result_Forall _ _ _ Hl) as [HF HL].
  repeat split; try reflexivity.
  - exact HF.
  - rewrite HL. unfold range. now rewrite length_map, length_seq.
  - now rewrite H.
  - now rewrite H.
Qed.

Lemma zip4_layers {ops : TensorOps} (P : ChatGLMDecoderLayer.t -> Prop)
    (ls : list ChatGLMDecoderLayer.t) (la lb lc : list (option Tensor)) :
  Forall P ls -> Forall (fun z => P (layer_of z)) (zip4 ls la lb lc).
Proof.
  intros H. revert la lb lc.
  induction H as [|l ls Hl _ IH]; intros la lb lc; [constructor|].
  destruct la, lb, lc; cbn; try constructor; [exact Hl | apply IH].
Qed.

(** With the cache in use, the loop threads the hidden states and collects
    one present per layer run. *)
Lemma run_layers_with_cache {ops : TensorOps} (position_ids : Tensor)
    (kv : KeyValueCacheParams Tensor) (ap : AttentionParams Tensor)
    (zipped :
       list (ChatGLMDecoderLayer.t * option Tensor * option Tensor
             * option Tensor))
    (hidden_states : Tensor) (presents : list Tensor) :
  Forall (fun z => ChatGLMDecoderLayer.use_cache (layer_of z) = true
                   /\ forall hs kv',
                        exists o,
                          ChatGLMDecoderLayer.forward (layer_of z) hs
                            position_ids kv' ap = Ok o) zipped ->
  exists threaded news,
    ChatGLMModel.run_layers true position_ids kv ap zipped hidden_states
      presents = Ok (threaded, (presents ++ news)%list)
    /\ thread_layers position_ids kv ap zipped hidden_states = Ok threaded
    /\ List.length news = List.length zipped.
Proof.
  intros H. revert hidden_states presents.
  induction H as [|[[[l past] pointer] mx] rest [Hu Ht] _ IH];
    intros hidden_states presents.
  - exists hidden_states, []. cbn. now rewrite app_nil_r.
  - cbn [layer_of fst] in Hu, Ht.
    destruct (Ht hidden_states
                (ChatGLMModel.layer_kv_cache_params kv past pointer mx))
      as [o Ho].
    pose proof (layer_forward_kind _ _ _ _ _ _ Ho) as Hk. rewrite Hu in Hk.
    destruct o as [out present|out]; [|discriminate].
    destruct (IH out (presents ++ [present])%list)
      as (threaded & news & Hr & Hth & Hlen).
    exists threaded, (present :: news).
    cbn [ChatGLMModel.run_layers thread_layers]. rewrite Ho. cbn.
    rewrite Hr, Hth, <- app_assoc. cbn. now rewrite Hlen.
Qed.

(** Without the cache, the loop leaves [hidden_states] as it found it. *)
Lemma run_layers_without_cache {ops : TensorOps} (position_ids : Tensor)
    (kv : KeyValueCacheParams Tensor) (ap : AttentionParams Tensor)
    (zipped :
       list (ChatGLMDecoderLayer.t * option Tensor * option Tensor
             * option Tensor))
    (hidden_states : Tensor) (presents : list Tensor) :
  Forall (fun z => forall hs kv',
                     exists o,
                       ChatGLMDecoderLayer.forward (layer_of z) hs
                         position_ids kv' ap = Ok o) zipped ->
  ChatGLMModel.run_layers false position_ids kv ap zipped hidden_states
    presents = Ok (hidden_states, presents).
Proof.
  intros H. induction H as [|[[[l past] pointer] mx] rest Ht _ IH];
    [reflexivity|].
  cbn [layer_of fst] in Ht.
  destruct (Ht hidden_states
              (ChatGLMModel.layer_kv_cache_params kv past pointer mx))
    as [o Ho].
  cbn [ChatGLMModel.run_layers]. rewrite Ho. cbn. exact IH.
Qed.

(** [embed] returns for every model that [__init__] built, given two
    columns of position ids where it reads them. *)
Lemma embed_total {ops : TensorOps} (args : Args.t) (m : ChatGLMModel.t)
    (input_ids position_ids : Tensor) :
  ChatGLMModel.__init__ args = Ok m ->
  (py_in (Args.model_name args) ["glm_10b"] = true ->
   (2 <= List.length (split position_ids 1 1))%nat) ->
  exists hidden_states,
    ChatGLMModel.embed m input_ids position_ids = Ok hidden_states.
Proof.
  intros Hi Hs.
  destruct (model_init_fields args m Hi) as (Hn & _ & _ & _ & _ & Hg).
  unfold ChatGLMModel.embed. rewrite Hn.
  destruct (py_in (Args.model_name args) ["glm_10b"]); [|now eexists].
  destruct (Hg eq_refl) as [-> ->]. specialize (Hs eq_refl).
  destruct (split position_ids 1 1) as [|c0 [|c1 rest]]; cbn in Hs; try lia.
  cbn. now eexists.
Qed.

(** The stack's forward pass on a model that [__init__] built: it returns,
    with one present per layer run when the cache is in use; it threads
    the hidden states through the layers when the cache is in use and
    passes them by otherwise. *)
Lemma model_forward_total {ops : TensorOps} (args : Args.t)
    (m : ChatGLMModel.t) (input_ids position_ids : Tensor)
    (kv : KeyValueCacheParams Tensor) (ap : AttentionParams Tensor)
    (pasts pointers max_lengths : list (option Tensor)) :
  ChatGLMModel.__init__ args = Ok m ->
  (py_in (Args.model_name args) ["glm_10b"] = true ->
   (2 <= List.length (split position_ids 1 1))%nat) ->
  let kv' :=
    fill_none_tensor_list kv (Z.of_nat (List.length (ChatGLMModel.layers m)))
  in
  past_key_value kv' = PList pasts ->
  kv_cache_block_pointers kv' = PList pointers ->
  host_max_kv_cache_lengths kv' = PList max_lengths ->
  let zipped := zip4 (ChatGLMModel.layers m) pasts pointers max_lengths in
  exists embedded,
    ChatGLMModel.embed m input_ids position_ids = Ok embedded
    /\ if Args.use_cache args then
         exists threaded presents,
           thread_layers position_ids kv' ap zipped embedded = Ok threaded
           /\ List.length presents = List.length zipped
           /\ ChatGLMModel.forward m input_ids position_ids kv ap
              = Ok (ChatGLMModel.WithPresents
                      (Norm_forward (ChatGLMModel.final_norm m) threaded)
                      presents)
       else
         ChatGLMModel.forward m input_ids position_ids kv ap
         = Ok (ChatGLMModel.Plain
                 (Norm_forward (ChatGLMModel.final_norm m) embedded)).
Proof.
  intros Hi Hs kv' Hp Hq Hr zipped.
  destruct (embed_total args m input_ids position_ids Hi Hs) as [e He].
  exists e. split; [exact He|].
  destruct (model_init_fields args m Hi) as (_ & Hu & HF & _).
  assert (HZ : Forall (fun z => built_from args (layer_of z)) zipped)
    by (apply zip4_layers; exact HF).
  unfold ChatGLMModel.forward. rewrite He. cbn [bind].
  fold kv'. rewrite Hp, Hq, Hr. cbn [py_iter bind]. fold zipped.
  rewrite Hu. destruct (Args.use_cache args) eqn:Huc.
  - destruct (run_layers_with_cache position_ids kv' ap zipped e [])
      as (threaded & news & Hrun & Hth & Hlen).
    { eapply Forall_impl; [|exact HZ]. intros z [i Hz]. split.
      - rewrite (layer_init_use_cache i args _ Hz). exact Huc.
      - intros hs k. eapply layer_forward_total. exact Hz. }
    exists threaded, news. rewrite Hrun. cbn. auto.
  - rewrite run_layers_without_cache; [reflexivity|].
    eapply Forall_impl; [|exact HZ]. intros z [i Hz] hs k.
    eapply layer_forward_total. exact Hz.
Qed.

(** C2, at a failing input: a two-layer chatglm2_6b model built with
    [use_cache = False].  [forward] calls both layers, each on the embedded
    input, drops what they return and applies the final norm to the
    embedded input; threading the hidden states through the two layers
    gives another tensor. *)
Theorem C2_layers_bypassed_without_cache :
  let args := example_args "chatglm2_6b" false 2 8 10 2 in
  let kv := example_kv 2 in
  exists m embedded threaded,
    ChatGLMModel.__init__ args = Ok m
    /\ List.length (ChatGLMModel.layers m) = 2%nat
    /\ ChatGLMModel.embed m example_input_ids example_position_ids
       = Ok embedded
    /\ embedded
       = Sym.EmbeddingOut (ChatGLMModel.embedding m) example_input_ids
    /\ thread_layers example_position_ids kv example_attention_params
         (zip4 (ChatGLMModel.layers m) (repeat None 2) (repeat None 2)
            (repeat None 2)) embedded
       = Ok threaded
    /\ ChatGLMModel.forward m example_input_ids example_position_ids kv
         example_attention_params
       = Ok (ChatGLMModel.Plain
               (Sym.NormOut (ChatGLMModel.final_norm m) embedded))
    /\ Sym.NormOut (ChatGLMModel.final_norm m) embedded
       <> Sym.NormOut (ChatGLMModel.final_norm m) threaded.
Proof.
  cbv zeta. do 3 eexists.
  split; [vm_compute; reflexivity|].
  split; [reflexivity|].
  split; [vm_compute; reflexivity|].
  split; [reflexivity|].
  split; [vm_compute; reflexivity|].
  split; [vm_compute; reflexivity|].
  vm_compute. discriminate.
Qed.

(** ** Position ids in the decoder stack *)

(** What [forward] does past [embed]: the loop over the layers is started
    on the hidden states [embed] returned and given the position ids
    [forward] was called with. *)
Lemma forward_runs_layers_on {ops : TensorOps} (args : Args.t)
    (m : ChatGLMModel.t) (input_ids position_ids hidden_states : Tensor) :
  ChatGLMModel.__init__ args = Ok m ->
  ChatGLMModel.embed m input_ids position_ids = Ok hidden_states ->
  layers_run_on m input_ids position_ids hidden_states.
Proof.
  intros Hi He kv ap pasts pointers max_lengths kv' Hp Hq Hr zipped.
  assert (Hf : ChatGLMModel.forward m input_ids position_ids kv ap
               = (r <- ChatGLMModel.run_layers (ChatGLMModel.use_cache m)
                         position_ids kv' ap zipped hidden_states [] ;;
                  Ok (if ChatGLMModel.use_cache m
                      then ChatGLMModel.WithPresents
                             (Norm_forward (ChatGLMModel.final_norm m)
                                (fst r)) (snd r)
                      else ChatGLMModel.Plain
                             (Norm_forward (ChatGLMModel.final_norm m)
                                (fst r))))).
  { unfold ChatGLMModel.forward. rewrite He. cbn [bind]. cbv zeta.
    fold kv'. rewrite Hp, Hq, Hr. cbn [py_iter bind]. reflexivity. }
  split; [exact Hf|]. intros Hu. rewrite Hf, Hu.
  destruct (model_init_fields args m Hi) as (_ & Hua & HF & _).
  destruct (run_layers_with_cache position_ids kv' ap zipped hidden_states
              []) as (threaded & news & Hrun & Hth & _).
  { apply (zip4_layers
             (fun l => ChatGLMDecoderLayer.use_cache l = true
                       /\ forall hs k,
                            exists o,
                              ChatGLMDecoderLayer.forward l hs position_ids
                                k ap = Ok o)).
    eapply Forall_impl; [|exact HF]. intros l [i Hl]. split.
    - rewrite (layer_init_use_cache i args l Hl), <- Hua. exact Hu.
    - intros hs k. eapply layer_forward_total. exact Hl. }
  exists threaded, news. rewrite Hrun. cbn. now split.
Qed.

(** C5, as amended: the stack splits the position ids into their two
    columns, embeds the first through [position_embeddings] and the second
    through [block_embeddings], sums the two, views the sum as
    [batch, length, 4096] and adds it to the embedded tokens for glm_10b
    alone, and it is on this sum that the decoder layers are run.  For
    every other identifier, chatglm_6b with its two-dimensional position
    ids included, the layers are run on the embedded tokens alone.  In
    both cases the layers are given the position ids as [forward] got
    them. *)
Theorem C5_position_embedding_glm_only {ops : TensorOps} (args : Args.t)
    (m : ChatGLMModel.t) (input_ids position_ids : Tensor) :
  ChatGLMModel.__init__ args = Ok m ->
  (py_in (Args.model_name args) ["glm_10b"] = true ->
   forall column0 column1,
     split position_ids 1 1 = [column0; column1] ->
     exists hidden_states,
       ChatGLMModel.embed m input_ids position_ids = Ok hidden_states
       /\ adds_position_embedding m input_ids position_ids hidden_states
       /\ layers_run_on m input_ids position_ids hidden_states)
  /\ (py_in (Args.model_name args) ["glm_10b"] = false ->
      ChatGLMModel.embed m input_ids position_ids
      = Ok (Embedding_forward (ChatGLMModel.embedding m) input_ids)
      /\ layers_run_on m input_ids position_ids
           (Embedding_forward (ChatGLMModel.embedding m) input_ids)).
Proof.
  intros Hi.
  destruct (model_init_fields args m Hi) as (Hn & _ & _ & _ & _ & Hg).
  split.
  - intros Hglm c0 c1 Hs.
    assert (He : exists hidden_states,
              ChatGLMModel.embed m input_ids position_ids = Ok hidden_states
              /\ adds_position_embedding m input_ids position_ids
                   hidden_states).
    { unfold ChatGLMModel.embed. rewrite Hn, Hglm.
      destruct (Hg Hglm) as [H0 H1]. rewrite H0, H1, Hs. cbn.
      eexists. split; [reflexivity|].
      do 4 eexists. repeat split; try eassumption; reflexivity. }
    destruct He as (h & He & Ha). exists h.
    split; [exact He|]. split; [exact Ha|].
    now apply (forward_runs_layers_on args).
  - intros Hglm.
    assert (He : ChatGLMModel.embed m input_ids position_ids
                 = Ok (Embedding_forward (ChatGLMModel.embedding m)
                         input_ids)).
    { unfold ChatGLMModel.embed. now rewrite Hn, Hglm. }
    split; [exact He|]. now apply (forward_runs_layers_on args).
Qed.

Lemma C5_position_embedding_glm_only_witness :
  exists m,
    ChatGLMModel.__init__ (example_args "glm_10b" true 2 8 10 2) = Ok m
    /\ (exists hidden_states,
          ChatGLMModel.embed m example_input_ids example_position_ids
            = Ok hidden_states
          /\ adds_position_embedding m example_input_ids
               example_position_ids hidden_states
          /\ layers_run_on m example_input_ids example_position_ids
               hidden_states).
Proof.
  eexists. split; [vm_compute; reflexivity|].
  refine (proj1 (C5_position_embedding_glm_only (ops := Sym.ops)
                   (example_args "glm_10b" true 2 8 10 2) _
                   example_input_ids example_position_ids _)
            _ _ _ _).
  - vm_compute. reflexivity.
  - reflexivity.
  - vm_compute. reflexivity.
Defined.

(** C5, as stated, fails: chatglm_6b has two-dimensional position ids, and
    its stack gives the first layer the embedded tokens and nothing
    else. *)
Lemma C5_chatglm_6b_adds_no_position_embedding :
  position_encoding_2d "chatglm_6b" = true
  /\ exists m,
       ChatGLMModel.__init__ (example_args "chatglm_6b" true 2 8 10 2) = Ok m
       /\ ChatGLMModel.embed m example_input_ids example_position_ids
          = Ok (Sym.EmbeddingOut (ChatGLMModel.embedding m)
                  example_input_ids)
       /\ ~ adds_position_embedding m example_input_ids
              example_position_ids
              (Sym.EmbeddingOut (ChatGLMModel.embedding m)
                 example_input_ids).
Proof.
  split; [reflexivity|].
  eexists. split; [vm_compute; reflexivity|].
  split; [reflexivity|].
  intros (t0 & t1 & c0 & c1 & _ & _ & _ & _ & _ & H). discriminate H.
Qed.

(** ** Shapes on the glm_10b position path *)

Lemma broadcast_same (d : list Z) : Sym.broadcast d d = Some d.
Proof.
  induction d as [|x d IH]; [reflexivity|].
  cbn. now rewrite IH, Z.eqb_refl.
Qed.

Lemma dims_of_Add (a b : Sym.tensor) :
  Sym.dims_of (Sym.Add a b)
  = match Sym.dims_of a, Sym.dims_of b with
    | Some da, Some db => Sym.broadcast da db
    | _, _ => None
    end.
Proof. reflexivity. Qed.

Lemma dims_of_EmbeddingOut (e : Embedding) (x : Sym.tensor) :
  Sym.dims_of (Sym.EmbeddingOut e x)
  = match Sym.dims_of x with
    | Some d => Some (d ++ [embedding_dim e])%list
    | None => None
    end.
Proof. reflexivity. Qed.

(** C9: for glm_10b, the sum of the two embedded columns, of shape
    [batch, 1, length, hidden_size], is viewed as [batch, length, 4096]
    whatever [hidden_size] is; on a batch that is not empty, the hidden
    states given to the first layer are well shaped if and only if
    [hidden_size] is 4096. *)
Theorem C9_glm_view_fixes_4096 (args : Args.t) (m : ChatGLMModel.t)
    (input_ids position_ids : Sym.tensor) (b s : Z) :
  Args.model_name args = "glm_10b" ->
  ChatGLMModel.__init__ args = Ok m ->
  0 < b -> 0 < s ->
  Sym.dims_of input_ids = Some [b; s] ->
  Sym.dims_of position_ids = Some [b; 2; s] ->
  exists summed hidden_states,
    ChatGLMModel.embed m input_ids position_ids = Ok hidden_states
    /\ hidden_states
       = Sym.Add (Sym.EmbeddingOut (ChatGLMModel.embedding m) input_ids)
           (Sym.View summed
              (Sym.Concat [inl (Sym.Shape input_ids 0);
                           inl (Sym.Shape input_ids 1); inr 4096]))
    /\ Sym.dims_of summed = Some [b; 1; s; Args.hidden_size args]
    /\ Sym.dims_of (Sym.EmbeddingOut (ChatGLMModel.embedding m) input_ids)
       = Some [b; s; Args.hidden_size args]
    /\ (Sym.dims_of hidden_states <> None <-> Args.hidden_size args = 4096)
    /\ (Args.hidden_size args = 4096 ->
        Sym.dims_of hidden_states = Some [b; s; 4096]).
Proof.
  intros Hname Hi Hb Hs Hin Hpos.
  destruct (model_init_fields args m Hi) as (Hn & _ & _ & _ & He & Hg).
  destruct Hg as [H0 H1]; [now rewrite Hname|].
  assert (Hsplit : Sym.split_items position_ids 1 1
                   = [Sym.SplitItem position_ids 1 1 0;
                      Sym.SplitItem position_ids 1 1 1]).
  { unfold Sym.split_items. now rewrite Hpos. }
  assert (Hcol : forall k, (k < 2)%nat ->
            Sym.dims_of (Sym.SplitItem position_ids 1 1 k) = Some [b; 1; s]).
  { intros k Hk. cbn [Sym.dims_of]. rewrite Hpos. cbn [nth_error Z.to_nat
      Pos.to_nat Pos.iter_op Nat.add].
    destruct k as [|[|k]]; [reflexivity | reflexivity | lia]. }
  set (h := Args.hidden_size args) in *.
  set (summed :=
         Sym.Add
           (Sym.EmbeddingOut
              (ChatGLMModel.table "position_embeddings"
                 (Args.max_seq_length args + 1) args)
              (Sym.SplitItem position_ids 1 1 0))
           (Sym.EmbeddingOut
              (ChatGLMModel.table "block_embeddings"
                 (Args.max_seq_length args + 1) args)
              (Sym.SplitItem position_ids 1 1 1))).
  assert (Hsum : Sym.dims_of summed = Some [b; 1; s; h]).
  { unfold summed. rewrite dims_of_Add, !dims_of_EmbeddingOut.
    rewrite !Hcol by lia.
    cbn [ChatGLMModel.table embedding_dim app]. fold h.
    apply broadcast_same. }
  assert (Htok : Sym.dims_of
                   (Sym.EmbeddingOut (ChatGLMModel.embedding m) input_ids)
                 = Some [b; s; h]).
  { rewrite dims_of_EmbeddingOut, Hin, He. reflexivity. }
  assert (Hview :
    Sym.dims_of
      (Sym.View summed
         (Sym.Concat [inl (Sym.Shape input_ids 0);
                      inl (Sym.Shape input_ids 1); inr 4096]))
    = if Sym.product [b; 1; s; h] =? Sym.product [b; s; 4096]
      then Some [b; s; 4096] else None).
  { cbn [Sym.dims_of]. rewrite Hsum, Hin. reflexivity. }
  exists summed, (Sym.Add
                    (Sym.EmbeddingOut (ChatGLMModel.embedding m) input_ids)
                    (Sym.View summed
                       (Sym.Concat [inl (Sym.Shape input_ids 0);
                                    inl (Sym.Shape input_ids 1); inr 4096]))).
  split.
  { unfold ChatGLMModel.embed. rewrite Hn, Hname. cbn [py_in existsb
      String.eqb Ascii.eqb Bool.eqb orb].
    rewrite H0, H1. cbn [getattr bind split Sym.ops]. rewrite Hsplit.
    reflexivity. }
  split; [reflexivity|]. split; [exact Hsum|]. split; [exact Htok|].
  assert (Hdims :
    Sym.dims_of
      (Sym.Add (Sym.EmbeddingOut (ChatGLMModel.embedding m) input_ids)
         (Sym.View summed
            (Sym.Concat [inl (Sym.Shape input_ids 0);
                         inl (Sym.Shape input_ids 1); inr 4096])))
    = if h =? 4096 then Some [b; s; 4096] else None).
  { rewrite dims_of_Add, Htok, Hview. unfold Sym.product. cbn [fold_right].
    destruct (Z.eqb_spec h 4096) as [->|Hne].
    - rewrite (proj2 (Z.eqb_eq _ _)) by lia. apply broadcast_same.
    - rewrite (proj2 (Z.eqb_neq _ _)); [reflexivity|]. nia. }
  rewrite Hdims. split.
  - destruct (Z.eqb_spec h 4096); split; congruence.
  - intros ->. reflexivity.
Qed.

Lemma C9_glm_view_fixes_4096_witness :
  exists m summed hidden_states,
    let args := example_args "glm_10b" true 1 4096 10 2 in
    ChatGLMModel.__init__ args = Ok m
    /\ ChatGLMModel.embed m example_input_ids example_position_ids
       = Ok hidden_states
    /\ hidden_states
       = Sym.Add
           (Sym.EmbeddingOut (ChatGLMModel.embedding m) example_input_ids)
           (Sym.View summed
              (Sym.Concat [inl (Sym.Shape example_input_ids 0);
                           inl (Sym.Shape example_input_ids 1); inr 4096]))
    /\ Sym.dims_of summed = Some [2; 1; 3; 4096]
    /\ Sym.dims_of
         (Sym.EmbeddingOut (ChatGLMModel.embedding m) example_input_ids)
       = Some [2; 3; 4096]
    /\ (Sym.dims_of hidden_states <> None <-> 4096 = 4096)
    /\ (4096 = 4096 -> Sym.dims_of hidden_states = Some [2; 3; 4096]).
Proof.
  eexists.
  assert (Hi : ChatGLMModel.__init__ (example_args "glm_10b" true 1 4096 10 2)
               = Ok _) by (vm_compute; reflexivity).
  destruct (C9_glm_view_fixes_4096
              (example_args "glm_10b" true 1 4096 10 2) _
              example_input_ids example_position_ids 2 3
              eq_refl Hi eq_refl eq_refl eq_refl eq_refl)
    as (summed & hs & H).
  exists summed, hs. cbv zeta. split; [exact Hi | exact H].
Defined.

(** ** The head *)

Lemma head_init_fields {ops : TensorOps} (args : Args.t)
    (self : ChatGLMHeadModel.t) :
  ChatGLMHeadModel.init args = Ok self ->
  ChatGLMModel.__init__ args = Ok (ChatGLMHeadModel.base self)
  /\ ChatGLMHeadModel.lm_head self
     = {| lin_site := InModel "lm_head";
          in_features := Args.hidden_size args;
          out_features :=
            pad_vocab_size (Args.vocab_size args)
              (tp_size (Args.mapping args));
          bias := false;
          lin_dtype := ChatGLMHeadModel.dtype self;
          lin_tp_group := tp_group (Args.mapping args);
          lin_tp_size := tp_size (Args.mapping args);
          gather_output := true |}.
Proof.
  unfold ChatGLMHeadModel.init.
  destruct (ChatGLMModel.__init__ args) as [m|e]; cbn [bind]; [|discriminate].
  destruct (ChatGLMHeadModel.to_trt (Args.dtype args)); cbn [bind];
    [|discriminate].
  destruct (ChatGLMHeadModel.to_trt (Args.logits_dtype args)); cbn [bind];
    [|discriminate].
  intros [= <-]. split; reflexivity.
Qed.

(** The stack returns its presents exactly when it uses the cache. *)
Lemma model_forward_kind {ops : TensorOps} (m : ChatGLMModel.t)
    (input_ids position_ids : Tensor) (kv : KeyValueCacheParams Tensor)
    (ap : AttentionParams Tensor) (r : ChatGLMModel.output) :
  ChatGLMModel.forward m input_ids position_ids kv ap = Ok r ->
  match r with
  | ChatGLMModel.WithPresents _ _ => ChatGLMModel.use_cache m = true
  | ChatGLMModel.Plain _ => ChatGLMModel.use_cache m = false
  end.
Proof.
  unfold ChatGLMModel.forward.
  destruct (ChatGLMModel.embed _ _ _); cbn [bind]; [|discriminate].
  destruct (py_iter _ _); cbn [bind]; [|discriminate].
  destruct (py_iter _ _); cbn [bind]; [|discriminate].
  destruct (py_iter _ _); cbn [bind]; [|discriminate].
  destruct (ChatGLMModel.run_layers _ _ _ _ _ _ _); cbn [bind];
    [|discriminate].
  destruct (ChatGLMModel.use_cache m); intros [= <-]; reflexivity.
Qed.

(** The head's forward pass, given what the stack returned. *)
Lemma head_forward_of_stack {ops : TensorOps} (net : PluginConfig)
    (self : ChatGLMHeadModel.t)
    (input_ids position_ids last_token_ids : Tensor)
    (kv : KeyValueCacheParams Tensor) (ap : AttentionParams Tensor)
    (r : ChatGLMModel.output) :
  ChatGLMModel.forward (ChatGLMHeadModel.base self) input_ids position_ids
    kv ap = Ok r ->
  let lm_logits :=
    ColumnLinear_forward (ChatGLMHeadModel.lm_head self)
      (gather_last_token_logits (stack_hidden_states r) last_token_ids
         (remove_input_padding net)) in
  let logits_mark :=
    {| ChatGLMHeadModel.out_name := "logits";
       ChatGLMHeadModel.out_tensor := lm_logits;
       ChatGLMHeadModel.out_dtype := ChatGLMHeadModel.logits_dtype self |} in
  ChatGLMHeadModel.forward net self input_ids position_ids last_token_ids
    kv ap
  = Ok (if ChatGLMModel.use_cache (ChatGLMHeadModel.base self)
           && negb (paged_kv_cache net)
        then (ChatGLMHeadModel.WithPresents lm_logits (stack_presents r),
              logits_mark
              :: ChatGLMHeadModel.mark_presents
                   (ChatGLMHeadModel.kv_dtype self) 0 (stack_presents r))
        else (ChatGLMHeadModel.Logits lm_logits, [logits_mark])).
Proof.
  intros Hr. pose proof (model_forward_kind _ _ _ _ _ _ Hr) as Hk.
  unfold ChatGLMHeadModel.forward. rewrite Hr. cbn [bind].
  destruct r as [hs ps|hs]; rewrite Hk; cbn [andb];
    destruct (paged_kv_cache net); reflexivity.
Qed.

Lemma mark_presents_tensors {ops : TensorOps} (kv_dtype : DataType)
    (i : nat) (presents : list Tensor) :
  map ChatGLMHeadModel.out_tensor
    (ChatGLMHeadModel.mark_presents kv_dtype i presents) = presents.
Proof.
  revert i. induction presents as [|p ps IH]; intros i; [reflexivity|].
  cbn. now rewrite IH.
Qed.

(** C10: on a model that [init] built and inputs the stack accepts, the
    head's [forward] returns.  With the cache in use and the paged layout
    off it returns the logits with the stack's presents, one per layer run,
    and marks the logits and then every present as an output of the
    network; in every other case it returns the logits alone and marks
    nothing but them. *)
Theorem C10_presents_iff_cache_and_not_paged {ops : TensorOps}
    (net : PluginConfig) (args : Args.t) (self : ChatGLMHeadModel.t)
    (input_ids position_ids last_token_ids : Tensor)
    (kv : KeyValueCacheParams Tensor) (ap : AttentionParams Tensor)
    (pasts pointers max_lengths : list (option Tensor)) :
  ChatGLMHeadModel.init args = Ok self ->
  (py_in (Args.model_name args) ["glm_10b"] = true ->
   (2 <= List.length (split position_ids 1 1))%nat) ->
  let layers := ChatGLMModel.layers (ChatGLMHeadModel.base self) in
  let kv' := fill_none_tensor_list kv (Z.of_nat (List.length layers)) in
  past_key_value kv' = PList pasts ->
  kv_cache_block_pointers kv' = PList pointers ->
  host_max_kv_cache_lengths kv' = PList max_lengths ->
  exists r,
    ChatGLMModel.forward (ChatGLMHeadModel.base self) input_ids position_ids
      kv ap = Ok r
    /\ let lm_logits :=
         ColumnLinear_forward (ChatGLMHeadModel.lm_head self)
           (gather_last_token_logits (stack_hidden_states r) last_token_ids
              (remove_input_padding net)) in
       let logits_mark :=
         {| ChatGLMHeadModel.out_name := "logits";
            ChatGLMHeadModel.out_tensor := lm_logits;
            ChatGLMHeadModel.out_dtype :=
              ChatGLMHeadModel.logits_dtype self |} in
       let present_marks :=
         ChatGLMHeadModel.mark_presents (ChatGLMHeadModel.kv_dtype self) 0
           (stack_presents r) in
       if ChatGLMModel.use_cache (ChatGLMHeadModel.base self)
          && negb (paged_kv_cache net)
       then
         ChatGLMHeadModel.forward net self input_ids position_ids
           last_token_ids kv ap
         = Ok (ChatGLMHeadModel.WithPresents lm_logits (stack_presents r),
               logits_mark :: present_marks)
         /\ map ChatGLMHeadModel.out_tensor present_marks = stack_presents r
         /\ List.length (stack_presents r)
            = List.length (zip4 layers pasts pointers max_lengths)
       else
         ChatGLMHeadModel.forward net self input_ids position_ids
           last_token_ids kv ap
         = Ok (ChatGLMHeadModel.Logits lm_logits, [logits_mark]).
Proof.
  intros Hi Hs layers kv' Hp Hq Hr.
  destruct (head_init_fields args self Hi) as [Hb _].
  destruct (model_init_fields args _ Hb) as (_ & Hu & _).
  destruct (model_forward_total args _ input_ids position_ids kv ap pasts
              pointers max_lengths Hb Hs Hp Hq Hr) as (e & _ & Hf).
  assert (Hex : exists r,
    ChatGLMModel.forward (ChatGLMHeadModel.base self) input_ids position_ids
      kv ap = Ok r
    /\ (ChatGLMModel.use_cache (ChatGLMHeadModel.base self) = true ->
        List.length (stack_presents r)
        = List.length (zip4 layers pasts pointers max_lengths))).
  { rewrite Hu. destruct (Args.use_cache args).
    - destruct Hf as (t & ps & _ & Hlen & Hf).
      eexists. split; [exact Hf|]. intros _. exact Hlen.
    - eexists. split; [exact Hf|]. discriminate. }
  destruct Hex as (r & Hfr & Hlen). exists r. split; [exact Hfr|].
  cbv zeta.
  rewrite (head_forward_of_stack net self input_ids position_ids
             last_token_ids kv ap r Hfr).
  destruct (ChatGLMModel.use_cache (ChatGLMHeadModel.base self)); cbn [andb];
    [|reflexivity].
  destruct (paged_kv_cache net); cbn [negb]; [reflexivity|].
  split; [reflexivity|]. split; [apply mark_presents_tensors | now apply Hlen].
Qed.

(** ** The padded vocabulary size *)

Lemma pad_vocab_size_multiple (vocab_size tp_size : Z) :
  0 < tp_size ->
  pad_vocab_size vocab_size tp_size mod tp_size = 0
  /\ vocab_size <= pad_vocab_size vocab_size tp_size < vocab_size + tp_size.
Proof.
  intros Htp. unfold pad_vocab_size.
  pose proof (Z.mul_div_le (vocab_size + tp_size - 1) tp_size Htp).
  pose proof (Z.mul_succ_div_gt (vocab_size + tp_size - 1) tp_size Htp).
  split; [apply Z.mod_mul; lia | lia].
Qed.

Lemma C10_presents_iff_cache_and_not_paged_witness :
  exists self lm_logits p0 p1,
    ChatGLMHeadModel.init (example_args "chatglm2_6b" true 2 8 10 4)
      = Ok self
    /\ ChatGLMHeadModel.forward example_net self example_input_ids
         example_position_ids example_last_token_ids (example_kv 2)
         example_attention_params
       = Ok (ChatGLMHeadModel.WithPresents lm_logits [p0; p1],
             [ {| ChatGLMHeadModel.out_name := "logits";
                  ChatGLMHeadModel.out_tensor := lm_logits;
                  ChatGLMHeadModel.out_dtype := "float32" |};
               {| ChatGLMHeadModel.out_name := "present_key_value_0";
                  ChatGLMHeadModel.out_tensor := p0;
                  ChatGLMHeadModel.out_dtype := "float16" |};
               {| ChatGLMHeadModel.out_name := "present_key_value_1";
                  ChatGLMHeadModel.out_tensor := p1;
                  ChatGLMHeadModel.out_dtype := "float16" |} ]).
Proof.
  eexists.
  assert (Hi : ChatGLMHeadModel.init
                 (example_args "chatglm2_6b" true 2 8 10 4) = Ok _)
    by (vm_compute; reflexivity).
  destruct (C10_presents_iff_cache_and_not_paged (ops := Sym.ops)
              example_net
              (example_args "chatglm2_6b" true 2 8 10 4) _
              example_input_ids example_position_ids example_last_token_ids
              (example_kv 2) example_attention_params
              (repeat None 2) (repeat None 2) (repeat None 2)
              Hi (fun H => False_ind _ (Bool.diff_false_true H))
              eq_refl eq_refl eq_refl)
    as (r & _ & H).
  cbv zeta in H. cbn [ChatGLMModel.use_cache ChatGLMHeadModel.base
    example_net paged_kv_cache andb negb] in H.
  destruct H as (Hf & _ & Hlen).
  destruct (stack_presents r) as [|p0 [|p1 [|p2 ps]]]; try discriminate Hlen.
  eexists. exists p0, p1. split; [exact Hi | exact Hf].
Defined.

(** The shape of the stack's output, which the head is given: a decoder
    layer keeps the shape of the hidden states, so the stack returns the
    shape of what it embedded, [batch, length, hidden_size] for the
    identifiers that add no position embedding. *)
Lemma layer_keeps_dims (l : ChatGLMDecoderLayer.t)
    (hidden_states position_ids : Sym.tensor)
    (kv : KeyValueCacheParams Sym.tensor) (ap : AttentionParams Sym.tensor)
    (o : ChatGLMDecoderLayer.output) (d : list Z) :
  Sym.dims_of hidden_states = Some d ->
  ChatGLMDecoderLayer.forward l hidden_states position_ids kv ap = Ok o ->
  Sym.dims_of (layer_hidden_states o) = Some d.
Proof.
  intros Hd. unfold ChatGLMDecoderLayer.forward,
    ChatGLMDecoderLayer.forward_trace.
  destruct (py_in (ChatGLMDecoderLayer.model_name l) ["chatglm_6b"]).
  - destruct (ChatGLMDecoderLayer.alpha l); cbn [getattr bind]; [|discriminate].
    cbn [fst snd ChatGLMDecoderLayer.tr_output].
    destruct (ChatGLMDecoderLayer.use_cache l); intros [= <-];
      cbn; rewrite Hd, !broadcast_same; reflexivity.
  - destruct (py_in _ _); [|discriminate].
    destruct (ChatGLMDecoderLayer.apply_residual_connection_post_layernorm l)
      as [[|]|]; cbn [getattr bind]; [| |discriminate];
      cbn [fst snd ChatGLMDecoderLayer.tr_output];
      destruct (ChatGLMDecoderLayer.use_cache l); intros [= <-];
      cbn; rewrite Hd, !broadcast_same; reflexivity.
Qed.

Lemma thread_layers_keeps_dims (position_ids : Sym.tensor)
    (kv : KeyValueCacheParams Sym.tensor) (ap : AttentionParams Sym.tensor)
    (zipped :
       list (ChatGLMDecoderLayer.t * option Sym.tensor * option Sym.tensor
             * option Sym.tensor))
    (hidden_states threaded : Sym.tensor) (d : list Z) :
  Sym.dims_of hidden_states = Some d ->
  thread_layers position_ids kv ap zipped hidden_states = Ok threaded ->
  Sym.dims_of threaded = Some d.
Proof.
  revert hidden_states.
  induction zipped as [|[[[l past] pointer] mx] rest IH];
    intros hidden_states Hd; cbn [thread_layers].
  - now intros [= <-].
  - destruct (ChatGLMDecoderLayer.forward (ops := Sym.ops) l hidden_states
                position_ids _ ap) as [o|e] eqn:Ho; cbn [bind];
      [|discriminate].
    apply IH. eapply layer_keeps_dims; eassumption.
Qed.

Lemma stack_output_dims (args : Args.t) (m : ChatGLMModel.t)
    (input_ids position_ids : Sym.tensor)
    (kv : KeyValueCacheParams Sym.tensor) (ap : AttentionParams Sym.tensor)
    (pasts pointers max_lengths : list (option Sym.tensor)) (b s : Z) :
  ChatGLMModel.__init__ args = Ok m ->
  py_in (Args.model_name args) ["glm_10b"] = false ->
  let kv' :=
    fill_none_tensor_list kv (Z.of_nat (List.length (ChatGLMModel.layers m)))
  in
  past_key_value kv' = PList pasts ->
  kv_cache_block_pointers kv' = PList pointers ->
  host_max_kv_cache_lengths kv' = PList max_lengths ->
  Sym.dims_of input_ids = Some [b; s] ->
  exists r,
    ChatGLMModel.forward m input_ids position_ids kv ap = Ok r
    /\ Sym.dims_of (stack_hidden_states r)
       = Some [b; s; Args.hidden_size args].
Proof.
  intros Hi Hglm kv' Hp Hq Hr Hd.
  destruct (model_forward_total (ops := Sym.ops) args m input_ids
              position_ids kv ap pasts pointers max_lengths Hi)
    as (e & He & Hf); try assumption.
  { rewrite Hglm. discriminate. }
  destruct (model_init_fields args m Hi) as (Hn & _ & _ & _ & Hemb & _).
  assert (Hde : Sym.dims_of e = Some [b; s; Args.hidden_size args]).
  { unfold ChatGLMModel.embed in He. rewrite Hn, Hglm in He.
    injection He as <-. cbn [Embedding_forward Sym.ops].
    rewrite dims_of_EmbeddingOut, Hd, Hemb. reflexivity. }
  destruct (Args.use_cache args).
  - destruct Hf as (t & ps & Ht & _ & Hf). eexists. split; [exact Hf|].
    cbn [stack_hidden_states Norm_forward Sym.ops Sym.dims_of].
    eapply thread_layers_keeps_dims; eassumption.
  - eexists. split; [exact Hf|]. exact Hde.
Qed.

(** C7: the head gathers the stack's hidden states at [last_token_ids] and
    gives them to [lm_head], a [ColumnLinear] without bias whose
    [out_features] is the vocabulary size padded to the next multiple of
    the tensor-parallel degree; with hidden states of shape
    [_, _, hidden_size] and [batch] last-token ids, the logits have the
    shape [batch, out_features]: one row per sequence. *)
Theorem C7_logits_one_row_per_sequence (net : PluginConfig) (args : Args.t)
    (self : ChatGLMHeadModel.t)
    (input_ids position_ids last_token_ids : Sym.tensor)
    (kv : KeyValueCacheParams Sym.tensor) (ap : AttentionParams Sym.tensor)
    (r : ChatGLMModel.output) (d0 d1 batch : Z) :
  ChatGLMHeadModel.init args = Ok self ->
  0 < tp_size (Args.mapping args) ->
  ChatGLMModel.forward (ChatGLMHeadModel.base self) input_ids position_ids
    kv ap = Ok r ->
  Sym.dims_of (stack_hidden_states r)
    = Some [d0; d1; Args.hidden_size args] ->
  Sym.dims_of last_token_ids = Some [batch] ->
  exists out marks,
    let lm_head := ChatGLMHeadModel.lm_head self in
    let tp := tp_size (Args.mapping args) in
    ChatGLMHeadModel.forward net self input_ids position_ids last_token_ids
      kv ap = Ok (out, marks)
    /\ logits_of out
       = Sym.ColumnLinearOut lm_head
           (Sym.GatherLastTokenLogits (stack_hidden_states r) last_token_ids
              (remove_input_padding net))
    /\ bias lm_head = false
    /\ out_features lm_head = pad_vocab_size (Args.vocab_size args) tp
    /\ out_features lm_head mod tp = 0
    /\ Args.vocab_size args <= out_features lm_head < Args.vocab_size args + tp
    /\ Sym.dims_of (logits_of out) = Some [batch; out_features lm_head].
Proof.
  intros Hi Htp Hr Hd Hl.
  destruct (head_init_fields args self Hi) as [_ Hlm].
  pose proof (head_forward_of_stack net self input_ids position_ids
                last_token_ids kv ap r Hr) as Hf.
  cbv zeta in Hf.
  destruct (pad_vocab_size_multiple (Args.vocab_size args) _ Htp)
    as [Hmod Hrange].
  assert (Hdims :
    Sym.dims_of
      (Sym.ColumnLinearOut (ChatGLMHeadModel.lm_head self)
         (Sym.GatherLastTokenLogits (stack_hidden_states r) last_token_ids
            (remove_input_padding net)))
    = Some [batch; out_features (ChatGLMHeadModel.lm_head self)]).
  { cbn [Sym.dims_of]. rewrite Hd, Hl, Hlm.
    cbn [rev app in_features out_features gather_output].
    now rewrite Z.eqb_refl. }
  destruct (ChatGLMModel.use_cache (ChatGLMHeadModel.base self)
            && negb (paged_kv_cache net));
    do 2 eexists; cbv zeta; (split; [exact Hf|]); cbn [logits_of];
    (split; [reflexivity|]); rewrite Hlm in *;
    cbn [bias out_features] in *; repeat split; try assumption; lia.
Qed.

Lemma C7_logits_one_row_per_sequence_witness :
  exists self out marks,
    ChatGLMHeadModel.init (example_args "chatglm2_6b" true 2 8 10 4)
      = Ok self
    /\ ChatGLMHeadModel.forward example_net self example_input_ids
         example_position_ids example_last_token_ids (example_kv 2)
         example_attention_params = Ok (out, marks)
    /\ bias (ChatGLMHeadModel.lm_head self) = false
    /\ out_features (ChatGLMHeadModel.lm_head self) = 12
    /\ Sym.dims_of (logits_of out) = Some [2; 12].
Proof.
  eexists.
  assert (Hi : ChatGLMHeadModel.init
                 (example_args "chatglm2_6b" true 2 8 10 4) = Ok _)
    by (vm_compute; reflexivity).
  match type of Hi with
  | _ = Ok ?self =>
      assert (Hr : ChatGLMModel.forward (ChatGLMHeadModel.base self)
                     example_input_ids example_position_ids (example_kv 2)
                     example_attention_params = Ok _)
        by (vm_compute; reflexivity)
  end.
  destruct (C7_logits_one_row_per_sequence example_net
              (example_args "chatglm2_6b" true 2 8 10 4) _
              example_input_ids example_position_ids example_last_token_ids
              (example_kv 2) example_attention_params _ 2 3 2
              Hi eq_refl Hr eq_refl eq_refl)
    as (out & marks & Hf & _ & Hb & Ho & _ & _ & Hd).
  exists out, marks.
  split; [exact Hi|]. split; [exact Hf|]. split; [exact Hb|].
  split; [reflexivity | exact Hd].
Defined.

(** ** The world-size check of the run script *)

(** C8: when the tensor-parallel degree of [config.json] is not the MPI
    world size, the script ends in the [AssertionError] of its check, which
    reports a configuration error, having set the log level and read the
    descriptor and nothing more: no engine is read, no session created, no
    token generated.  When the two are equal the check passes: the engine
    is read, the session is created for that degree, and generation is
    run. *)
Theorem C8_world_size_checked_before_loading (args : Run.arguments)
    (w : Run.world) :
  let engine := Run.tensor_parallel (Run.builder (Run.config_json w)) in
  let runtime := Z.pos (Run.mpi_world_size w) in
  (engine <> runtime ->
   Run.main args w
   = ([Run.SetLogLevel (Run.log_level args);
       Run.ReadConfig (Run.engine_dir args) "config.json"],
      Err (AssertionError (Run.world_size_message engine runtime)))
   /\ reports (AssertionError (Run.world_size_message engine runtime))
        ConfigurationError = true
   /\ existsb Run.loads_or_generates (fst (Run.main args w)) = false)
  /\ (engine = runtime ->
      (forall msg, snd (Run.main args w) <> Err (AssertionError msg))
      /\ (exists name,
            In (Run.ReadEngine (Run.engine_dir args) name)
              (fst (Run.main args w)))
      /\ (exists model_config,
            In (Run.CreateSession model_config (Run.engine_file w) engine
                  (Run.mpi_rank w) engine)
              (fst (Run.main args w)))
      /\ In (Run.Decode (Run.tokenizer_encode w (Run.input_text args))
               [Z.of_nat
                  (List.length
                     (Run.tokenizer_encode w (Run.input_text args)))]
               Run.EOS_TOKEN Run.PAD_TOKEN)
           (fst (Run.main args w))).
Proof.
  cbv zeta. unfold Run.main, py_assert. split.
  - intros Hne. rewrite (proj2 (Z.eqb_neq _ _) Hne). repeat split.
  - intros Heq. rewrite (proj2 (Z.eqb_eq _ _) Heq).
    destruct (py_index (Run.session_decode w) 0) as [beams|e] eqn:Hb;
      [destruct (py_index beams 0) as [tokens|e] eqn:Ht|];
      cbn [fst snd].
    all: split;
      [ intros msg H;
        try discriminate H;
        injection H as ->;
        match goal with
        | Hx : py_index ?l 0 = Err (AssertionError _) |- _ =>
            unfold py_index in Hx; destruct (nth_error l 0); discriminate Hx
        end
      | ].
    all: split; [eexists|split; [eexists|]];
      rewrite ?in_app_iff; cbn [In]; tauto.
Qed.

Lemma C8_world_size_checked_before_loading_witness :
  Run.main example_arguments example_world
  = ([Run.SetLogLevel "error"; Run.ReadConfig "bloom_outputs" "config.json"],
     Err (AssertionError
            "Engine world size (2) != Runtime world size (1)")).
Proof.
  refine (proj1 (proj1 (C8_world_size_checked_before_loading
                          example_arguments example_world) _)).
  discriminate.
Defined.

(** * Further properties of the constructors *)

Lemma layer_init_ids (layer_id : Z) (args : Args.t)
    (l : ChatGLMDecoderLayer.t) :
  ChatGLMDecoderLayer.__init__ layer_id args = Ok l ->
  layer_instance_ids l = [layer_id * 2; layer_id * 2 + 1].
Proof.
  unfold ChatGLMDecoderLayer.__init__.
  destruct (ChatGLMDecoderLayer.select_variant args) as [v|]; cbn [bind];
    [|discriminate].
  destruct (ChatGLMDecoderLayer.v_norm _); cbn; [|discriminate].
  destruct (ChatGLMDecoderLayer.v_attention_mask_type _); cbn; [|discriminate].
  destruct (ChatGLMDecoderLayer.v_position_embedding_type _); cbn;
    [|discriminate].
  now intros [= <-].
Qed.

Lemma layers_instance_ids (args : Args.t) (len start : nat)
    (ls : list ChatGLMDecoderLayer.t) :
  map_result (fun i => ChatGLMDecoderLayer.__init__ i args)
    (map Z.of_nat (seq start len)) = Ok ls ->
  flat_map layer_instance_ids ls
  = map Z.of_nat (seq (2 * start) (2 * len)).
Proof.
  revert start ls. induction len as [|len IH]; intros start ls; cbn [seq map
    map_result].
  - intros [= <-]. now rewrite Nat.mul_0_r.
  - destruct (ChatGLMDecoderLayer.__init__ (Z.of_nat start) args)
      as [l|e] eqn:Hl; cbn [bind]; [|discriminate].
    destruct (map_result _ _) as [ls'|e] eqn:Hls; cbn [bind]; [|discriminate].
    intros [= <-]. cbn [flat_map].
    rewrite (layer_init_ids _ _ _ Hl), (IH _ _ Hls).
    replace (2 * S len)%nat with (S (S (2 * len))) by lia.
    replace (2 * S start)%nat with (S (S (2 * start))) by lia.
    cbn [seq map app]. repeat f_equal; lia.
Qed.

(** X1: in a constructed model the instance ids of the attentions and
    feed-forward networks, read layer by layer, are 0, 1, ..., 2n-1 for n
    layers, so no two modules of the layers share one; the token embedding
    takes [num_layers * 2], which none of them has, and for glm_10b the two
    position tables take that same id again. *)
Theorem X1_instance_ids_enumerate (args : Args.t) (m : ChatGLMModel.t) :
  ChatGLMModel.__init__ args = Ok m ->
  let ids := flat_map layer_instance_ids (ChatGLMModel.layers m) in
  ids = map Z.of_nat (seq 0 (2 * List.length (ChatGLMModel.layers m)))
  /\ NoDup ids
  /\ emb_instance_id (ChatGLMModel.embedding m) = Args.num_layers args * 2
  /\ ~ In (emb_instance_id (ChatGLMModel.embedding m)) ids
  /\ (forall table,
        ChatGLMModel.position_embeddings m = Some table
        \/ ChatGLMModel.block_embeddings m = Some table ->
        emb_instance_id table
        = emb_instance_id (ChatGLMModel.embedding m)).
Proof.
  intros Hi. cbv zeta.
  destruct (model_init_fields args m Hi) as (_ & _ & _ & Hlen & Hemb & _).
  assert (Hids : flat_map layer_instance_ids (ChatGLMModel.layers m)
                 = map Z.of_nat
                     (seq 0 (2 * List.length (ChatGLMModel.layers m)))).
  { revert Hi. unfold ChatGLMModel.__init__.
    destruct (map_result _ _) as [ls|e] eqn:Hl; cbn [bind]; [|discriminate].
    destruct (ChatGLMModel.select_norm args); cbn; [|discriminate].
    intros [= <-]. cbn [ChatGLMModel.layers].
    unfold range in Hl. rewrite (layers_instance_ids _ _ _ _ Hl).
    destruct (map_result_Forall _ _ _ Hl) as [_ HL].
    rewrite HL, length_map, length_seq. reflexivity. }
  assert (Htab : forall table,
            ChatGLMModel.position_embeddings m = Some table
            \/ ChatGLMModel.block_embeddings m = Some table ->
            emb_instance_id table = Args.num_layers args * 2).
  { revert Hi. unfold ChatGLMModel.__init__.
    destruct (map_result _ _); cbn [bind]; [|discriminate].
    destruct (ChatGLMModel.select_norm args); cbn [bind getattr];
      [|discriminate].
    intros [= <-] table.
    cbn [ChatGLMModel.position_embeddings ChatGLMModel.block_embeddings].
    destruct (String.eqb (Args.model_name args) "glm_10b"); cbn [orb];
      intros [H|H]; try discriminate H; now injection H as <-. }
  rewrite Hids, Hemb. cbn [ChatGLMModel.table emb_instance_id].
  split; [reflexivity|]. split.
  - apply Finite.Injective_map_NoDup; [|apply seq_NoDup].
    intros x y. apply Nat2Z.inj.
  - split; [reflexivity|]. split; [|exact Htab].
    rewrite in_map_iff. intros (k & Hk & Hin). apply in_seq in Hin.
    rewrite Hlen in Hin. lia.
Qed.

Lemma X1_instance_ids_enumerate_witness :
  exists m,
    ChatGLMModel.__init__ (example_args "glm_10b" true 3 8 10 2) = Ok m
    /\ flat_map layer_instance_ids (ChatGLMModel.layers m)
       = [0; 1; 2; 3; 4; 5]
    /\ emb_instance_id (ChatGLMModel.embedding m) = 6.
Proof.
  eexists.
  assert (Hi : ChatGLMModel.__init__ (example_args "glm_10b" true 3 8 10 2)
               = Ok _) by (vm_compute; reflexivity).
  destruct (X1_instance_ids_enumerate _ _ Hi) as (Hids & _ & He & _).
  split; [exact Hi|]. split; [exact Hids | exact He].
Defined.

(** Case analysis on the model identifier: each test against a literal is
    decided, and the identifier replaced by the literal where it holds. *)
Ltac by_name args :=
  repeat match goal with
    | |- context [String.eqb (Args.model_name args) ?s] =>
        let E := fresh "E" in
        destruct (String.eqb_spec (Args.model_name args) s) as [E|E];
        [rewrite E in *; cbn | cbn]
    | H : context [String.eqb (Args.model_name args) ?s] |- _ =>
        let E := fresh "E" in
        destruct (String.eqb_spec (Args.model_name args) s) as [E|E];
        [rewrite E in *; cbn in * | cbn in *]
    end.

Lemma map_result_total {A B : Type} (f : A -> result B) (l : list A) :
  (forall a, exists b, f a = Ok b) -> exists bs, map_result f l = Ok bs.
Proof.
  intros Hf. induction l as [|a l [bs IH]]; [now exists []|].
  destruct (Hf a) as [b Hb]. exists (b :: bs). cbn. now rewrite Hb, IH.
Qed.

Lemma layer_init_supported (layer_id : Z) (args : Args.t) :
  py_in (Args.model_name args) supported_names = true ->
  (py_in (Args.model_name args) chatglm_6b_names = true ->
   float_overflow (2 * Args.num_layers args) = false) ->
  exists l, ChatGLMDecoderLayer.__init__ layer_id args = Ok l.
Proof.
  rewrite supported_split. intros H Hf.
  destruct (py_in (Args.model_name args) chatglm_6b_names) eqn:E.
  - destruct (layer_init_legacy layer_id args E (Hf eq_refl))
      as (l & Hl & _).
    now exists l.
  - cbn [orb] in H.
    destruct (layer_init_additive layer_id args H) as (l & Hl & _).
    now exists l.
Qed.

Lemma select_norm_supported (args : Args.t) :
  py_in (Args.model_name args) supported_names = true ->
  exists n, ChatGLMModel.select_norm args = Some n.
Proof.
  unfold ChatGLMModel.select_norm, supported_names, chatglm_6b_names,
    chatglm2_names, glm_10b_names, py_in. cbn [app existsb].
  intros H. by_name args; try (eexists; reflexivity); discriminate H.
Qed.

(** [range] of a count that is not positive is empty, and starts at 0
    otherwise. *)
Lemma range_nonpositive (n : Z) : n <= 0 -> range n = [].
Proof.
  intros Hn. unfold range. now replace (Z.to_nat n) with 0%nat by lia.
Qed.

Lemma range_positive (n : Z) : 0 < n -> exists rest, range n = 0 :: rest.
Proof.
  intros Hn. unfold range.
  destruct (Z.to_nat n) as [|k] eqn:E; [lia|].
  cbn [seq map]. now eexists.
Qed.

Lemma model_init_supported (args : Args.t) :
  py_in (Args.model_name args) supported_names = true ->
  alpha_overflows args = false ->
  exists m, ChatGLMModel.__init__ args = Ok m.
Proof.
  intros H Ha. unfold ChatGLMModel.__init__.
  assert (Hls : exists ls,
            map_result (fun i => ChatGLMDecoderLayer.__init__ i args)
              (range (Args.num_layers args)) = Ok ls).
  { destruct (Z.ltb_spec 0 (Args.num_layers args)) as [Hn|Hn].
    - apply map_result_total. intros i. apply layer_init_supported;
        [exact H|].
      intros E. unfold alpha_overflows in Ha. fold chatglm_6b_names in Ha.
      rewrite E, (proj2 (Z.ltb_lt _ _) Hn) in Ha. exact Ha.
    - rewrite (range_nonpositive _ Hn). now exists []. }
  destruct Hls as [ls Hls].
  destruct (select_norm_supported args H) as [n Hn].
  rewrite Hls, Hn. cbn. now eexists.
Qed.

(** The first chatglm_6b layer of a stack ends its construction when
    [alpha] cannot be computed. *)
Lemma model_init_overflow (args : Args.t) :
  alpha_overflows args = true ->
  ChatGLMModel.__init__ args
  = Err (OverflowError "int too large to convert to float").
Proof.
  unfold alpha_overflows. fold chatglm_6b_names. intros Ha.
  apply andb_prop in Ha as [Ha Hf]. apply andb_prop in Ha as [E Hn].
  apply Z.ltb_lt in Hn. destruct (range_positive _ Hn) as [rest Hr].
  unfold ChatGLMModel.__init__. rewrite Hr. cbn [map_result].
  now rewrite (layer_init_overflow 0 args E Hf).
Qed.

(** A constructor that returned was given a supported identifier. *)
Lemma model_init_name (args : Args.t) (m : ChatGLMModel.t) :
  ChatGLMModel.__init__ args = Ok m ->
  py_in (Args.model_name args) supported_names = true.
Proof.
  intros Hi. destruct (py_in (Args.model_name args) supported_names) eqn:E;
    [reflexivity|].
  rewrite (model_init_unsupported args E) in Hi. discriminate.
Qed.

Lemma model_init_norm (args : Args.t) (m : ChatGLMModel.t) :
  ChatGLMModel.__init__ args = Ok m ->
  ChatGLMModel.select_norm args = Some (ChatGLMModel.norm m)
  /\ norm_cls (ChatGLMModel.final_norm m) = ChatGLMModel.norm m.
Proof.
  unfold ChatGLMModel.__init__.
  destruct (map_result _ _); cbn [bind]; [|discriminate].
  destruct (ChatGLMModel.select_norm args); cbn [bind getattr];
    [|discriminate].
  intros [= <-]. split; reflexivity.
Qed.

Lemma layer_init_attention (layer_id : Z) (args : Args.t)
    (l : ChatGLMDecoderLayer.t) :
  ChatGLMDecoderLayer.__init__ layer_id args = Ok l ->
  exists v,
    ChatGLMDecoderLayer.select_variant args = Ok v
    /\ ChatGLMDecoderLayer.v_norm v = Some (ChatGLMDecoderLayer.norm l)
    /\ ChatGLMDecoderLayer.v_attention_mask_type v
       = Some (attention_mask_type (ChatGLMDecoderLayer.attention l))
    /\ ChatGLMDecoderLayer.v_position_embedding_type v
       = Some (position_embedding_type (ChatGLMDecoderLayer.attention l))
    /\ ChatGLMDecoderLayer.v_rotary_embedding_scaling v
       = attn_rotary_embedding_scaling (ChatGLMDecoderLayer.attention l)
    /\ max_position_embeddings (ChatGLMDecoderLayer.attention l)
       = Args.max_seq_length args
    /\ attn_num_kv_heads (ChatGLMDecoderLayer.attention l)
       = Args.num_kv_heads args.
Proof.
  unfold ChatGLMDecoderLayer.__init__.
  destruct (ChatGLMDecoderLayer.select_variant args) as [v|]; cbn [bind];
    [|discriminate].
  destruct (ChatGLMDecoderLayer.v_norm _) eqn:Hn; cbn [bind getattr];
    [|discriminate].
  destruct (ChatGLMDecoderLayer.v_attention_mask_type _) eqn:Hm;
    cbn [bind getlocal]; [|discriminate].
  destruct (ChatGLMDecoderLayer.v_position_embedding_type _) eqn:Hp;
    cbn [bind getlocal]; [|discriminate].
  intros [= <-]. exists v. repeat split; assumption || reflexivity.
Qed.

Lemma layer_norm_and_final_norm (args : Args.t) (m : ChatGLMModel.t)
    (l : ChatGLMDecoderLayer.t) :
  ChatGLMModel.__init__ args = Ok m ->
  In l (ChatGLMModel.layers m) ->
  (ChatGLMDecoderLayer.norm l = norm_cls (ChatGLMModel.final_norm m)
   <-> (py_in (Args.model_name args) chatglm2_names = true ->
        Args.rmsnorm args = true))
  /\ (py_in (Args.model_name args) chatglm2_names = true ->
      Args.rmsnorm args = false ->
      ChatGLMDecoderLayer.norm l = LayerNorm
      /\ norm_cls (ChatGLMModel.final_norm m) = RmsNorm).
Proof.
  intros Hi Hl.
  destruct (model_init_fields args m Hi) as (_ & _ & HF & _).
  rewrite Forall_forall in HF. destruct (HF l Hl) as [i Hli].
  destruct (layer_init_attention i args l Hli) as (v & Hv & Hvn & _).
  destruct (model_init_norm args m Hi) as [Hsn ->].
  pose proof (model_init_name args m Hi) as Hs.
  revert Hv Hvn Hsn Hs.
  unfold ChatGLMDecoderLayer.select_variant, pow_half,
    ChatGLMModel.select_norm,
    supported_names, chatglm_6b_names, chatglm2_names, glm_10b_names, py_in.
  cbn [app existsb].
  destruct (float_overflow _); cbn [bind];
  by_name args; intros Hv Hvn Hsn Hs; try discriminate Hs;
    try discriminate Hv; injection Hv as <-; cbn in Hvn;
    injection Hvn as <-; injection Hsn as <-;
    destruct (Args.rmsnorm args); cbn;
    (split; [split; [auto; discriminate | intros H; try reflexivity;
                                           now specialize (H eq_refl)]
            | intros; try discriminate; auto]).
Qed.

(** X2: the final norm is of the class of the layers' norms for every
    identifier but those of the chatglm2/chatglm3 family built with
    [rmsnorm] off: there the layers use [LayerNorm] (the flag is read) and
    the stack ends in [RmsNorm] (it is not). *)
Theorem X2_final_norm_ignores_rmsnorm (args : Args.t) (m : ChatGLMModel.t)
    (l : ChatGLMDecoderLayer.t) :
  ChatGLMModel.__init__ args = Ok m ->
  In l (ChatGLMModel.layers m) ->
  (ChatGLMDecoderLayer.norm l = norm_cls (ChatGLMModel.final_norm m)
   <-> (py_in (Args.model_name args) chatglm2_names = true ->
        Args.rmsnorm args = true))
  /\ (py_in (Args.model_name args) chatglm2_names = true ->
      Args.rmsnorm args = false ->
      ChatGLMDecoderLayer.norm l = LayerNorm
      /\ norm_cls (ChatGLMModel.final_norm m) = RmsNorm).
Proof. apply layer_norm_and_final_norm. Qed.

Lemma X2_final_norm_ignores_rmsnorm_witness :
  exists m l,
    ChatGLMModel.__init__
      (with_rmsnorm false (example_args "chatglm3_6b" true 1 8 10 2)) = Ok m
    /\ In l (ChatGLMModel.layers m)
    /\ ChatGLMDecoderLayer.norm l = LayerNorm
    /\ norm_cls (ChatGLMModel.final_norm m) = RmsNorm.
Proof.
  do 2 eexists.
  assert (Hi : ChatGLMModel.__init__
                 (with_rmsnorm false
                    (example_args "chatglm3_6b" true 1 8 10 2)) = Ok _)
    by (vm_compute; reflexivity).
  split; [exact Hi|]. split; [left; reflexivity|].
  exact (proj2 (X2_final_norm_ignores_rmsnorm _ _ _ Hi
                  (or_introl eq_refl)) eq_refl eq_refl).
Defined.

(** X3: the attentions of a constructed model scale the rotary embedding
    for the two 32k identifiers alone, linearly and by
    [args.rotary_embedding_scaling]; and they declare the learned absolute
    position encoding exactly when the stack has the position and block
    tables that provide it. *)
Theorem X3_rotary_scaling_and_learned_positions (args : Args.t)
    (m : ChatGLMModel.t) (l : ChatGLMDecoderLayer.t) :
  ChatGLMModel.__init__ args = Ok m ->
  In l (ChatGLMModel.layers m) ->
  attn_rotary_embedding_scaling (ChatGLMDecoderLayer.attention l)
  = (if py_in (Args.model_name args) ["chatglm2_6b_32k"; "chatglm3_6b_32k"]
     then Some {| rs_type := "linear";
                  rs_factor := Args.rotary_embedding_scaling args |}
     else None)
  /\ (position_embedding_type (ChatGLMDecoderLayer.attention l)
      = learned_absolute
      <-> ChatGLMModel.position_embeddings m <> None
          /\ ChatGLMModel.block_embeddings m <> None).
Proof.
  intros Hi Hl.
  destruct (model_init_fields args m Hi) as (_ & _ & HF & _ & _ & Hg).
  rewrite Forall_forall in HF. destruct (HF l Hl) as [i Hli].
  destruct (layer_init_attention i args l Hli)
    as (v & Hv & _ & _ & Hp & Hr & _).
  pose proof (model_init_name args m Hi) as Hs.
  assert (Hnone : py_in (Args.model_name args) ["glm_10b"] = false ->
            ChatGLMModel.position_embeddings m = None
            /\ ChatGLMModel.block_embeddings m = None).
  { revert Hi. unfold ChatGLMModel.__init__.
    destruct (map_result _ _); cbn [bind]; [|discriminate].
    destruct (ChatGLMModel.select_norm args); cbn [bind getattr];
      [|discriminate].
    intros Hm Hglm. rewrite Hglm in Hm. now injection Hm as <-. }
  rewrite <- Hr. clear Hr. revert Hv Hp Hs Hg Hnone.
  unfold ChatGLMDecoderLayer.select_variant, pow_half, supported_names,
    chatglm_6b_names, chatglm2_names, glm_10b_names, py_in.
  cbn [app existsb].
  destruct (float_overflow _); cbn [bind];
  by_name args; intros Hv Hp Hs Hg Hnone; try discriminate Hs;
    try discriminate Hv; injection Hv as <-; cbn in Hp |- *;
    injection Hp as <-; (split; [reflexivity|]);
    try (destruct (Hnone eq_refl) as [-> ->]; split;
         [discriminate | intros [H _]; now elim H]).
  all: destruct (Hg eq_refl) as [-> ->].
  all: split; [intros _; split; discriminate | reflexivity].
Qed.

Lemma X3_rotary_scaling_and_learned_positions_witness :
  exists m l,
    ChatGLMModel.__init__ (example_args "chatglm3_6b_32k" true 1 8 10 2)
      = Ok m
    /\ In l (ChatGLMModel.layers m)
    /\ attn_rotary_embedding_scaling (ChatGLMDecoderLayer.attention l)
       = Some {| rs_type := "linear"; rs_factor := Lit 1 |}.
Proof.
  do 2 eexists.
  assert (Hi : ChatGLMModel.__init__
                 (example_args "chatglm3_6b_32k" true 1 8 10 2) = Ok _)
    by (vm_compute; reflexivity).
  split; [exact Hi|]. split; [left; reflexivity|].
  exact (proj1 (X3_rotary_scaling_and_learned_positions _ _ _ Hi
                  (or_introl eq_refl))).
Defined.

(** * Further properties of the head *)

(** X4: what [ChatGLMHeadModel.init] ends in.  An unsupported identifier
    gives the [AttributeError] of the parent constructor, and a chatglm_6b
    stack whose [alpha] overflows the [OverflowError] of its first layer,
    whatever the dtypes are; with a supported identifier and a stack that
    can be built, a [dtype] or [logits_dtype] that is neither a string nor
    a [trt.DataType] fails its assertion; otherwise the model is built,
    its key/value cache dtype is int8 if the quant mode has an int8 cache,
    else fp8 if it has an fp8 cache, else the model's dtype, and [lm_head]
    keeps the model's dtype in all three cases. *)
Theorem X4_head_init_outcome {ops : TensorOps} (args : Args.t) :
  (py_in (Args.model_name args) supported_names = false ->
   ChatGLMHeadModel.init args = Err (AttributeError "norm"))
  /\ (alpha_overflows args = true ->
      py_in (Args.model_name args) supported_names = true
      /\ ChatGLMHeadModel.init args
         = Err (OverflowError "int too large to convert to float"))
  /\ (py_in (Args.model_name args) supported_names = true ->
      alpha_overflows args = false ->
      Args.dtype args = DtypeOther \/ Args.logits_dtype args = DtypeOther ->
      ChatGLMHeadModel.init args = Err (AssertionError ""))
  /\ (py_in (Args.model_name args) supported_names = true ->
      alpha_overflows args = false ->
      Args.dtype args <> DtypeOther ->
      Args.logits_dtype args <> DtypeOther ->
      exists self,
        ChatGLMHeadModel.init args = Ok self
        /\ ChatGLMHeadModel.to_trt (Args.dtype args)
           = Ok (ChatGLMHeadModel.dtype self)
        /\ ChatGLMHeadModel.kv_dtype self
           = (if has_int8_kv_cache (Args.quant_mode args)
              then str_dtype_to_trt "int8"
              else if has_fp8_kv_cache (Args.quant_mode args)
                   then str_dtype_to_trt "fp8"
                   else ChatGLMHeadModel.dtype self)
        /\ lin_dtype (ChatGLMHeadModel.lm_head self)
           = ChatGLMHeadModel.dtype self).
Proof.
  unfold ChatGLMHeadModel.init. split; [|split; [|split]].
  - intros H. now rewrite (model_init_unsupported args H).
  - intros Ha. split.
    + unfold alpha_overflows in Ha.
      apply andb_prop in Ha as [Ha _]. apply andb_prop in Ha as [E _].
      rewrite supported_split. fold chatglm_6b_names in E. now rewrite E.
    + now rewrite (model_init_overflow args Ha).
  - intros H Ha Hd. destruct (model_init_supported args H Ha) as [m ->].
    cbn [bind].
    destruct (Args.dtype args) eqn:Ed; cbn [ChatGLMHeadModel.to_trt bind];
      try reflexivity;
      destruct Hd as [Hd|Hd]; try discriminate Hd; now rewrite Hd.
  - intros H Ha Hd Hl. destruct (model_init_supported args H Ha) as [m ->].
    cbn [bind].
    destruct (Args.dtype args); [| |now elim Hd];
      (destruct (Args.logits_dtype args); [| |now elim Hl]);
      cbn [ChatGLMHeadModel.to_trt bind];
      eexists; (split; [reflexivity|]); cbn; repeat split; reflexivity.
Qed.

Lemma X4_head_init_outcome_witness :
  exists self,
    ChatGLMHeadModel.init
      (with_dtype (DtypeStr "float16")
         {| has_int8_kv_cache := true; has_fp8_kv_cache := true |}
         (example_args "chatglm_6b" true 1 8 10 2)) = Ok self
    /\ ChatGLMHeadModel.kv_dtype self = "int8"
    /\ lin_dtype (ChatGLMHeadModel.lm_head self) = "float16".
Proof.
  destruct (proj2 (proj2 (proj2 (X4_head_init_outcome (ops := Sym.ops)
              (with_dtype (DtypeStr "float16")
                 {| has_int8_kv_cache := true; has_fp8_kv_cache := true |}
                 (example_args "chatglm_6b" true 1 8 10 2)))))
              eq_refl eq_refl ltac:(discriminate) ltac:(discriminate))
    as (self & Hi & Hd & Hk & Hl).
  exists self. split; [exact Hi|]. injection Hd as Hd.
  split; [exact Hk | now rewrite Hl, <- Hd].
Defined.

(** X5: the head adds no failure of its own and hides none: its [forward]
    ends in an exception exactly when the stack's [forward] does, and in
    the same one. *)
Theorem X5_head_fails_as_stack {ops : TensorOps} (net : PluginConfig)
    (self : ChatGLMHeadModel.t)
    (input_ids position_ids last_token_ids : Tensor)
    (kv : KeyValueCacheParams Tensor) (ap : AttentionParams Tensor)
    (e : exn) :
  ChatGLMHeadModel.forward net self input_ids position_ids last_token_ids
    kv ap = Err e
  <-> ChatGLMModel.forward (ChatGLMHeadModel.base self) input_ids
        position_ids kv ap = Err e.
Proof.
  destruct (ChatGLMModel.forward (ChatGLMHeadModel.base self) input_ids
              position_ids kv ap) as [r|e'] eqn:Hr.
  - rewrite (head_forward_of_stack net self input_ids position_ids
               last_token_ids kv ap r Hr). cbv zeta.
    split; intros H; discriminate H.
  - unfold ChatGLMHeadModel.forward. rewrite Hr. cbn [bind].
    split; intros [= ->]; reflexivity.
Qed.

(** * Further properties of the forward passes *)

Lemma zip4_length {A B C D : Type} (la : list A) (lb : list B)
    (lc : list C) (ld : list D) :
  List.length (zip4 la lb lc ld)
  = Nat.min (Nat.min (List.length la) (List.length lb))
      (Nat.min (List.length lc) (List.length ld)).
Proof.
  revert lb lc ld. induction la as [|a la IH]; intros lb lc ld;
    [reflexivity|].
  destruct lb as [|b lb]; [reflexivity|].
  destruct lc as [|c lc]; [cbn; lia|].
  destruct ld as [|d ld]; [cbn; lia|].
  cbn [zip4 List.length]. rewrite IH. lia.
Qed.

Lemma zip4_firstn {A B C D : Type} (k : nat) (la : list A) (lb : list B)
    (lc : list C) (ld : list D) :
  (List.length (zip4 la lb lc ld) <= k)%nat ->
  zip4 (firstn k la) lb lc ld = zip4 la lb lc ld.
Proof.
  revert la lb lc ld. induction k as [|k IH]; intros la lb lc ld H.
  - destruct la, lb, lc, ld; cbn in *; try reflexivity; lia.
  - destruct la as [|a la]; [reflexivity|].
    destruct lb as [|b lb]; [reflexivity|].
    destruct lc as [|c lc]; [reflexivity|].
    destruct ld as [|d ld]; [reflexivity|].
    cbn [firstn zip4] in *. f_equal. apply IH. cbn in H. lia.
Qed.

(** X6: with the cache in use the stack runs the layers that have an entry
    in each of the three per-layer lists of the cache parameters, and no
    more: [zip] stops at the shortest of the four, the layers after it are
    not run and raise no error, and one present is returned per layer
    run. *)
Theorem X6_layers_run_up_to_shortest_list {ops : TensorOps} (args : Args.t)
    (m : ChatGLMModel.t) (input_ids position_ids : Tensor)
    (kv : KeyValueCacheParams Tensor) (ap : AttentionParams Tensor)
    (pasts pointers max_lengths : list (option Tensor)) :
  ChatGLMModel.__init__ args = Ok m ->
  Args.use_cache args = true ->
  (py_in (Args.model_name args) ["glm_10b"] = true ->
   (2 <= List.length (split position_ids 1 1))%nat) ->
  let kv' :=
    fill_none_tensor_list kv (Z.of_nat (List.length (ChatGLMModel.layers m)))
  in
  past_key_value kv' = PList pasts ->
  kv_cache_block_pointers kv' = PList pointers ->
  host_max_kv_cache_lengths kv' = PList max_lengths ->
  let k :=
    Nat.min
      (Nat.min (List.length (ChatGLMModel.layers m)) (List.length pasts))
      (Nat.min (List.length pointers) (List.length max_lengths)) in
  exists embedded threaded presents,
    ChatGLMModel.embed m input_ids position_ids = Ok embedded
    /\ thread_layers position_ids kv' ap
         (zip4 (firstn k (ChatGLMModel.layers m)) pasts pointers max_lengths)
         embedded = Ok threaded
    /\ ChatGLMModel.forward m input_ids position_ids kv ap
       = Ok (ChatGLMModel.WithPresents
               (Norm_forward (ChatGLMModel.final_norm m) threaded) presents)
    /\ List.length presents = k.
Proof.
  intros Hi Hu Hs kv' Hp Hq Hr k.
  destruct (model_forward_total args m input_ids position_ids kv ap pasts
              pointers max_lengths Hi Hs Hp Hq Hr) as (e & He & Hf).
  rewrite Hu in Hf. destruct Hf as (t & ps & Ht & Hlen & Hf).
  exists e, t, ps. split; [exact He|].
  rewrite zip4_firstn by (rewrite zip4_length; reflexivity).
  split; [exact Ht|]. split; [exact Hf|].
  rewrite Hlen. apply zip4_length.
Qed.

Lemma X6_layers_run_up_to_shortest_list_witness :
  exists m embedded threaded presents,
    ChatGLMModel.__init__ (example_args "chatglm2_6b" true 3 8 10 2) = Ok m
    /\ List.length (ChatGLMModel.layers m) = 3%nat
    /\ ChatGLMModel.embed m example_input_ids example_position_ids
       = Ok embedded
    /\ thread_layers example_position_ids (example_kv 1)
         example_attention_params
         (zip4 (firstn 1 (ChatGLMModel.layers m)) [None] [None] [None])
         embedded = Ok threaded
    /\ ChatGLMModel.forward m example_input_ids example_position_ids
         (example_kv 1) example_attention_params
       = Ok (ChatGLMModel.WithPresents
               (Sym.NormOut (ChatGLMModel.final_norm m) threaded) presents)
    /\ List.length presents = 1%nat.
Proof.
  eexists.
  assert (Hi : ChatGLMModel.__init__
                 (example_args "chatglm2_6b" true 3 8 10 2) = Ok _)
    by (vm_compute; reflexivity).
  destruct (X6_layers_run_up_to_shortest_list (ops := Sym.ops) _ _
              example_input_ids example_position_ids (example_kv 1)
              example_attention_params [None] [None] [None] Hi eq_refl
              (fun H => False_ind _ (Bool.diff_false_true H))
              eq_refl eq_refl eq_refl)
    as (e & t & ps & He & Ht & Hf & Hl).
  exists e, t, ps. split; [exact Hi|]. split; [reflexivity|].
  split; [exact He|]. split; [exact Ht|]. split; [exact Hf | exact Hl].
Defined.

(** X7: for glm_10b the stack reads the first two items of the split
    position ids.  With fewer than two, [embed] and with it [forward] end
    in [IndexError]; with more than two, the items after the second are
    not read, and the result is that of the first two. *)
Theorem X7_glm_position_columns {ops : TensorOps} (args : Args.t)
    (m : ChatGLMModel.t) (input_ids position_ids : Tensor) :
  ChatGLMModel.__init__ args = Ok m ->
  py_in (Args.model_name args) ["glm_10b"] = true ->
  ((List.length (split position_ids 1 1) < 2)%nat ->
   ChatGLMModel.embed m input_ids position_ids
   = Err (IndexError "list index out of range")
   /\ forall kv ap,
        ChatGLMModel.forward m input_ids position_ids kv ap
        = Err (IndexError "list index out of range"))
  /\ (forall column0 column1 rest,
        split position_ids 1 1 = column0 :: column1 :: rest ->
        exists table0 table1,
          ChatGLMModel.position_embeddings m = Some table0
          /\ ChatGLMModel.block_embeddings m = Some table1
          /\ ChatGLMModel.embed m input_ids position_ids
             = Ok (add
                     (Embedding_forward (ChatGLMModel.embedding m) input_ids)
                     (view
                        (add (Embedding_forward table0 column0)
                           (Embedding_forward table1 column1))
                        (concat [inl (shape input_ids 0);
                                 inl (shape input_ids 1); inr 4096])))).
Proof.
  intros Hi Hglm.
  destruct (model_init_fields args m Hi) as (Hn & _ & _ & _ & _ & Hg).
  destruct (Hg Hglm) as [H0 H1].
  assert (Hembed : (List.length (split position_ids 1 1) < 2)%nat ->
            ChatGLMModel.embed m input_ids position_ids
            = Err (IndexError "list index out of range")).
  { intros Hlen. unfold ChatGLMModel.embed. rewrite Hn, Hglm, H0, H1.
    destruct (split position_ids 1 1) as [|c0 [|c1 rest]];
      [reflexivity | reflexivity | cbn in Hlen; lia]. }
  split.
  - intros Hlen. split; [now apply Hembed|].
    intros kv ap. unfold ChatGLMModel.forward. now rewrite (Hembed Hlen).
  - intros c0 c1 rest Hs. do 2 eexists. split; [exact H0|].
    split; [exact H1|].
    unfold ChatGLMModel.embed. rewrite Hn, Hglm, H0, H1, Hs. reflexivity.
Qed.

Lemma X7_glm_position_columns_witness :
  exists m,
    ChatGLMModel.__init__ (example_args "glm_10b" true 1 8 10 2) = Ok m
    /\ ChatGLMModel.embed m example_input_ids
         (Sym.Input "position_ids" [2; 1; 3])
       = Err (IndexError "list index out of range").
Proof.
  eexists.
  assert (Hi : ChatGLMModel.__init__ (example_args "glm_10b" true 1 8 10 2)
               = Ok _) by (vm_compute; reflexivity).
  split; [exact Hi|].
  refine (proj1 (proj1 (X7_glm_position_columns (ops := Sym.ops) _ _
                          example_input_ids
                          (Sym.Input "position_ids" [2; 1; 3]) Hi eq_refl)
                   _)).
  vm_compute. lia.
Defined.

Lemma str_of_nat_inj (a b : nat) : str_of_nat a = str_of_nat b -> a = b.
Proof.
  unfold str_of_nat. intros H. apply Unsigned.to_uint_inj.
  apply (f_equal NilEmpty.uint_of_string) in H.
  rewrite !NilEmpty.usu in H. now injection H.
Qed.

Lemma mark_presents_names {ops : TensorOps} (kv_dtype : DataType) (i : nat)
    (presents : list Tensor) :
  map ChatGLMHeadModel.out_name
    (ChatGLMHeadModel.mark_presents kv_dtype i presents)
  = map (fun k => "present_key_value_" ++ str_of_nat k)
      (seq i (List.length presents)).
Proof.
  revert i. induction presents as [|p ps IH]; intros i; [reflexivity|].
  cbn [ChatGLMHeadModel.mark_presents map List.length seq
       ChatGLMHeadModel.out_name]. now rewrite IH.
Qed.

Lemma mark_presents_nth {ops : TensorOps} (kv_dtype : DataType) (i : nat)
    (presents : list Tensor) (mk : ChatGLMHeadModel.marked Tensor) :
  In mk (ChatGLMHeadModel.mark_presents kv_dtype i presents) ->
  exists k,
    ChatGLMHeadModel.out_name mk
    = "present_key_value_" ++ str_of_nat (i + k)
    /\ ChatGLMHeadModel.out_dtype mk = kv_dtype
    /\ nth_error presents k = Some (ChatGLMHeadModel.out_tensor mk).
Proof.
  revert i. induction presents as [|p ps IH]; intros i; [intros []|].
  cbn [ChatGLMHeadModel.mark_presents In]. intros [<-|H].
  - exists 0%nat. rewrite Nat.add_0_r. repeat split.
  - destruct (IH _ H) as (k & Hn & Hd & Ht). exists (S k).
    rewrite Nat.add_succ_r. repeat split; assumption.
Qed.

Lemma head_marks_named {ops : TensorOps} (net : PluginConfig)
    (self : ChatGLMHeadModel.t)
    (input_ids position_ids last_token_ids : Tensor)
    (kv : KeyValueCacheParams Tensor) (ap : AttentionParams Tensor)
    (out : ChatGLMHeadModel.output)
    (marks : list (ChatGLMHeadModel.marked Tensor)) :
  ChatGLMHeadModel.forward net self input_ids position_ids last_token_ids
    kv ap = Ok (out, marks) ->
  NoDup (map ChatGLMHeadModel.out_name marks)
  /\ forall mk, In mk marks ->
       (ChatGLMHeadModel.out_name mk = "logits"
        /\ ChatGLMHeadModel.out_dtype mk = ChatGLMHeadModel.logits_dtype self
        /\ ChatGLMHeadModel.out_tensor mk = logits_of out)
       \/ (exists i,
             ChatGLMHeadModel.out_name mk
             = "present_key_value_" ++ str_of_nat i
             /\ ChatGLMHeadModel.out_dtype mk
                = ChatGLMHeadModel.kv_dtype self
             /\ nth_error (head_presents out) i
                = Some (ChatGLMHeadModel.out_tensor mk)).
Proof.
  intros Hf.
  destruct (ChatGLMModel.forward (ChatGLMHeadModel.base self) input_ids
              position_ids kv ap) as [r|e] eqn:Hr.
  2:{ unfold ChatGLMHeadModel.forward in Hf. rewrite Hr in Hf.
      discriminate Hf. }
  rewrite (head_forward_of_stack net self input_ids position_ids
             last_token_ids kv ap r Hr) in Hf. cbv zeta in Hf.
  destruct (ChatGLMModel.use_cache (ChatGLMHeadModel.base self)
            && negb (paged_kv_cache net)); injection Hf as <- <-.
  - split.
    + cbn [map ChatGLMHeadModel.out_name]. constructor.
      * rewrite mark_presents_names, in_map_iff.
        intros (k & Hk & _). discriminate Hk.
      * rewrite mark_presents_names.
        apply Finite.Injective_map_NoDup; [|apply seq_NoDup].
        intros a b H. cbn [String.append] in H. injection H as H.
        now apply str_of_nat_inj.
    + intros mk [<-|H]; [left; repeat split|right].
      destruct (mark_presents_nth _ _ _ _ H) as (k & Hn & Hd & Ht).
      exists k. repeat split; assumption.
  - split.
    + cbn. constructor; [intros []|constructor].
    + intros mk [<-|[]]. left. repeat split.
Qed.

(** X8: the outputs the head marks have pairwise distinct names: "logits"
    for the logits, with the logits dtype, and "present_key_value_i" for
    the present of the i-th layer run, with the key/value cache dtype. *)
Theorem X8_output_names_distinct {ops : TensorOps} (net : PluginConfig)
    (self : ChatGLMHeadModel.t)
    (input_ids position_ids last_token_ids : Tensor)
    (kv : KeyValueCacheParams Tensor) (ap : AttentionParams Tensor)
    (out : ChatGLMHeadModel.output)
    (marks : list (ChatGLMHeadModel.marked Tensor)) :
  ChatGLMHeadModel.forward net self input_ids position_ids last_token_ids
    kv ap = Ok (out, marks) ->
  NoDup (map ChatGLMHeadModel.out_name marks)
  /\ forall mk, In mk marks ->
       (ChatGLMHeadModel.out_name mk = "logits"
        /\ ChatGLMHeadModel.out_dtype mk = ChatGLMHeadModel.logits_dtype self
        /\ ChatGLMHeadModel.out_tensor mk = logits_of out)
       \/ (exists i,
             ChatGLMHeadModel.out_name mk
             = "present_key_value_" ++ str_of_nat i
             /\ ChatGLMHeadModel.out_dtype mk
                = ChatGLMHeadModel.kv_dtype self
             /\ nth_error (head_presents out) i
                = Some (ChatGLMHeadModel.out_tensor mk)).
Proof. apply head_marks_named. Qed.

Lemma X8_output_names_distinct_witness :
  exists self out marks,
    ChatGLMHeadModel.init (example_args "chatglm2_6b" true 2 8 10 4)
      = Ok self
    /\ ChatGLMHeadModel.forward example_net self example_input_ids
         example_position_ids example_last_token_ids (example_kv 2)
         example_attention_params = Ok (out, marks)
    /\ map ChatGLMHeadModel.out_name marks
       = ["logits"; "present_key_value_0"; "present_key_value_1"]
    /\ NoDup (map ChatGLMHeadModel.out_name marks).
Proof.
  do 3 eexists.
  assert (Hi : ChatGLMHeadModel.init
                 (example_args "chatglm2_6b" true 2 8 10 4) = Ok _)
    by (vm_compute; reflexivity).
  split; [exact Hi|].
  match type of Hi with
  | _ = Ok ?self =>
      assert (Hf : ChatGLMHeadModel.forward example_net self
                     example_input_ids example_position_ids
                     example_last_token_ids (example_kv 2)
                     example_attention_params = Ok (_, _))
        by (vm_compute; reflexivity)
  end.
  split; [exact Hf|]. split; [reflexivity|].
  exact (proj1 (X8_output_names_distinct (ops := Sym.ops) _ _ _ _ _ _ _ _ _
                  Hf)).
Defined.

(** X9: a number of layers that is zero or negative is no error: the model
    is built without decoder layers, and its forward pass is the final norm
    of the embedded input, with no present. *)
Theorem X9_no_layers_for_nonpositive_count (args : Args.t) :
  py_in (Args.model_name args) supported_names = true ->
  Args.num_layers args <= 0 ->
  exists m,
    ChatGLMModel.__init__ args = Ok m
    /\ ChatGLMModel.layers m = []
    /\ forall (ops : TensorOps) (input_ids position_ids embedded : Tensor)
         (kv : KeyValueCacheParams Tensor) (ap : AttentionParams Tensor)
         (pasts pointers max_lengths : list (option Tensor)),
         ChatGLMModel.embed m input_ids position_ids = Ok embedded ->
         past_key_value (fill_none_tensor_list kv 0) = PList pasts ->
         kv_cache_block_pointers (fill_none_tensor_list kv 0)
           = PList pointers ->
         host_max_kv_cache_lengths (fill_none_tensor_list kv 0)
           = PList max_lengths ->
         ChatGLMModel.forward m input_ids position_ids kv ap
         = Ok (if Args.use_cache args
               then ChatGLMModel.WithPresents
                      (Norm_forward (ChatGLMModel.final_norm m) embedded) []
               else ChatGLMModel.Plain
                      (Norm_forward (ChatGLMModel.final_norm m) embedded)).
Proof.
  intros Hs Hn.
  assert (Ha : alpha_overflows args = false).
  { unfold alpha_overflows. rewrite (proj2 (Z.ltb_ge _ _) Hn).
    now rewrite andb_false_r. }
  destruct (model_init_supported args Hs Ha) as [m Hi].
  destruct (model_init_fields args m Hi) as (_ & Hu & _ & Hlen & _).
  assert (Hl : ChatGLMModel.layers m = []).
  { apply length_zero_iff_nil. rewrite Hlen. lia. }
  exists m. split; [exact Hi|]. split; [exact Hl|].
  intros ops input_ids position_ids e kv ap pasts pointers max_lengths
    He Hp Hq Hr.
  unfold ChatGLMModel.forward. rewrite He. cbn [bind]. cbv zeta.
  rewrite Hl. cbn [List.length]. change (Z.of_nat 0) with 0.
  rewrite Hp, Hq, Hr. cbn [py_iter bind zip4 ChatGLMModel.run_layers fst snd].
  now rewrite Hu.
Qed.

Lemma X9_no_layers_for_nonpositive_count_witness :
  exists m,
    ChatGLMModel.__init__ (example_args "chatglm_6b" false (-3) 8 10 2) = Ok m
    /\ ChatGLMModel.layers m = [].
Proof.
  destruct (X9_no_layers_for_nonpositive_count
              (example_args "chatglm_6b" false (-3) 8 10 2) eq_refl)
    as (m & Hi & Hl & _); [cbn; lia|].
  exists m. split; assumption.
Defined.

(** X10: a per-layer list of the cache parameters that is still [None]
    after [fill_none_tensor_list] ends the forward pass in [TypeError],
    whichever of the three it is and before any layer has run. *)
Theorem X10_cache_list_left_none {ops : TensorOps} (m : ChatGLMModel.t)
    (input_ids position_ids embedded : Tensor)
    (kv : KeyValueCacheParams Tensor) (ap : AttentionParams Tensor) :
  ChatGLMModel.embed m input_ids position_ids = Ok embedded ->
  let kv' :=
    fill_none_tensor_list kv (Z.of_nat (List.length (ChatGLMModel.layers m)))
  in
  past_key_value kv' = PNone
  \/ kv_cache_block_pointers kv' = PNone
  \/ host_max_kv_cache_lengths kv' = PNone ->
  exists msg,
    ChatGLMModel.forward m input_ids position_ids kv ap
    = Err (TypeError msg).
Proof.
  intros He kv' H. unfold ChatGLMModel.forward. rewrite He. cbn [bind].
  fold kv'.
  destruct (past_key_value kv') as [|t|l]; cbn [py_iter bind];
    try (eexists; reflexivity).
  destruct (kv_cache_block_pointers kv') as [|t|l']; cbn [py_iter bind];
    try (eexists; reflexivity).
  destruct (host_max_kv_cache_lengths kv') as [|t|l'']; cbn [py_iter bind];
    try (eexists; reflexivity).
  destruct H as [H|[H|H]]; discriminate H.
Qed.

Lemma X10_cache_list_left_none_witness :
  exists m msg,
    ChatGLMModel.__init__ (example_args "chatglm2_6b" true 1 8 10 2) = Ok m
    /\ ChatGLMModel.forward m example_input_ids example_position_ids
         {| past_key_value := PNone;
            host_past_key_value_lengths := PNone;
            host_max_kv_cache_lengths := PNone;
            kv_cache_block_pointers := PNone;
            cache_indirection := PNone |} example_attention_params
       = Err (TypeError msg).
Proof.
  eexists.
  assert (Hi : ChatGLMModel.__init__
                 (example_args "chatglm2_6b" true 1 8 10 2) = Ok _)
    by (vm_compute; reflexivity).
  match type of Hi with
  | _ = Ok ?m =>
      destruct (X10_cache_list_left_none (ops := Sym.ops) m
                  example_input_ids example_position_ids _
                  {| past_key_value := PNone;
                     host_past_key_value_lengths := PNone;
                     host_max_kv_cache_lengths := PNone;
                     kv_cache_block_pointers := PNone;
                     cache_indirection := PNone |}
                  example_attention_params eq_refl
                  (or_intror (or_intror eq_refl))) as [msg H]
  end.
  exists msg. split; [exact Hi | exact H].
Defined.

(** * Properties of the keyword path of [ChatGLMHeadModel.__init__] *)

(** Lookups in a namespace built by assignments. *)
Ltac ns_lookup :=
  unfold Kwargs.set, Kwargs.namespace, Kwargs.kwargs;
  repeat first
    [ rewrite stdpp.fin_maps.lookup_insert_eq
    | rewrite stdpp.fin_maps.lookup_insert_ne by discriminate ].

Lemma lookup_copied (args : Kwargs.kwargs) (key : string) :
  stdpp.base.lookup key
    (stdpp.base.fmap Kwargs.as_value args : Kwargs.namespace)
  = option_map Kwargs.as_value (stdpp.base.lookup key args).
Proof.
  unfold Kwargs.namespace, Kwargs.kwargs. apply stdpp.fin_maps.lookup_fmap.
Qed.

Lemma general_defaults_name (args : Kwargs.kwargs) (name : string)
    (names : list string) :
  stdpp.base.lookup "model_name" args
    = Some (Kwargs.Plain (Kwargs.VStr name)) ->
  Kwargs.model_name_in (general_defaults args) names = Ok (py_in name names).
Proof.
  intros H. unfold Kwargs.model_name_in, Kwargs.get, general_defaults.
  ns_lookup. rewrite lookup_copied, H. reflexivity.
Qed.

(** The keyword path, for keywords that name the model by a string. *)
Lemma init_args_keywords (args : Kwargs.kwargs) (name : string) :
  stdpp.base.lookup "args" args = None ->
  stdpp.base.lookup "model_name" args
    = Some (Kwargs.Plain (Kwargs.VStr name)) ->
  Kwargs.init_args args
  = if py_in name ["chatglm_6b"] then
      ns <- Kwargs.long_defaults 2048 (general_defaults args) ;;
      Ok (Kwargs.Namespace ns)
    else if py_in name ["glm_10b"] then
      ns <- Kwargs.long_defaults 1024 (general_defaults args) ;;
      Ok (Kwargs.Namespace ns)
    else if py_in name chatglm2_names then
      Ok (Kwargs.Namespace
            (Kwargs.set "rmsnorm" (Kwargs.VBool true)
               (Kwargs.set "qkv_bias" (Kwargs.VBool true)
                  (Kwargs.set "num_kv_heads" (Kwargs.VInt 2)
                     (Kwargs.set "linear_bias" (Kwargs.VBool false)
                        (Kwargs.set "ffn_hidden_size" (Kwargs.VInt 13696)
                           (Kwargs.set
                              "apply_residual_connection_post_layernorm"
                              (Kwargs.VBool false)
                              (general_defaults args))))))))
    else Ok (Kwargs.Namespace (general_defaults args)).
Proof.
  intros Ha Hn. unfold Kwargs.init_args. rewrite Ha, Hn.
  cbn [py_assert bind]. fold (general_defaults args).
  rewrite !(general_defaults_name args name _ Hn). cbn [bind].
  fold chatglm2_names.
  destruct (py_in name ["chatglm_6b"]); [reflexivity|].
  destruct (py_in name ["glm_10b"]); [reflexivity|].
  destruct (py_in name chatglm2_names); reflexivity.
Qed.






Lemma py_min_bound (bound z : Z) (v : Kwargs.value) :
  Kwargs.py_min bound v = Ok (Kwargs.VInt z) -> z <= bound.
Proof.
  destruct v as [|b|z0|q|s|name [z0|]]; cbn; try discriminate.
  - destruct b; destruct (_ <? _); intros [= <-] || discriminate; lia.
  - destruct (Z.ltb_spec z0 bound); intros [= <-]; lia.
  - destruct (Qle_bool _ _); intros [= <-] || discriminate; lia.
  - destruct (_ <? _); intros [= <-] || discriminate; lia.
Qed.

(** The namespace of the two families with a bounded sequence length. *)
Lemma long_defaults_result (bound : Z) (args : Kwargs.kwargs)
    (ns : Kwargs.namespace) :
  Kwargs.long_defaults bound (general_defaults args) = Ok ns ->
  exists v v',
    option_map Kwargs.as_value
      (stdpp.base.lookup "max_position_embeddings" args) = Some v
    /\ Kwargs.py_min bound v = Ok v'
    /\ ns = Kwargs.set "qkv_bias" (Kwargs.VBool true)
              (Kwargs.set "num_kv_heads" (Kwargs.VInt 32)
                 (Kwargs.set "max_seq_length" v'
                    (Kwargs.set "linear_bias" (Kwargs.VBool true)
                       (Kwargs.set "ffn_hidden_size" (Kwargs.VInt 16384)
                          (general_defaults args))))).
Proof.
  unfold Kwargs.long_defaults, Kwargs.get.
  assert (Hl : stdpp.base.lookup "max_position_embeddings"
                 (Kwargs.set "linear_bias" (Kwargs.VBool true)
                    (Kwargs.set "ffn_hidden_size" (Kwargs.VInt 16384)
                       (general_defaults args)))
               = option_map Kwargs.as_value
                   (stdpp.base.lookup "max_position_embeddings" args)).
  { unfold general_defaults. ns_lookup. apply lookup_copied. }
  rewrite Hl.
  destruct (option_map _ _) as [v|]; cbn [getattr bind]; [|discriminate].
  destruct (Kwargs.py_min bound v) as [v'|e] eqn:Hm; cbn [bind];
    [|discriminate].
  intros [= <-]. now exists v, v'.
Qed.



(** X14: a model built from the namespace of the keyword path uses the
    cache, so its stack threads the hidden states through its layers; its
    layers' norms are of the class of its final norm; and for chatglm_6b
    and glm_10b each attention has at most 2048 and 1024 positions and 32
    key/value heads. *)
Theorem X14_models_of_the_keyword_path (kwargs : Kwargs.kwargs)
    (ns : Kwargs.namespace) (args : Args.t) (m : ChatGLMModel.t) :
  stdpp.base.lookup "args" kwargs = None ->
  stdpp.base.lookup "model_name" kwargs
    = Some (Kwargs.Plain (Kwargs.VStr (Args.model_name args))) ->
  Kwargs.init_args kwargs = Ok (Kwargs.Namespace ns) ->
  Kwargs.records ns args ->
  ChatGLMModel.__init__ args = Ok m ->
  ChatGLMModel.use_cache m = true
  /\ Forall (fun l =>
               ChatGLMDecoderLayer.use_cache l = true
               /\ ChatGLMDecoderLayer.norm l
                  = norm_cls (ChatGLMModel.final_norm m)
               /\ forall bound,
                    sequence_bound (Args.model_name args) = Some bound ->
                    max_position_embeddings (ChatGLMDecoderLayer.attention l)
                      <= bound
                    /\ attn_num_kv_heads (ChatGLMDecoderLayer.attention l)
                       = 32)
       (ChatGLMModel.layers m).
Proof.
  intros Ha Hn Hk Hrec Hi.
  destruct Hrec as (_ & Hu & _ & _ & Hkv & Hmsl & _ & _ & Hrms & _).
  rewrite (init_args_keywords kwargs _ Ha Hn) in Hk.
  assert (Hcache : Args.use_cache args = true).
  { assert (Hv : stdpp.base.lookup "use_cache" ns
                 = Some (Kwargs.VBool true)).
    { revert Hk.
      destruct (py_in _ ["chatglm_6b"]);
        [|destruct (py_in _ ["glm_10b"]);
          [|destruct (py_in _ chatglm2_names)]].
      1,2: destruct (Kwargs.long_defaults _ _) as [ns'|e] eqn:Hl;
        cbn [bind]; [|discriminate]; intros [= <-];
        destruct (long_defaults_result _ _ _ Hl) as (v & v' & _ & _ & ->).
      3,4: intros [= <-].
      all: unfold general_defaults; now ns_lookup. }
    rewrite Hv in Hu. now injection Hu as <-. }
  assert (Hnorm : py_in (Args.model_name args) chatglm2_names = true ->
            Args.rmsnorm args = true).
  { intros Hfam. revert Hk.
    destruct (py_in _ ["chatglm_6b"]) eqn:E1.
    { apply legacy_not_additive in E1. rewrite Hfam in E1. discriminate. }
    destruct (py_in _ ["glm_10b"]) eqn:E2.
    { exfalso. revert Hfam E2. unfold chatglm2_names, py_in.
      cbn [existsb]. by_name args; discriminate. }
    rewrite Hfam. intros [= <-].
    assert (Hv : Kwargs.VBool true = Kwargs.VBool (Args.rmsnorm args)).
    { apply Hrms. now ns_lookup. }
    now injection Hv as <-. }
  assert (Hbound : forall bound,
            sequence_bound (Args.model_name args) = Some bound ->
            Args.max_seq_length args <= bound
            /\ Args.num_kv_heads args = 32).
  { intros bound Hb.
    assert (Hl : exists ns',
              Kwargs.long_defaults bound (general_defaults kwargs) = Ok ns'
              /\ ns' = ns).
    { revert Hk. unfold sequence_bound in Hb.
      destruct (py_in _ ["chatglm_6b"]);
        [injection Hb as <-
        |destruct (py_in _ ["glm_10b"]); [injection Hb as <-|discriminate]].
      all: destruct (Kwargs.long_defaults _ _) as [ns'|e]; cbn [bind];
        [|discriminate]; intros [= <-]; now exists ns'. }
    destruct Hl as (ns' & Hl & <-).
    destruct (long_defaults_result _ _ _ Hl) as (v & v' & _ & Hmin & ->).
    revert Hmsl Hkv. ns_lookup. intros [= ->] [= <-].
    split; [now apply (py_min_bound _ _ _ Hmin) | reflexivity]. }
  destruct (model_init_fields args m Hi) as (_ & Hum & HF & _).
  split; [now rewrite Hum|].
  rewrite Forall_forall in *. intros l Hl. destruct (HF l Hl) as [i Hli].
  split; [now rewrite (layer_init_use_cache i args l Hli)|].
  split.
  - now apply (proj1 (layer_norm_and_final_norm args m l Hi Hl)).
  - intros bound Hb.
    destruct (layer_init_attention i args l Hli)
      as (v & _ & _ & _ & _ & _ & -> & ->).
    now apply Hbound.
Qed.

Lemma X14_models_of_the_keyword_path_witness :
  exists ns m,
    Kwargs.init_args (example_kwargs "chatglm_6b" 32768)
      = Ok (Kwargs.Namespace ns)
    /\ Kwargs.records ns example_keyword_args
    /\ ChatGLMModel.__init__ example_keyword_args = Ok m
    /\ ChatGLMModel.use_cache m = true.
Proof.
  do 2 eexists.
  assert (Hk : Kwargs.init_args (example_kwargs "chatglm_6b" 32768)
               = Ok (Kwargs.Namespace _)) by (vm_compute; reflexivity).
  assert (Hi : ChatGLMModel.__init__ example_keyword_args = Ok _)
    by (vm_compute; reflexivity).
  match type of Hk with
  | _ = Ok (Kwargs.Namespace ?ns) =>
      assert (Hr : Kwargs.records ns example_keyword_args)
        by (repeat split; try reflexivity; intros v Hv; vm_compute in Hv;
            discriminate Hv)
  end.
  split; [exact Hk|]. split; [exact Hr|]. split; [exact Hi|].
  exact (proj1 (X14_models_of_the_keyword_path
                  (example_kwargs "chatglm_6b" 32768) _ example_keyword_args
                  _ eq_refl eq_refl Hk Hr Hi)).
Defined.

(** * Properties of [prepare_inputs] *)







(** * Further properties of the run script *)

(** The run past the world-size check. *)
Lemma main_matching (args : Run.arguments) (w : Run.world) :
  Run.tensor_parallel (Run.builder (Run.config_json w))
    = Z.pos (Run.mpi_world_size w) ->
  exists loaded,
    Forall (fun e => is_print e = false) loaded
    /\ In (Run.SetDevice
             (Run.mpi_rank w mod Z.pos (Run.gpus_per_node w))) loaded
    /\ In (Run.Decode (Run.tokenizer_encode w (Run.input_text args))
             [Z.of_nat
                (List.length
                   (Run.tokenizer_encode w (Run.input_text args)))]
             Run.EOS_TOKEN Run.PAD_TOKEN) loaded
    /\ In (Run.CreateSession
             {| Run.mc_num_heads :=
                  Run.bc_num_heads (Run.builder (Run.config_json w))
                  / Z.pos (Run.mpi_world_size w);
                Run.mc_num_kv_heads :=
                  Run.bc_num_heads (Run.builder (Run.config_json w))
                  / Z.pos (Run.mpi_world_size w);
                Run.mc_hidden_size :=
                  Run.bc_hidden_size (Run.builder (Run.config_json w))
                  / Z.pos (Run.mpi_world_size w);
                Run.mc_vocab_size :=
                  Run.bc_vocab_size (Run.builder (Run.config_json w));
                Run.mc_num_layers :=
                  Run.bc_num_layers (Run.builder (Run.config_json w));
                Run.mc_gpt_attention_plugin :=
                  Run.gpt_attention_plugin (Run.config_json w);
                Run.mc_dtype :=
                  Run.precision (Run.builder (Run.config_json w)) |}
             (Run.engine_file w) (Z.pos (Run.mpi_world_size w))
             (Run.mpi_rank w) (Z.pos (Run.mpi_world_size w))) loaded
    /\ Run.main args w
       = match py_index (Run.session_decode w) 0 with
         | Err e => (loaded, Err e)
         | Ok beams =>
             match py_index beams 0 with
             | Err e => (loaded, Err e)
             | Ok tokens =>
                 let output_ids :=
                   skipn
                     (List.length
                        (Run.tokenizer_encode w (Run.input_text args)))
                     tokens in
                 ((loaded ++
                   [Run.Print ("Input: " ++ Run.input_text args);
                    Run.Print ("Output Ids: " ++ Run.str_of_list output_ids);
                    Run.Print
                      ("Output: " ++ Run.tokenizer_decode w output_ids)])%list,
                  Ok tt)
             end
         end.
Proof.
  intros Heq. eexists. split; [|split; [|split; [|split]]].
  5:{ unfold Run.main, py_assert. rewrite Heq, Z.eqb_refl. reflexivity. }
  - repeat constructor.
  - cbn. tauto.
  - cbn. tauto.
  - cbn. tauto.
Qed.

(** X17: the script prints the generated tokens without the prompt.  When
    the first beam of the first sequence that the session returns is the
    encoded input followed by the generated tokens, the run ends normally
    and its last three events print the input text, the generated token
    ids and their decoding; nothing is printed before. *)
Theorem X17_prompt_is_stripped (args : Run.arguments) (w : Run.world)
    (generated : list Z) (beams : list (list Z))
    (batches : list (list (list Z))) :
  Run.tensor_parallel (Run.builder (Run.config_json w))
    = Z.pos (Run.mpi_world_size w) ->
  Run.session_decode w
    = ((Run.tokenizer_encode w (Run.input_text args) ++ generated)%list
       :: beams) :: batches ->
  exists loaded,
    Forall (fun e => is_print e = false) loaded
    /\ Run.main args w
       = ((loaded ++
           [Run.Print ("Input: " ++ Run.input_text args);
            Run.Print ("Output Ids: " ++ Run.str_of_list generated);
            Run.Print ("Output: " ++ Run.tokenizer_decode w generated)])%list,
          Ok tt).
Proof.
  intros Heq Hd. destruct (main_matching args w Heq) as (loaded & Hl & _ & _
    & _ & Hm).
  exists loaded. split; [exact Hl|]. rewrite Hm, Hd.
  cbn [py_index nth_error]. cbv zeta.
  now rewrite skipn_app, skipn_all, Nat.sub_diag.
Qed.

Lemma X17_prompt_is_stripped_witness :
  exists loaded,
    Run.main example_arguments (example_world_matching [[[1; 2; 3; 7; 2]]])
    = ((loaded ++
        [Run.Print "Input: Born in north-east France, Soyer trained as a";
         Run.Print "Output Ids: [7, 2]";
         Run.Print "Output: [7, 2]"])%list, Ok tt).
Proof.
  destruct (X17_prompt_is_stripped example_arguments
              (example_world_matching [[[1; 2; 3; 7; 2]]]) [7; 2] [] []
              eq_refl eq_refl) as (loaded & _ & H).
  exists loaded. exact H.
Defined.

(** X18: the script prints on success only, and then three lines.  A
    session that returns no sequence, or no beam for the first sequence,
    ends the run in [IndexError] after the generation, with nothing
    printed. *)
Theorem X18_prints_only_on_success (args : Run.arguments) (w : Run.world) :
  (existsb is_print (fst (Run.main args w)) = true
   <-> snd (Run.main args w) = Ok tt)
  /\ (snd (Run.main args w) = Ok tt ->
      List.length (filter is_print (fst (Run.main args w))) = 3%nat)
  /\ (Run.tensor_parallel (Run.builder (Run.config_json w))
        = Z.pos (Run.mpi_world_size w) ->
      (Run.session_decode w = []
       \/ exists batches, Run.session_decode w = [] :: batches) ->
      snd (Run.main args w) = Err (IndexError "list index out of range")
      /\ existsb Run.loads_or_generates (fst (Run.main args w)) = true).
Proof.
  assert (Hnone : forall l, Forall (fun e => is_print e = false) l ->
            existsb is_print l = false /\ filter is_print l = []).
  { intros l H. induction H as [|e l He _ [IH1 IH2]]; [now split|].
    cbn. now rewrite He, IH1, IH2. }
  destruct (Z.eqb_spec (Run.tensor_parallel (Run.builder (Run.config_json w)))
              (Z.pos (Run.mpi_world_size w))) as [Heq|Hne].
  - destruct (main_matching args w Heq) as (loaded & Hl & _ & Hdec & _ & Hm).
    destruct (Hnone loaded Hl) as [He Hf].
    assert (Hgen : existsb Run.loads_or_generates loaded = true).
    { apply existsb_exists. eexists. split; [exact Hdec | reflexivity]. }
    rewrite Hm.
    destruct (Run.session_decode w) as [|[|tokens beams] batches];
      cbn [py_index nth_error fst snd]; cbv zeta.
    + rewrite He. split; [split; discriminate|].
      split; [discriminate|]. intros _ _. now split.
    + rewrite He. split; [split; discriminate|].
      split; [discriminate|]. intros _ _. now split.
    + rewrite existsb_app, filter_app, length_app, Hf. cbn.
      rewrite orb_true_r. split; [now split|]. split; [reflexivity|].
      intros _ [Hd|[bs Hd]]; discriminate Hd.
  - unfold Run.main, py_assert. rewrite (proj2 (Z.eqb_neq _ _) Hne).
    cbn [fst snd existsb is_print orb]. split; [split; discriminate|].
    split; [discriminate|]. intros Heq. now elim Hne.
Qed.

(** X19: past the check, the device selected is the rank modulo the
    devices of a node, of which the mapping has one at least, so a valid
    index on the node whatever the rank is; and the session is created
    with the heads and the hidden size of one rank, the floor of the
    engine's divided by the world size, and as many key/value heads as
    heads. *)
Theorem X19_session_sizes_per_rank (args : Run.arguments) (w : Run.world) :
  Run.tensor_parallel (Run.builder (Run.config_json w))
    = Z.pos (Run.mpi_world_size w) ->
  let world_size := Z.pos (Run.mpi_world_size w) in
  let device := Run.mpi_rank w mod Z.pos (Run.gpus_per_node w) in
  In (Run.SetDevice device) (fst (Run.main args w))
  /\ 0 <= device < Z.pos (Run.gpus_per_node w)
  /\ exists model_config,
       In (Run.CreateSession model_config (Run.engine_file w) world_size
             (Run.mpi_rank w) world_size) (fst (Run.main args w))
       /\ Run.mc_num_kv_heads model_config = Run.mc_num_heads model_config
       /\ Run.mc_num_heads model_config * world_size
            <= Run.bc_num_heads (Run.builder (Run.config_json w))
            < (Run.mc_num_heads model_config + 1) * world_size
       /\ Run.mc_hidden_size model_config * world_size
            <= Run.bc_hidden_size (Run.builder (Run.config_json w))
            < (Run.mc_hidden_size model_config + 1) * world_size.
Proof.
  intros Heq. cbv zeta.
  destruct (main_matching args w Heq) as (loaded & _ & Hdev & _ & Hs & Hm).
  assert (Hin : forall e, In e loaded -> In e (fst (Run.main args w))).
  { intros e He. rewrite Hm.
    destruct (py_index (Run.session_decode w) 0) as [beams|]; [|exact He].
    destruct (py_index beams 0); [|exact He].
    cbn [fst]. apply in_or_app. now left. }
  split; [now apply Hin|]. split.
  - apply Z.mod_pos_bound. lia.
  - eexists. split; [apply Hin; exact Hs|]. cbn.
    assert (Hp : 0 < Z.pos (Run.mpi_world_size w)) by lia.
    pose proof (Z.mul_div_le
                  (Run.bc_num_heads (Run.builder (Run.config_json w))) _ Hp).
    pose proof (Z.mul_succ_div_gt
                  (Run.bc_num_heads (Run.builder (Run.config_json w))) _ Hp).
    pose proof (Z.mul_div_le
                  (Run.bc_hidden_size (Run.builder (Run.config_json w))) _
                  Hp).
    pose proof (Z.mul_succ_div_gt
                  (Run.bc_hidden_size (Run.builder (Run.config_json w))) _
                  Hp).
    repeat split; lia.
Qed.

Lemma X19_session_sizes_per_rank_witness :
  In (Run.SetDevice 0)
    (fst (Run.main example_arguments
            (example_world_matching [[[1; 2; 3; 7; 2]]]))).
Proof.
  exact (proj1 (X19_session_sizes_per_rank example_arguments
                  (example_world_matching [[[1; 2; 3; 7; 2]]]) eq_refl)).
Defined.

(** * The presents of the stack *)

Lemma layer_forward_present {ops : TensorOps} (l : ChatGLMDecoderLayer.t)
    (hidden_states position_ids : Tensor)
    (kv : KeyValueCacheParams Tensor) (ap : AttentionParams Tensor)
    (out present : Tensor) :
  ChatGLMDecoderLayer.forward l hidden_states position_ids kv ap
    = Ok (ChatGLMDecoderLayer.WithPresents out present) ->
  present
  = Attention_present (ChatGLMDecoderLayer.attention l)
      (Norm_forward (ChatGLMDecoderLayer.pre_norm l) hidden_states)
      (ChatGLMDecoderLayer.use_cache l) kv ap position_ids.
Proof.
  unfold ChatGLMDecoderLayer.forward, ChatGLMDecoderLayer.forward_trace.
  destruct (py_in (ChatGLMDecoderLayer.model_name l) ["chatglm_6b"]).
  - destruct (ChatGLMDecoderLayer.alpha l); cbn; [|discriminate].
    destruct (ChatGLMDecoderLayer.use_cache l); intros [= _ <-] || discriminate.
    reflexivity.
  - destruct (py_in _ _); [|discriminate].
    destruct (ChatGLMDecoderLayer.apply_residual_connection_post_layernorm l);
      cbn; [|discriminate].
    destruct (ChatGLMDecoderLayer.use_cache l); intros [= _ <-] || discriminate.
    reflexivity.
Qed.

Lemma run_layers_presents {ops : TensorOps} (position_ids : Tensor)
    (kv : KeyValueCacheParams Tensor) (ap : AttentionParams Tensor)
    (zipped :
       list (ChatGLMDecoderLayer.t * option Tensor * option Tensor
             * option Tensor))
    (hidden_states threaded : Tensor) (presents all : list Tensor) :
  ChatGLMModel.run_layers true position_ids kv ap zipped hidden_states
    presents = Ok (threaded, all) ->
  all = (presents
         ++ layer_presents position_ids kv ap zipped hidden_states)%list.
Proof.
  revert hidden_states presents.
  induction zipped as [|[[[l past] pointer] mx] rest IH];
    intros hidden_states presents; cbn [ChatGLMModel.run_layers
      layer_presents].
  - intros [= _ <-]. now rewrite app_nil_r.
  - cbv zeta.
    destruct (ChatGLMDecoderLayer.forward l hidden_states position_ids _ ap)
      as [[out present|out]|e] eqn:Ho; cbn [bind]; try discriminate.
    intros Hr. rewrite (IH _ _ Hr), <- app_assoc. cbn [app layer_hidden_states].
    now rewrite (layer_forward_present _ _ _ _ _ _ _ Ho).
Qed.

(** X20: the presents the stack returns are those of the layers it ran, in
    the order of the layers: the i-th is the present of the attention of
    the i-th layer, computed on the pre-norm of the hidden states that the
    layers before it returned. *)
Theorem X20_presents_in_layer_order {ops : TensorOps} (m : ChatGLMModel.t)
    (input_ids position_ids embedded hidden_states : Tensor)
    (kv : KeyValueCacheParams Tensor) (ap : AttentionParams Tensor)
    (pasts pointers max_lengths : list (option Tensor))
    (presents : list Tensor) :
  ChatGLMModel.embed m input_ids position_ids = Ok embedded ->
  let kv' :=
    fill_none_tensor_list kv (Z.of_nat (List.length (ChatGLMModel.layers m)))
  in
  past_key_value kv' = PList pasts ->
  kv_cache_block_pointers kv' = PList pointers ->
  host_max_kv_cache_lengths kv' = PList max_lengths ->
  ChatGLMModel.forward m input_ids position_ids kv ap
    = Ok (ChatGLMModel.WithPresents hidden_states presents) ->
  presents
  = layer_presents position_ids kv' ap
      (zip4 (ChatGLMModel.layers m) pasts pointers max_lengths) embedded.
Proof.
  intros He kv' Hp Hq Hr Hf.
  pose proof (model_forward_kind _ _ _ _ _ _ Hf) as Hu. cbn in Hu.
  revert Hf. unfold ChatGLMModel.forward. rewrite He. cbn [bind].
  fold kv'. rewrite Hp, Hq, Hr, Hu. cbn [py_iter bind].
  destruct (ChatGLMModel.run_layers _ _ _ _ _ _ _) as [[t all]|e] eqn:Hrun;
    cbn [bind fst snd]; [|discriminate].
  intros [= _ <-]. now rewrite (run_layers_presents _ _ _ _ _ _ _ _ Hrun).
Qed.

Lemma X20_presents_in_layer_order_witness :
  exists m hidden_states presents,
    ChatGLMModel.__init__ (example_args "chatglm2_6b" true 2 8 10 2) = Ok m
    /\ ChatGLMModel.forward m example_input_ids example_position_ids
         (example_kv 2) example_attention_params
       = Ok (ChatGLMModel.WithPresents hidden_states presents)
    /\ presents
       = layer_presents example_position_ids (example_kv 2)
           example_attention_params
           (zip4 (ChatGLMModel.layers m) [None; None] [None; None]
              [None; None])
           (Sym.EmbeddingOut (ChatGLMModel.embedding m) example_input_ids).
Proof.
  do 3 eexists.
  assert (Hi : ChatGLMModel.__init__
                 (example_args "chatglm2_6b" true 2 8 10 2) = Ok _)
    by (vm_compute; reflexivity).
  split; [exact Hi|].
  match type of Hi with
  | _ = Ok ?m =>
      assert (Hf : ChatGLMModel.forward m example_input_ids
                     example_position_ids (example_kv 2)
                     example_attention_params
                   = Ok (ChatGLMModel.WithPresents _ _))
        by (vm_compute; reflexivity)
  end.
  split; [exact Hf|].
  match type of Hf with
  | ChatGLMModel.forward ?m _ _ _ _
    = Ok (ChatGLMModel.WithPresents ?h ?p) =>
      exact (X20_presents_in_layer_order (ops := Sym.ops) m
               example_input_ids example_position_ids
               (Sym.EmbeddingOut (ChatGLMModel.embedding m)
                  example_input_ids)
               h (example_kv 2) example_attention_params
               [None; None] [None; None] [None; None] p
               eq_refl eq_refl eq_refl eq_refl Hf)
  end.
Defined.
